(** * Checkout pipeline of the e-commerce payment system: a shallow embedding.

    The Go packages [errors], [validator], [payment], [decorator], [strategy],
    [factory], [repository], [service] and [facade] are embedded as Rocq
    functions.  Amounts are IEEE-754 binary64 numbers (Rocq's primitive
    floats, the same format as Go's [float64]); Go [int] values are [Z];
    Go maps are stdpp [gmap]s; a Go call that returns [(T, error)] returns a
    [result T]; code that reads the clock, draws identifiers or random
    numbers, or touches the repository is a state-passing computation over
    [World] that also emits the ghost trace of the [Payment.Process] and
    [PaymentStrategy.Execute] calls it makes.  Log lines and mutexes have no
    counterpart; the goroutine that notifies the observers is the hand-over
    of the event to the world. *)

From Stdlib Require Import ZArith Floats String Ascii List Bool Lia DecimalString.
From stdpp Require Import gmap strings.
Import ListNotations.

Set Warnings "-register-all,-inexact-float".
#[local] Open Scope string_scope.
#[local] Open Scope Z_scope.

(** ** Numbers: Go's float64 and int, and their renderings *)

Module F64.

(** [float64(n)] for a Go [int]: the nearest binary64, ties to even. *)
Definition of_int (n : Z) : float :=
  SF2Prim (binary_normalize prec emax n 0 false).

Definition min_int64 : Z := - 2 ^ 63.
Definition max_int64 : Z := 2 ^ 63 - 1.

(** [int(x)]: truncation toward zero; outside the int64 range and for NaN
    the Go specification leaves the value to the implementation, amd64
    yields the minimal int64. *)
Definition to_int (x : float) : Z :=
  match Prim2SF x with
  | S754_zero _ => 0
  | S754_finite s m e =>
      let mag := if 0 <=? e then Z.pos m * 2 ^ e else Z.pos m / 2 ^ (- e) in
      let v := if s then - mag else mag in
      if (min_int64 <=? v) && (v <=? max_int64) then v else min_int64
  | _ => min_int64
  end.

(** Go's [int] is a 64-bit two's-complement integer: sums and differences
    wrap around. *)
Definition wrap (n : Z) : Z := (n + 2 ^ 63) mod 2 ^ 64 - 2 ^ 63.
Definition int_add (a b : Z) : Z := wrap (a + b).
Definition int_sub (a b : Z) : Z := wrap (a - b).

(** [%d]. *)
Definition fmt_d (n : Z) : string := NilZero.string_of_int (Z.to_int n).

(** The integer nearest to [n / d] ([d > 0]), ties to the even one. *)
Definition div_half_even (n d : Z) : Z :=
  let q := n / d in
  let r := n mod d in
  match 2 * r ?= d with
  | Lt => q
  | Gt => q + 1
  | Eq => if Z.even q then q else q + 1
  end.

Definition two_digits (n : Z) : string :=
  if n <? 10 then "0" +:+ fmt_d n else fmt_d n.

(** [fmt.Sprintf("%.2f", x)]: the exact value of [x] rounded to two
    decimals (ties to even), with Go's spellings of the special values. *)
Definition fmt2 (x : float) : string :=
  match Prim2SF x with
  | S754_nan => "NaN"
  | S754_infinity false => "+Inf"
  | S754_infinity true => "-Inf"
  | S754_zero s => (if s then "-" else "") +:+ "0.00"
  | S754_finite s m e =>
      let cents :=
        if 0 <=? e then Z.pos m * 100 * 2 ^ e
        else div_half_even (Z.pos m * 100) (2 ^ (- e)) in
      (if s then "-" else "") +:+ fmt_d (cents / 100) +:+ "." +:+ two_digits (cents mod 100)
  end.

End F64.

(** ** Package errors *)

Module Errors.

Definition ErrCodeValidation := "VALIDATION_ERROR".
Definition ErrCodeNotFound := "NOT_FOUND".
Definition ErrCodeAlreadyExists := "ALREADY_EXISTS".
Definition ErrCodeUnauthorized := "UNAUTHORIZED".
Definition ErrCodeInternalError := "INTERNAL_ERROR".
Definition ErrCodePaymentFailed := "PAYMENT_FAILED".
Definition ErrCodeInsufficientFunds := "INSUFFICIENT_FUNDS".
Definition ErrCodeInvalidPayment := "INVALID_PAYMENT".
Definition ErrCodeFraudDetected := "FRAUD_DETECTED".
Definition ErrCodeInventoryError := "INVENTORY_ERROR".
Definition ErrCodeTimeout := "TIMEOUT".

(** A non-nil Go [error] value of the program: an [*AppError] (its
    [Details] map is created empty and never filled on the paths embedded
    here), an error made by [fmt.Errorf] (with the operand of [%w], if
    any), or the error of a finished context. *)
Inductive error : Type :=
| AppError (Code Message : string) (Err : option error)
| Errorf (text : string) (wrapped : option error)
| ContextError (deadlineExceeded : bool).

(** [err.Error()]. *)
Fixpoint Error (e : error) : string :=
  match e with
  | AppError code message (Some inner) => code +:+ ": " +:+ message +:+ ": " +:+ Error inner
  | AppError code message None => code +:+ ": " +:+ message
  | Errorf text _ => text
  | ContextError true => "context deadline exceeded"
  | ContextError false => "context canceled"
  end.

Definition New (code message : string) : error := AppError code message None.

Definition Wrap (err : error) (code message : string) : error :=
  AppError code message (Some err).

Definition NewValidationError (message : string) := New ErrCodeValidation message.
Definition NewNotFoundError (resource : string) := New ErrCodeNotFound (resource +:+ " not found").
Definition NewAlreadyExistsError (resource : string) :=
  New ErrCodeAlreadyExists (resource +:+ " already exists").
Definition NewPaymentError (message : string) := New ErrCodePaymentFailed message.
Definition NewInvalidPaymentError (message : string) := New ErrCodeInvalidPayment message.
Definition NewFraudDetectedError (message : string) := New ErrCodeFraudDetected message.
Definition NewInventoryError (message : string) := New ErrCodeInventoryError message.
Definition NewTimeoutError (message : string) := New ErrCodeTimeout message.

(** [errors.As(err, &appErr)]: the first [*AppError] met while unwrapping;
    the code of that one is what [IsErrorCode] compares. *)
Fixpoint asAppErrorCode (e : error) : option string :=
  match e with
  | AppError code _ _ => Some code
  | Errorf _ (Some inner) => asAppErrorCode inner
  | Errorf _ None => None
  | ContextError _ => None
  end.

Definition IsErrorCode (err : error) (code : string) : bool :=
  match asAppErrorCode err with
  | Some c => String.eqb c code
  | None => false
  end.

Definition GetErrorCode (err : error) : string :=
  match asAppErrorCode err with
  | Some c => c
  | None => ErrCodeInternalError
  end.

(** Whether some error of the chain carries [code] (what unwrapping the
    whole chain would find; the program has no function that does it). *)
Fixpoint chainHasCode (e : error) (code : string) : bool :=
  match e with
  | AppError c _ inner =>
      String.eqb c code || match inner with Some i => chainHasCode i code | None => false end
  | Errorf _ (Some inner) => chainHasCode inner code
  | Errorf _ None => false
  | ContextError _ => false
  end.

End Errors.
Export Errors.

(** A Go call returning [(T, error)].  [Crash] is a run-time panic of the
    call (nil dereference, index out of range). *)
Inductive result (T : Type) : Type :=
| Ok (v : T)
| Fail (e : error)
| Crash.
Arguments Ok {T} v.
Arguments Fail {T} e.
Arguments Crash {T}.

(** ** Package validator *)

Module Validator.

Definition chars (s : string) : list ascii := list_ascii_of_string s.
Definition code (c : ascii) : Z := Z.of_nat (nat_of_ascii c).
Definition len (s : string) : Z := Z.of_nat (String.length s).

Definition isDigit (c : ascii) : bool := (48 <=? code c) && (code c <=? 57).
Definition isLower (c : ascii) : bool := (97 <=? code c) && (code c <=? 122).
Definition isUpper (c : ascii) : bool := (65 <=? code c) && (code c <=? 90).
Definition isLetter (c : ascii) : bool := isLower c || isUpper c.
Definition oneOf (set : string) (c : ascii) : bool :=
  existsb (fun d => Ascii.eqb c d) (chars set).

(** A non-empty run of characters of one class: [^[class]+$]. *)
Definition allOf (cls : ascii -> bool) (s : string) : bool :=
  negb (String.eqb s "") && forallb cls (chars s).

(** [strings.ReplaceAll(s, c, "")] for a one-character [c]. *)
Definition removeChar (c : ascii) (s : string) : string :=
  string_of_list_ascii (filter (fun d => negb (Ascii.eqb c d)) (chars s)).

(** [strings.ToUpper] on ASCII text. *)
Definition ToUpper (s : string) : string :=
  string_of_list_ascii
    (map (fun c => if isLower c then ascii_of_nat (nat_of_ascii c - 32) else c) (chars s)).

(** The Luhn sum of [ValidateCardNumber], read from the last digit. *)
Fixpoint luhnSum (rev_digits : list ascii) (isEven : bool) (sum : Z) : Z :=
  match rev_digits with
  | [] => sum
  | c :: rest =>
      let digit := code c - 48 in
      let digit := if isEven then (if 9 <? digit * 2 then digit * 2 - 9 else digit * 2) else digit in
      luhnSum rest (negb isEven) (sum + digit)
  end.

Definition ValidateCardNumber (cardNumber : string) : option error :=
  let cardNumber := removeChar "-" (removeChar " " cardNumber) in
  if (len cardNumber <? 13) || (19 <? len cardNumber) then
    Some (Errorf "invalid card number length" None)
  else if negb (allOf isDigit cardNumber) then
    Some (Errorf "card number must contain only digits" None)
  else if negb (luhnSum (rev (chars cardNumber)) false 0 mod 10 =? 0) then
    Some (Errorf "invalid card number (failed Luhn check)" None)
  else None.

Definition ValidateCVV (cvv : string) : option error :=
  if (len cvv <? 3) || (4 <? len cvv) then Some (Errorf "CVV must be 3 or 4 digits" None)
  else if negb (allOf isDigit cvv) then Some (Errorf "CVV must contain only digits" None)
  else None.

(** [^\d{2}/\d{2}$], then the month must lie in 1..12 (the two-digit year
    is never negative). *)
Definition ValidateExpiryDate (expiry : string) : option error :=
  match chars expiry with
  | [m1; m2; sep; y1; y2] =>
      if isDigit m1 && isDigit m2 && Ascii.eqb sep "/" && isDigit y1 && isDigit y2 then
        let monthInt := (code m1 - 48) * 10 + (code m2 - 48) in
        if (monthInt <? 1) || (12 <? monthInt) then
          Some (Errorf "invalid month in expiry date" None)
        else None
      else Some (Errorf "expiry date must be in MM/YY format" None)
  | _ => Some (Errorf "expiry date must be in MM/YY format" None)
  end.

(** The text before the first [sep] and the text after it. *)
Fixpoint splitFirst (sep : ascii) (l : list ascii) : option (list ascii * list ascii) :=
  match l with
  | [] => None
  | c :: rest =>
      if Ascii.eqb c sep then Some ([], rest)
      else match splitFirst sep rest with
           | Some (a, b) => Some (c :: a, b)
           | None => None
           end
  end.

(** The text before the last [sep] and the text after it. *)
Definition splitLast (sep : ascii) (l : list ascii) : option (list ascii * list ascii) :=
  match splitFirst sep (rev l) with
  | Some (a, b) => Some (rev b, rev a)
  | None => None
  end.

Definition nonEmptyAll (cls : ascii -> bool) (l : list ascii) : bool :=
  match l with [] => false | _ => forallb cls l end.

(** [^[a-zA-Z0-9._%+\-]+@[a-zA-Z0-9.\-]+\.[a-zA-Z]{2,}$]: neither class
    contains [@], and the final letters contain no dot, so the match splits
    at the first [@] and at the last dot. *)
Definition emailMatches (email : string) : bool :=
  let localCls c := isLetter c || isDigit c || oneOf "._%+-" c in
  let domainCls c := isLetter c || isDigit c || oneOf ".-" c in
  match splitFirst "@" (chars email) with
  | Some (loc, rest) =>
      match splitLast "." rest with
      | Some (dom, tld) =>
          nonEmptyAll localCls loc && nonEmptyAll domainCls dom
          && forallb isLetter tld && (2 <=? Z.of_nat (length tld))
      | None => false
      end
  | None => false
  end.

Definition EmailValidate (email : string) : option error :=
  if emailMatches email then None else Some (Errorf "invalid email address" None).

(** [^[13][a-km-zA-HJ-NP-Z1-9]{25,34}$|^bc1[a-z0-9]{39,59}$]. *)
Definition bitcoinMatches (address : string) : bool :=
  let base58 c :=
    (isLower c && negb (Ascii.eqb c "l"))
    || (isUpper c && negb (oneOf "IO" c))
    || ((49 <=? code c) && (code c <=? 57)) in
  let legacy :=
    match chars address with
    | c :: rest =>
        oneOf "13" c && forallb base58 rest
        && (25 <=? Z.of_nat (length rest)) && (Z.of_nat (length rest) <=? 34)
    | [] => false
    end in
  let segwit :=
    match chars address with
    | b :: c :: one :: rest =>
        Ascii.eqb b "b" && Ascii.eqb c "c" && Ascii.eqb one "1"
        && forallb (fun d => isLower d || isDigit d) rest
        && (39 <=? Z.of_nat (length rest)) && (Z.of_nat (length rest) <=? 59)
    | _ => false
    end in
  legacy || segwit.

Definition validateBitcoinAddress (address : string) : option error :=
  if (len address <? 26) || (35 <? len address) then
    Some (Errorf "invalid Bitcoin address length" None)
  else if negb (bitcoinMatches address) then
    Some (Errorf "invalid Bitcoin address format" None)
  else None.

(** [^0x[a-fA-F0-9]{40}$]. *)
Definition validateEthereumAddress (address : string) : option error :=
  if negb (len address =? 42) then Some (Errorf "invalid Ethereum address length" None)
  else
    match chars address with
    | z :: x :: rest =>
        if Ascii.eqb z "0" && Ascii.eqb x "x"
           && forallb (fun d => isDigit d || oneOf "abcdefABCDEF" d) rest
        then None
        else Some (Errorf "invalid Ethereum address format" None)
    | _ => Some (Errorf "invalid Ethereum address format" None)
    end.

Definition CryptoAddressValidate (address currency : string) : option error :=
  let upper := ToUpper currency in
  if String.eqb upper "BTC" then validateBitcoinAddress address
  else if String.eqb upper "ETH" then validateEthereumAddress address
  else if String.eqb upper "USDT" then validateEthereumAddress address
  else Some (Errorf ("unsupported cryptocurrency: " +:+ currency) None).

(** [AmountValidator.Validate]: the three comparisons are float64
    comparisons, so a NaN amount passes all of them. *)
Definition AmountValidate (amount min max : float) : option error :=
  if (amount <? min)%float then
    Some (Errorf ("amount " +:+ F64.fmt2 amount +:+ " is below minimum " +:+ F64.fmt2 min) None)
  else if (max <? amount)%float then
    Some (Errorf ("amount " +:+ F64.fmt2 amount +:+ " exceeds maximum " +:+ F64.fmt2 max) None)
  else if (amount <? 0)%float then
    Some (Errorf "amount cannot be negative" None)
  else None.

End Validator.

(** ** Package payment: results and metadata *)

(** A value stored in a [map[string]interface{}].  Instants rendered with
    [time.RFC3339] are kept as the instant itself ([MVTime]). *)
Inductive MetaValue : Type :=
| MVFloat (f : float)
| MVInt (n : Z)
| MVString (s : string)
| MVStrings (l : list string)
| MVTime (t : Z)
| MVMaps (l : list (gmap string MetaValue)).

Abbreviation MetaMap := (gmap string MetaValue).

(** Instants and durations are nanosecond counts; the zero [time.Time] is 0. *)
Definition Time := Z.
Definition Duration := Z.
Definition Millisecond : Duration := 1000000.
Definition Hour : Duration := 3600 * 1000 * Millisecond.

Record PaymentResult : Type := mkPaymentResult {
  Success : bool;
  TransactionID : string;
  Amount : float;
  OriginalAmount : float;
  ProcessedAmount : float;
  Currency : string;
  PaymentMethod : string;
  Message : string;
  Metadata : option MetaMap;          (* [None] is the nil map *)
  AppliedDecorators : list string
}.

Definition withOriginalAmount (x : float) (r : PaymentResult) : PaymentResult :=
  mkPaymentResult (Success r) (TransactionID r) (Amount r) x (ProcessedAmount r)
    (Currency r) (PaymentMethod r) (Message r) (Metadata r) (AppliedDecorators r).

Definition withProcessedAmount (x : float) (r : PaymentResult) : PaymentResult :=
  mkPaymentResult (Success r) (TransactionID r) (Amount r) (OriginalAmount r) x
    (Currency r) (PaymentMethod r) (Message r) (Metadata r) (AppliedDecorators r).

Definition withAmount (x : float) (r : PaymentResult) : PaymentResult :=
  mkPaymentResult (Success r) (TransactionID r) x (OriginalAmount r) (ProcessedAmount r)
    (Currency r) (PaymentMethod r) (Message r) (Metadata r) (AppliedDecorators r).

(** [result.AppliedDecorators = append(result.AppliedDecorators, name)]. *)
Definition appendDecorator (name : string) (r : PaymentResult) : PaymentResult :=
  mkPaymentResult (Success r) (TransactionID r) (Amount r) (OriginalAmount r) (ProcessedAmount r)
    (Currency r) (PaymentMethod r) (Message r) (Metadata r) (AppliedDecorators r ++ [name]).

(** [if result.Metadata == nil { result.Metadata = make(...) }]. *)
Definition ensureMetadata (r : PaymentResult) : PaymentResult :=
  mkPaymentResult (Success r) (TransactionID r) (Amount r) (OriginalAmount r) (ProcessedAmount r)
    (Currency r) (PaymentMethod r) (Message r)
    (Some (default ∅ (Metadata r))) (AppliedDecorators r).

(** [result.Metadata[key] = v]; on the nil map Go panics, every caller
    runs [ensureMetadata] first. *)
Definition setMeta (key : string) (v : MetaValue) (r : PaymentResult) : PaymentResult :=
  mkPaymentResult (Success r) (TransactionID r) (Amount r) (OriginalAmount r) (ProcessedAmount r)
    (Currency r) (PaymentMethod r) (Message r)
    (Some (<[key := v]> (default ∅ (Metadata r)))) (AppliedDecorators r).

(** [result.Metadata[key]] (reading the nil map finds nothing). *)
Definition getMeta (key : string) (r : PaymentResult) : option MetaValue :=
  default ∅ (Metadata r) !! key.

(** ** Package domain *)

Record Address : Type := mkAddress {
  Street : string; City : string; State : string; PostalCode : string; Country : string
}.

Record Customer : Type := mkCustomer {
  CustomerID_ : string;               (* Customer.ID *)
  Email : string;
  Name : string;
  Phone : string;
  LoyaltyPoints : Z;
  CustomerAddress : Address
}.

Record Product : Type := mkProduct {
  ProductID_ : string;                (* Product.ID *)
  ProductName : string;
  Description : string;
  Price : float;
  SKU : string;
  Stock : Z;
  Category : string
}.

Definition withStock (n : Z) (p : Product) : Product :=
  mkProduct (ProductID_ p) (ProductName p) (Description p) (Price p) (SKU p) n (Category p).

Record CartItem : Type := mkCartItem {
  ItemProductID : string;             (* CartItem.ProductID *)
  ItemProduct : Product;
  Quantity : Z;
  ItemPrice : float
}.

Record Cart : Type := mkCart {
  CartID : string;
  CartCustomerID : string;
  Items : list CartItem
}.

(** [Cart.GetTotal]: the running float64 sum, in item order. *)
Definition GetTotal (c : Cart) : float :=
  fold_left (fun total item => (total + ItemPrice item * F64.of_int (Quantity item))%float)
    (Items c) 0%float.

Definition Clear (c : Cart) : Cart := mkCart (CartID c) (CartCustomerID c) [].

(** [Cart.GetItemCount]: the running sum of the quantities (a Go [int]). *)
Definition GetItemCount (c : Cart) : Z :=
  fold_left (fun count item => F64.int_add count (Quantity item)) (Items c) 0.

Definition withQuantity (n : Z) (item : CartItem) : CartItem :=
  mkCartItem (ItemProductID item) (ItemProduct item) n (ItemPrice item).

(** The loop of [Cart.AddItem]: the first line of the product, if there is
    one, gets the quantity added ([None] when the loop falls through). *)
Fixpoint addToLine (items : list CartItem) (productID : string) (quantity : Z)
    : option (list CartItem) :=
  match items with
  | [] => None
  | item :: rest =>
      if String.eqb (ItemProductID item) productID then
        Some (withQuantity (F64.int_add (Quantity item) quantity) item :: rest)
      else
        match addToLine rest productID quantity with
        | Some rest' => Some (item :: rest')
        | None => None
        end
  end.

(** [Cart.AddItem]: a product the cart does not hold yet gets a line of
    its own at the end, at the product's price. *)
Definition AddItem (c : Cart) (product : Product) (quantity : Z) : Cart :=
  match addToLine (Items c) (ProductID_ product) quantity with
  | Some items => mkCart (CartID c) (CartCustomerID c) items
  | None =>
      mkCart (CartID c) (CartCustomerID c)
        (Items c ++ [mkCartItem (ProductID_ product) product quantity (Price product)])
  end.

(** The loop of [Cart.RemoveItem]: the first line of the product is cut out. *)
Fixpoint removeLine (items : list CartItem) (productID : string) : list CartItem :=
  match items with
  | [] => []
  | item :: rest =>
      if String.eqb (ItemProductID item) productID then rest
      else item :: removeLine rest productID
  end.

Definition RemoveItem (c : Cart) (productID : string) : Cart :=
  mkCart (CartID c) (CartCustomerID c) (removeLine (Items c) productID).

(** The loop of [Cart.UpdateQuantity] for a positive quantity: the first
    line of the product gets the quantity; no line, no change. *)
Fixpoint setLine (items : list CartItem) (productID : string) (quantity : Z) : list CartItem :=
  match items with
  | [] => []
  | item :: rest =>
      if String.eqb (ItemProductID item) productID then withQuantity quantity item :: rest
      else item :: setLine rest productID quantity
  end.

Definition UpdateQuantity (c : Cart) (productID : string) (quantity : Z) : Cart :=
  if quantity <=? 0 then RemoveItem c productID
  else mkCart (CartID c) (CartCustomerID c) (setLine (Items c) productID quantity).

Inductive TransactionStatus : Type :=
| TransactionStatusPending
| TransactionStatusProcessing
| TransactionStatusCompleted
| TransactionStatusFailed
| TransactionStatusRefunded.

Record Transaction : Type := mkTransaction {
  TxID : string;
  TxCustomerID : string;
  TxAmount : float;
  Status : TransactionStatus;
  TxPaymentMethod : string;
  PaymentDetails : option MetaMap;
  TxMetadata : option MetaMap;
  ErrorMessage : string;
  ProcessedAt : Time;
  CreatedAt : Time
}.

Record ReceiptItem : Type := mkReceiptItem {
  RIProductID : string; RIProductName : string; RISKU : string;
  RIQuantity : Z; UnitPrice : float; RITotal : float
}.

Record Receipt : Type := mkReceipt {
  ReceiptID : string;
  RTransactionID : string;
  RCustomerID : string;
  RCustomerName : string;
  RCustomerEmail : string;
  RItems : list ReceiptItem;
  Subtotal : float;
  Discount : float;
  Tax : float;
  Cashback : float;
  RLoyaltyPoints : Z;
  Total : float;
  RPaymentMethod : string;
  RPaymentDetails : option MetaMap;
  RAppliedDecorators : list string;
  RCreatedAt : Time
}.

Record CheckoutOptions : Type := mkCheckoutOptions {
  OptPaymentMethod : string;
  OptPaymentStrategy : string;
  EnabledDecorators : list string;
  DiscountCode : string;
  UseLoyaltyPoints : Z;
  OptMetadata : option MetaMap
}.

(** ** Package observer: the events handed to the subject *)

Inductive EventType : Type :=
| EventPaymentStarted | EventPaymentSuccess | EventPaymentFailed | EventRefundIssued.

Record Event : Type := mkEvent {
  EvType : EventType;
  EvTransactionID : string;
  EvCustomerID : string;
  EvAmount : float;
  EvPaymentMethod : string;
  EvResult : option PaymentResult;
  EvError : option error;
  EvTimestamp : Time
}.

(** ** The world the checkout runs in *)

(** The in-memory repository ([MemoryRepository]): four maps keyed by id. *)
Record Repo : Type := mkRepo {
  customers : gmap string Customer;
  products : gmap string Product;
  carts : gmap string Cart;
  transactions : gmap string Transaction
}.

(** What the code reads and writes besides its arguments: the clock
    ([time.Now], advanced by [time.Sleep]), the identifiers [uuid.New] will
    hand out, the numbers [math/rand] will hand out, the next free instance
    address, the [transactionHistory] map of every fraud-detection decorator
    (by instance address), the repository, and the events handed to the
    event subject. *)
Record World : Type := mkWorld {
  clock : Time;
  uuidSource : nat -> string;
  uuidsDrawn : nat;
  randSource : nat -> Z;
  randsDrawn : nat;
  allocated : nat;
  velocity : gmap nat (gmap string (list Time));
  repo : Repo;
  emitted : list Event
}.

(** Ghost trace: the interface calls a computation made, in order. *)
Inductive Call : Type :=
| CallProcess (payment : nat) (amount : float)
| CallExecute (strategy : string) (amount : float).

Record Out (A : Type) : Type := mkOut {
  value : A;
  world : World;
  calls : list Call
}.
Arguments mkOut {A} value world calls.
Arguments value {A} o.
Arguments world {A} o.
Arguments calls {A} o.

Definition M (A : Type) : Type := World -> Out A.

#[global] Instance M_ret : MRet M := fun A a w => mkOut a w [].
#[global] Instance M_bind : MBind M := fun A B f m w =>
  let o := m w in
  let o' := f (value o) (world o) in
  mkOut (value o') (world o') (calls o ++ calls o').

Definition tell (c : Call) : M unit := fun w => mkOut tt w [c].

(** [time.Now()]. *)
Definition Now : M Time := fun w => mkOut (clock w) w [].

(** [time.Sleep(d)]. *)
Definition Sleep (d : Duration) : M unit := fun w =>
  mkOut tt (mkWorld (clock w + Z.max 0 d) (uuidSource w) (uuidsDrawn w) (randSource w)
              (randsDrawn w) (allocated w) (velocity w) (repo w) (emitted w)) [].

(** [domain.NewID()]. *)
Definition NewID : M string := fun w =>
  mkOut (uuidSource w (uuidsDrawn w))
    (mkWorld (clock w) (uuidSource w) (S (uuidsDrawn w)) (randSource w)
       (randsDrawn w) (allocated w) (velocity w) (repo w) (emitted w)) [].

(** [rand.Intn(n)] for [n > 0]. *)
Definition Intn (n : Z) : M Z := fun w =>
  mkOut (randSource w (randsDrawn w) mod n)
    (mkWorld (clock w) (uuidSource w) (uuidsDrawn w) (randSource w)
       (S (randsDrawn w)) (allocated w) (velocity w) (repo w) (emitted w)) [].

(** The address of a newly allocated object ([&T{...}]). *)
Definition alloc : M nat := fun w =>
  mkOut (allocated w)
    (mkWorld (clock w) (uuidSource w) (uuidsDrawn w) (randSource w)
       (randsDrawn w) (S (allocated w)) (velocity w) (repo w) (emitted w)) [].

Definition getVelocity (inst : nat) : M (gmap string (list Time)) := fun w =>
  mkOut (default ∅ (velocity w !! inst)) w [].

Definition putVelocity (inst : nat) (h : gmap string (list Time)) : M unit := fun w =>
  mkOut tt (mkWorld (clock w) (uuidSource w) (uuidsDrawn w) (randSource w)
              (randsDrawn w) (allocated w) (<[inst := h]> (velocity w)) (repo w) (emitted w)) [].

Definition getRepo : M Repo := fun w => mkOut (repo w) w [].

Definition putRepo (r : Repo) : M unit := fun w =>
  mkOut tt (mkWorld (clock w) (uuidSource w) (uuidsDrawn w) (randSource w)
              (randsDrawn w) (allocated w) (velocity w) r (emitted w)) [].

(** [eventSubject.Notify] runs in a goroutine of its own; the embedding
    records the event handed over. *)
Definition emit (e : Event) : M unit := fun w =>
  mkOut tt (mkWorld (clock w) (uuidSource w) (uuidsDrawn w) (randSource w)
              (randsDrawn w) (allocated w) (velocity w) (repo w) (emitted w ++ [e])) [].

(** A [context.Context]: whether it was already finished when handed in
    (and how), and its deadline. *)
Record Context : Type := mkContext {
  ctxDone : option bool;              (* [Some true]: deadline exceeded; [Some false]: canceled *)
  ctxDeadline : option Time
}.

Definition Background : Context := mkContext None None.

(** [ctx.Err()]. *)
Definition ctxErr (ctx : Context) : M (option error) :=
  now ← Now;
  mret (match ctxDone ctx with
        | Some k => Some (ContextError k)
        | None =>
            match ctxDeadline ctx with
            | Some d => if d <=? now then Some (ContextError true) else None
            | None => None
            end
        end).

(** [context.WithTimeout(parent, timeout)]. *)
Definition WithTimeout (parent : Context) (timeout : Duration) : M Context :=
  now ← Now;
  mret (mkContext (ctxDone parent)
          (Some (match ctxDeadline parent with
                 | Some d => Z.min d (now + timeout)
                 | None => now + timeout
                 end))).

(** ** Package payment: the Payment interface and the three instruments *)

Record Payment : Type := mkPayment {
  addr : nat;                          (* the instance behind the interface value *)
  Process : Context -> float -> M (result PaymentResult);
  GetType : string;
  GetDetails : MetaMap
}.

(** The call [p.Process(ctx, amount)]. *)
Definition invoke (p : Payment) (ctx : Context) (amount : float) : M (result PaymentResult) :=
  _ ← tell (CallProcess (addr p) amount);
  Process p ctx amount.

Definition lastChars (n : nat) (s : string) : string :=
  String.substring (String.length s - n) n s.

Definition getLastFourDigits (cardNumber : string) : string :=
  if Validator.len cardNumber <? 4 then "****" else "****" +:+ lastChars 4 cardNumber.

Definition maskWalletAddress (walletAddress : string) : string :=
  if Validator.len walletAddress <? 10 then "****"
  else String.substring 0 6 walletAddress +:+ "****" +:+ lastChars 4 walletAddress.

(** The common body of the three [Process] methods: context check, amount
    range, simulated latency, a fresh transaction id, the amount echoed. *)
Definition processInstrument (min max : float) (latency : Duration)
    (build : string -> Time -> float -> PaymentResult)
    (ctx : Context) (amount : float) : M (result PaymentResult) :=
  cerr ← ctxErr ctx;
  match cerr with
  | Some e => mret (Fail (Wrap e ErrCodeTimeout "payment context expired"))
  | None =>
      match Validator.AmountValidate amount min max with
      | Some e => mret (Fail (Wrap e ErrCodeValidation "invalid payment amount"))
      | None =>
          _ ← Sleep latency;
          transactionID ← NewID;
          now ← Now;
          mret (Ok (build transactionID now amount))
      end
  end.

Definition creditCardResult (cardNumber cardHolder : string)
    (transactionID : string) (now : Time) (amount : float) : PaymentResult :=
  {| Success := true; TransactionID := transactionID;
     Amount := amount; OriginalAmount := amount; ProcessedAmount := amount;
     Currency := "USD"; PaymentMethod := "credit_card";
     Message := "Payment processed successfully";
     Metadata := Some (<["card_holder" := MVString cardHolder]>
                        (<["last_4_digits" := MVString (getLastFourDigits cardNumber)]>
                          (<["processed_at" := MVTime now]> ∅)));
     AppliedDecorators := [] |}.

Definition NewCreditCardPayment (cardNumber cardHolder expiryDate cvv : string)
    : M (result Payment) :=
  match Validator.ValidateCardNumber cardNumber with
  | Some e => mret (Fail (Wrap e ErrCodeInvalidPayment "invalid card number"))
  | None =>
  match Validator.ValidateCVV cvv with
  | Some e => mret (Fail (Wrap e ErrCodeInvalidPayment "invalid CVV"))
  | None =>
  match Validator.ValidateExpiryDate expiryDate with
  | Some e => mret (Fail (Wrap e ErrCodeInvalidPayment "invalid expiry date"))
  | None =>
      if String.eqb cardHolder "" then
        mret (Fail (NewInvalidPaymentError "card holder name is required"))
      else
        a ← alloc;
        mret (Ok {| addr := a;
                    Process := processInstrument 1 10000 (100 * Millisecond)
                                 (creditCardResult cardNumber cardHolder);
                    GetType := "credit_card";
                    GetDetails := <["type" := MVString "credit_card"]>
                                    (<["card_holder" := MVString cardHolder]>
                                      (<["last_4_digits" := MVString (getLastFourDigits cardNumber)]>
                                        (<["expiry_date" := MVString expiryDate]> ∅))) |})
  end end end.

Definition payPalResult (email : string)
    (transactionID : string) (now : Time) (amount : float) : PaymentResult :=
  {| Success := true; TransactionID := transactionID;
     Amount := amount; OriginalAmount := amount; ProcessedAmount := amount;
     Currency := "USD"; PaymentMethod := "paypal";
     Message := "PayPal payment processed successfully";
     Metadata := Some (<["paypal_email" := MVString email]>
                        (<["processed_at" := MVTime now]> ∅));
     AppliedDecorators := [] |}.

Definition NewPayPalPayment (email password : string) : M (result Payment) :=
  match Validator.EmailValidate email with
  | Some e => mret (Fail (Wrap e ErrCodeInvalidPayment "invalid PayPal email"))
  | None =>
      if String.eqb password "" then
        mret (Fail (NewInvalidPaymentError "PayPal password is required"))
      else
        a ← alloc;
        mret (Ok {| addr := a;
                    Process := processInstrument 1 5000 (150 * Millisecond) (payPalResult email);
                    GetType := "paypal";
                    GetDetails := <["type" := MVString "paypal"]>
                                    (<["paypal_email" := MVString email]> ∅) |})
  end.

Definition cryptoResult (walletAddress cryptoType : string)
    (transactionID : string) (now : Time) (amount : float) : PaymentResult :=
  {| Success := true; TransactionID := transactionID;
     Amount := amount; OriginalAmount := amount; ProcessedAmount := amount;
     Currency := cryptoType; PaymentMethod := "crypto";
     Message := "Cryptocurrency payment processed successfully";
     Metadata := Some (<["crypto_type" := MVString cryptoType]>
                        (<["wallet_address" := MVString (maskWalletAddress walletAddress)]>
                          (<["blockchain_tx" := MVString ("0x" +:+ String.substring 0 16 transactionID)]>
                            (<["processed_at" := MVTime now]> ∅))));
     AppliedDecorators := [] |}.

(** [transactionID[:16]] panics on an identifier shorter than 16 bytes; a
    UUID string has 36. *)
Definition cryptoProcess (walletAddress cryptoType : string)
    (ctx : Context) (amount : float) : M (result PaymentResult) :=
  r ← processInstrument 10 50000 (200 * Millisecond) (cryptoResult walletAddress cryptoType) ctx amount;
  mret (match r with
        | Ok res => if Validator.len (TransactionID res) <? 16 then Crash else Ok res
        | other => other
        end).

Definition NewCryptoPayment (walletAddress cryptoType : string) : M (result Payment) :=
  let cryptoType := Validator.ToUpper cryptoType in
  match Validator.CryptoAddressValidate walletAddress cryptoType with
  | Some e => mret (Fail (Wrap e ErrCodeInvalidPayment "invalid wallet address"))
  | None =>
      if negb (existsb (String.eqb cryptoType) ["BTC"; "ETH"; "USDT"]) then
        mret (Fail (NewInvalidPaymentError ("unsupported cryptocurrency type: " +:+ cryptoType)))
      else
        a ← alloc;
        mret (Ok {| addr := a;
                    Process := cryptoProcess walletAddress cryptoType;
                    GetType := "crypto";
                    GetDetails := <["type" := MVString "crypto"]>
                                    (<["crypto_type" := MVString cryptoType]>
                                      (<["wallet_address" := MVString (maskWalletAddress walletAddress)]> ∅)) |})
  end.

(** ** Package decorator

    A decorator is a [Payment] built around one wrapped [Payment];
    [GetType] and [GetDetails] are those of the wrapped one
    ([BaseDecorator]). *)

Definition decorate (a : nat) (wrapped : Payment)
    (process : Context -> float -> M (result PaymentResult)) : Payment :=
  {| addr := a; Process := process; GetType := GetType wrapped; GetDetails := GetDetails wrapped |}.

Module DiscountDecorator.

Record Config : Type := mkConfig {
  DiscountType : string;
  DiscountValue : float;
  MinAmount : float;
  MaxDiscount : float;
  ExpiryDate : Time;
  DiscountCode : string
}.

Definition calculateDiscount (d : Config) (amount : float) : float :=
  let discount :=
    if String.eqb (DiscountType d) "percentage"
    then (amount * (DiscountValue d / 100))%float
    else DiscountValue d in
  let discount :=
    if (0 <? MaxDiscount d)%float && (MaxDiscount d <? discount)%float
    then MaxDiscount d else discount in
  if (amount <? discount)%float then amount else discount.

(** [!d.expiryDate.IsZero() && time.Now().After(d.expiryDate)]. *)
Definition expired (d : Config) (now : Time) : bool :=
  negb (ExpiryDate d =? 0) && (ExpiryDate d <? now).

Definition Process (d : Config) (wrapped : Payment)
    (ctx : Context) (amount : float) : M (result PaymentResult) :=
  now ← Now;
  if expired d now then
    mret (Fail (NewValidationError "discount code has expired"))
  else if (amount <? MinAmount d)%float then
    mret (Fail (NewValidationError
                  ("minimum amount for discount is $" +:+ F64.fmt2 (MinAmount d))))
  else
    let discountAmount := calculateDiscount d amount in
    let finalAmount := (amount - discountAmount)%float in
    let finalAmount := if (finalAmount <? 0)%float then 0%float else finalAmount in
    r ← invoke wrapped ctx finalAmount;
    mret (match r with
          | Ok result =>
              let result := withOriginalAmount amount result in
              let result := withProcessedAmount finalAmount result in
              let result := withAmount finalAmount result in
              let result := appendDecorator "discount" result in
              let result := ensureMetadata result in
              let result := setMeta "discount_type" (MVString (DiscountType d)) result in
              let result := setMeta "discount_value" (MVFloat (DiscountValue d)) result in
              let result := setMeta "discount_amount" (MVFloat discountAmount) result in
              let result := setMeta "discount_code" (MVString (DiscountCode d)) result in
              Ok result
          | other => other
          end).

Definition New (wrapped : Payment) (config : Config) : M (result Payment) :=
  if (DiscountValue config <=? 0)%float then
    mret (Fail (NewValidationError "discount value must be positive"))
  else if String.eqb (DiscountType config) "percentage" && (100 <? DiscountValue config)%float then
    mret (Fail (NewValidationError "percentage discount cannot exceed 100%"))
  else
    a ← alloc;
    mret (Ok (decorate a wrapped (Process config wrapped))).

End DiscountDecorator.

Module TaxDecorator.

Record Config : Type := mkConfig {
  Region : string;
  TaxRates : gmap string float;
  DefaultRate : float
}.

Definition taxRate (config : Config) : float :=
  match TaxRates config !! Region config with
  | Some rate => rate
  | None => DefaultRate config
  end.

Definition Process (d : Config) (wrapped : Payment)
    (ctx : Context) (amount : float) : M (result PaymentResult) :=
  let taxAmount := (amount * (taxRate d / 100))%float in
  let totalAmount := (amount + taxAmount)%float in
  r ← invoke wrapped ctx totalAmount;
  mret (match r with
        | Ok result =>
            let result :=
              if (OriginalAmount result =? 0)%float
              then withOriginalAmount amount result else result in
            let result := withProcessedAmount totalAmount result in
            let result := withAmount totalAmount result in
            let result := appendDecorator "tax" result in
            let result := ensureMetadata result in
            let result := setMeta "subtotal" (MVFloat amount) result in
            let result := setMeta "tax_amount" (MVFloat taxAmount) result in
            let result := setMeta "tax_rate" (MVFloat (taxRate d)) result in
            let result := setMeta "tax_region" (MVString (Region d)) result in
            Ok result
        | other => other
        end).

Definition New (wrapped : Payment) (config : Config) : M Payment :=
  a ← alloc;
  mret (decorate a wrapped (Process config wrapped)).

End TaxDecorator.

Module CashbackDecorator.

Record Config : Type := mkConfig {
  Tier1Threshold : float;
  Tier1Percentage : float;
  Tier2Percentage : float
}.

Definition getCashbackPercentage (d : Config) (amount : float) : float :=
  if (Tier1Threshold d <=? amount)%float then Tier2Percentage d else Tier1Percentage d.

Definition calculateCashback (d : Config) (amount : float) : float :=
  (amount * (getCashbackPercentage d amount / 100))%float.

Definition Process (d : Config) (wrapped : Payment)
    (ctx : Context) (amount : float) : M (result PaymentResult) :=
  let cashbackAmount := calculateCashback d amount in
  r ← invoke wrapped ctx amount;
  mret (match r with
        | Ok result =>
            let result := appendDecorator "cashback" result in
            let result := ensureMetadata result in
            let result := setMeta "cashback_amount" (MVFloat cashbackAmount) result in
            let result := setMeta "cashback_percentage"
                            (MVFloat (getCashbackPercentage d amount)) result in
            Ok result
        | other => other
        end).

Definition New (wrapped : Payment) (config : Config) : M Payment :=
  a ← alloc;
  mret (decorate a wrapped (Process config wrapped)).

End CashbackDecorator.

Module FraudDetectionDecorator.

Record Config : Type := mkConfig {
  MaxRiskScore : Z;
  VelocityCheckWindow : Duration;
  MaxTransactionsPerWindow : Z;
  CustomerID : string
}.

Definition calculateRiskScore (amount : float) : M Z :=
  let score := 0 in
  let score := if (1000 <? amount)%float then score + 20 else score in
  let score := if (5000 <? amount)%float then score + 30 else score in
  r ← Intn 30;
  mret (score + r).

(** The window is printed by Go with [Duration.String]; the embedding
    prints its nanosecond count. *)
Definition velocityCheck (inst : nat) (d : Config) : M (option error) :=
  history ← getVelocity inst;
  match history !! "default" with
  | None => mret None
  | Some txs =>
      now ← Now;
      let cutoff := now - VelocityCheckWindow d in
      let recent := filter (fun tx => cutoff <? tx) txs in
      if MaxTransactionsPerWindow d <=? Z.of_nat (length recent) then
        mret (Some (NewFraudDetectedError
                      ("transaction velocity exceeded: " +:+ F64.fmt_d (Z.of_nat (length recent))
                       +:+ " transactions in " +:+ F64.fmt_d (VelocityCheckWindow d) +:+ "ns")))
      else mret None
  end.

Definition geolocationCheck : M (option error) :=
  r ← Intn 100;
  mret (if r <? 5 then Some (NewFraudDetectedError "geolocation validation failed") else None).

Definition recordTransaction (inst : nat) : M unit :=
  history ← getVelocity inst;
  let txs := default [] (history !! "default") in
  now ← Now;
  putVelocity inst (<["default" := (txs ++ [now])%list]> history).

Definition Process (inst : nat) (d : Config) (wrapped : Payment)
    (ctx : Context) (amount : float) : M (result PaymentResult) :=
  riskScore ← calculateRiskScore amount;
  if MaxRiskScore d <? riskScore then
    mret (Fail (NewFraudDetectedError
                  ("transaction blocked: high fraud risk (score: " +:+ F64.fmt_d riskScore +:+ ")")))
  else
    verr ← velocityCheck inst d;
    match verr with
    | Some e => mret (Fail e)
    | None =>
        gerr ← geolocationCheck;
        match gerr with
        | Some e => mret (Fail e)
        | None =>
            r ← invoke wrapped ctx amount;
            match r with
            | Ok result =>
                _ ← recordTransaction inst;
                let result := appendDecorator "fraud_detection" result in
                let result := ensureMetadata result in
                let result := setMeta "fraud_risk_score" (MVInt riskScore) result in
                let result := setMeta "fraud_checks_passed"
                                (MVStrings ["risk_score"; "velocity_check"; "geolocation_check"])
                                result in
                mret (Ok result)
            | other => mret other
            end
        end
    end.

Definition New (wrapped : Payment) (config : Config) : M Payment :=
  a ← alloc;
  _ ← putVelocity a ∅;
  mret (decorate a wrapped (Process a config wrapped)).

End FraudDetectionDecorator.

Module LoyaltyPointsDecorator.

Record Config : Type := mkConfig {
  AvailablePoints : Z;
  PointsToRedeem : Z;
  PointsToCurrencyRatio : float;
  MaxRedemptionPercentage : float
}.

(** [float64(d.pointsToRedeem) / d.pointsToCurrencyRatio]. *)
Definition discount (d : Config) : float :=
  (F64.of_int (PointsToRedeem d) / PointsToCurrencyRatio d)%float.

Definition maxRedemption (d : Config) (amount : float) : float :=
  (amount * (MaxRedemptionPercentage d / 100))%float.

Definition finalAmount (d : Config) (amount : float) : float :=
  let finalAmount := (amount - discount d)%float in
  if (finalAmount <? 0)%float then 0%float else finalAmount.

Definition Process (d : Config) (wrapped : Payment)
    (ctx : Context) (amount : float) : M (result PaymentResult) :=
  if (maxRedemption d amount <? discount d)%float then
    mret (Fail (NewValidationError
                  ("loyalty points redemption exceeds maximum ("
                   +:+ F64.fmt2 (MaxRedemptionPercentage d) +:+ "% of purchase)")))
  else
    let pointsEarned := F64.to_int amount in
    r ← invoke wrapped ctx (finalAmount d amount);
    mret (match r with
          | Ok result =>
              let result :=
                if (OriginalAmount result =? 0)%float
                then withOriginalAmount amount result else result in
              let result := withProcessedAmount (finalAmount d amount) result in
              let result := withAmount (finalAmount d amount) result in
              let result := appendDecorator "loyalty_points" result in
              let result := ensureMetadata result in
              let result := setMeta "loyalty_points_redeemed" (MVInt (PointsToRedeem d)) result in
              let result := setMeta "loyalty_points_earned" (MVInt pointsEarned) result in
              let result := setMeta "loyalty_discount" (MVFloat (discount d)) result in
              let result := setMeta "loyalty_balance_after"
                              (MVInt (F64.int_add (F64.int_sub (AvailablePoints d) (PointsToRedeem d))
                                   pointsEarned)) result in
              Ok result
          | other => other
          end).

Definition New (wrapped : Payment) (config : Config) : M (result Payment) :=
  if AvailablePoints config <? PointsToRedeem config then
    mret (Fail (NewValidationError "insufficient loyalty points"))
  else if PointsToRedeem config <? 0 then
    mret (Fail (NewValidationError "points to redeem cannot be negative"))
  else
    a ← alloc;
    mret (Ok (decorate a wrapped (Process config wrapped))).

End LoyaltyPointsDecorator.

(** ** Package strategy *)

Record PaymentStrategy : Type := mkPaymentStrategy {
  Execute : Context -> Payment -> float -> M (result PaymentResult);
  GetName : string;
  ValidateAmount : float -> option error
}.

(** The call [s.Execute(ctx, payment, amount)]. *)
Definition execute (s : PaymentStrategy) (ctx : Context) (payment : Payment) (amount : float)
    : M (result PaymentResult) :=
  _ ← tell (CallExecute (GetName s) amount);
  Execute s ctx payment amount.

Module InstantPaymentStrategy.

Record T : Type := mk { minAmount : float; maxAmount : float }.

Definition ValidateAmount (s : T) (amount : float) : option error :=
  Validator.AmountValidate amount (minAmount s) (maxAmount s).

Definition Execute (s : T) (ctx : Context) (payment : Payment) (amount : float)
    : M (result PaymentResult) :=
  match ValidateAmount s amount with
  | Some err => mret (Fail err)
  | None =>
      r ← invoke payment ctx amount;
      mret (match r with
            | Ok result =>
                Ok (setMeta "payment_strategy" (MVString "instant") (ensureMetadata result))
            | Fail err => Fail (Wrap err ErrCodePaymentFailed "instant payment processing failed")
            | Crash => Crash
            end)
  end.

Definition New (minAmount maxAmount : float) : PaymentStrategy :=
  let s := mk minAmount maxAmount in
  mkPaymentStrategy (Execute s) "instant" (ValidateAmount s).

End InstantPaymentStrategy.

Record DeferredPaymentInstallment : Type := mkInstallment {
  InstallmentNumber : Z;
  InstallmentAmount : float;
  DueDate : string;
  InstallmentStatus : string
}.

Record DeferredPaymentSchedule : Type := mkSchedule {
  ScheduleID : string;
  TotalAmount : float;
  Installments : Z;
  InterestRate : float;
  Payments : list DeferredPaymentInstallment
}.

(** The amount of every installment of a schedule. *)
Definition installmentAmount (amount : float) (installments : Z) (interestRate : float) : float :=
  let totalWithInterest := (amount * (1 + interestRate / 100))%float in
  (totalWithInterest / F64.of_int installments)%float.

(** Go's [make([]T, 0, n)] panics in [runtime.makeslice] unless [n] is not
    negative and [n] elements of [T] fit the allocation limit of the
    runtime, [maxAlloc], which is 2^48 bytes on the 64-bit platforms.  A
    [DeferredPaymentInstallment] (an int, a float64 and two strings) takes
    48 bytes, so a schedule can have [maxInstallments] = 5864062014805
    installments at most. *)
Definition maxAlloc : Z := 2 ^ 48.

Definition makeslicePanics (elemSize n : Z) : bool :=
  (n <? 0) || (maxAlloc <? elemSize * n).

Definition installmentSize : Z := 48.

Definition maxInstallments : Z := maxAlloc / installmentSize.

(** [CreateDeferredSchedule]: the identifier is drawn first, then the
    slice of the payments is made, which panics for a capacity that is
    negative or beyond the allocation limit. *)
Definition CreateDeferredSchedule (amount : float) (installments : Z) (interestRate : float)
    : M (result DeferredPaymentSchedule) :=
  id ← NewID;
  if makeslicePanics installmentSize installments then mret Crash
  else
    mret (Ok {| ScheduleID := id;
                TotalAmount := amount;
                Installments := installments;
                InterestRate := interestRate;
                Payments :=
                  map (fun i => mkInstallment (Z.of_nat i + 1)
                                  (installmentAmount amount installments interestRate) "" "pending")
                    (seq 0 (Z.to_nat installments)) |}).

Module DeferredPaymentStrategy.

Record T : Type := mk {
  minAmount : float;
  maxAmount : float;
  installments : Z;
  interestRate : float
}.

Definition ValidateAmount (s : T) (amount : float) : option error :=
  Validator.AmountValidate amount (minAmount s) (maxAmount s).

Definition Execute (s : T) (ctx : Context) (payment : Payment) (amount : float)
    : M (result PaymentResult) :=
  match ValidateAmount s amount with
  | Some err => mret (Fail err)
  | None =>
      sch ← CreateDeferredSchedule amount (installments s) (interestRate s);
      match sch with
      | Ok schedule =>
          match Payments schedule with
          | [] => mret Crash                       (* [schedule.Payments[0]] *)
          | first :: _ =>
              let firstInstallment := InstallmentAmount first in
              r ← invoke payment ctx firstInstallment;
              mret (match r with
                    | Ok result =>
                        let result := ensureMetadata result in
                        let result := setMeta "payment_strategy" (MVString "deferred") result in
                        let result := setMeta "schedule_id" (MVString (ScheduleID schedule)) result in
                        let result := setMeta "total_amount" (MVFloat (TotalAmount schedule)) result in
                        let result := setMeta "installments" (MVInt (installments s)) result in
                        let result := setMeta "interest_rate" (MVFloat (interestRate s)) result in
                        let result := setMeta "first_installment" (MVFloat firstInstallment) result in
                        let result := setMeta "remaining_installments"
                                        (MVInt (F64.int_sub (installments s) 1)) result in
                        let result := withOriginalAmount amount result in
                        let result := withAmount firstInstallment result in
                        let result := withProcessedAmount firstInstallment result in
                        Ok result
                    | Fail err =>
                        Fail (Wrap err ErrCodePaymentFailed "deferred payment processing failed")
                    | Crash => Crash
                    end)
          end
      | Fail err => mret (Fail err)
      | Crash => mret Crash
      end
  end.

Definition GetName (s : T) : string :=
  "deferred_" +:+ F64.fmt_d (installments s) +:+ "_installments".

Definition New (minAmount maxAmount : float) (installments : Z) (interestRate : float)
    : PaymentStrategy :=
  let s := mk minAmount maxAmount installments interestRate in
  mkPaymentStrategy (Execute s) (GetName s) (ValidateAmount s).

End DeferredPaymentStrategy.

Record SplitPaymentItem : Type := mkSplitPaymentItem {
  ItemPayment : Payment;              (* SplitPaymentItem.Payment *)
  ItemAmount : float                  (* SplitPaymentItem.Amount *)
}.

Module SplitPaymentStrategy.

Record T : Type := mk { payments : list SplitPaymentItem }.

Definition count (s : T) : Z := Z.of_nat (length (payments s)).

(** The first part (numbered from [i + 1]) whose amount is not positive. *)
Fixpoint firstInvalidPart (items : list SplitPaymentItem) (i : Z) : option error :=
  match items with
  | [] => None
  | item :: rest =>
      if (ItemAmount item <=? 0)%float then
        Some (NewValidationError
                ("split payment part " +:+ F64.fmt_d (i + 1) +:+ " has invalid amount: "
                 +:+ F64.fmt2 (ItemAmount item)))
      else firstInvalidPart rest (i + 1)
  end.

Definition ValidateAmount (s : T) (amount : float) : option error :=
  if (amount <=? 0)%float then Some (NewValidationError "amount must be positive")
  else firstInvalidPart (payments s) 0.

(** [splitSum]: the running float64 sum of the part amounts, in order. *)
Definition splitSum (items : list SplitPaymentItem) : float :=
  fold_left (fun sum item => (sum + ItemAmount item)%float) items 0%float.

(** [getSplitDetails]. *)
Definition splitDetail (i : nat) (result : PaymentResult) : MetaMap :=
  <["part" := MVInt (Z.of_nat i + 1)]>
    (<["payment_method" := MVString (PaymentMethod result)]>
      (<["amount" := MVFloat (Amount result)]>
        (<["transaction_id" := MVString (TransactionID result)]>
          (<["status" := MVString "completed"]> ∅)))).

Definition getSplitDetails (results : list PaymentResult) : list MetaMap :=
  imap splitDetail results.

(** The loop over the parts, from part [i + 1] on.  [rollbackPayments]
    only writes log lines, so a failure leaves the parts already charged as
    they are. *)
Fixpoint processParts (ctx : Context) (items : list SplitPaymentItem) (i : Z)
    (processedResults : list PaymentResult) (totalProcessed : float)
    : M (result (list PaymentResult * float)) :=
  match items with
  | [] => mret (Ok (processedResults, totalProcessed))
  | item :: rest =>
      r ← invoke (ItemPayment item) ctx (ItemAmount item);
      match r with
      | Ok result =>
          processParts ctx rest (i + 1) (processedResults ++ [result])%list
            (totalProcessed + ItemAmount item)%float
      | Fail err =>
          mret (Fail (Wrap err ErrCodePaymentFailed
                        ("split payment part " +:+ F64.fmt_d (i + 1) +:+ " failed")))
      | Crash => mret Crash
      end
  end.

Definition Execute (s : T) (ctx : Context) (_ : Payment) (totalAmount : float)
    : M (result PaymentResult) :=
  match ValidateAmount s totalAmount with
  | Some err => mret (Fail err)
  | None =>
      if negb (String.eqb (F64.fmt2 (splitSum (payments s))) (F64.fmt2 totalAmount)) then
        mret (Fail (NewValidationError
                      ("split payment amounts (" +:+ F64.fmt2 (splitSum (payments s))
                       +:+ ") do not match total amount (" +:+ F64.fmt2 totalAmount +:+ ")")))
      else
        r ← processParts ctx (payments s) 0 [] 0%float;
        mret (match r with
              | Ok (processedResults, totalProcessed) =>
                  match processedResults with
                  | [] => Crash                    (* [processedResults[0]] *)
                  | first :: _ =>
                      Ok {| Success := true;
                            TransactionID := TransactionID first;
                            Amount := totalAmount;
                            OriginalAmount := totalAmount;
                            ProcessedAmount := totalProcessed;
                            Currency := "USD";
                            PaymentMethod := "split";
                            Message := "Split payment completed across "
                                       +:+ F64.fmt_d (count s) +:+ " methods";
                            Metadata :=
                              Some (<["payment_strategy" := MVString "split"]>
                                     (<["payment_count" := MVInt (count s)]>
                                       (<["split_details" := MVMaps (getSplitDetails processedResults)]>
                                         ∅)));
                            AppliedDecorators := [] |}
                  end
              | Fail err => Fail err
              | Crash => Crash
              end)
  end.

Definition GetName (s : T) : string := "split_" +:+ F64.fmt_d (count s) +:+ "_methods".

Definition asStrategy (s : T) : PaymentStrategy :=
  mkPaymentStrategy (Execute s) (GetName s) (ValidateAmount s).

Definition New (payments : list SplitPaymentItem) : result T :=
  if count (mk payments) =? 0 then
    Fail (NewValidationError "at least one payment method is required")
  else if 5 <? count (mk payments) then
    Fail (NewValidationError "maximum 5 payment methods allowed for split payment")
  else Ok (mk payments).

End SplitPaymentStrategy.

(** ** Package config: the settings the checkout reads *)

Module Config.

Record PaymentSettings : Type := mkPaymentSettings {
  Timeout : Duration;
  RetryAttempts : Z;
  RetryDelay : Duration
}.

Record DiscountSettings : Type := mkDiscountSettings {
  DiscountEnabled : bool;
  MaxPercentage : float;
  MaxFixedAmount : float
}.

Record CashbackSettings : Type := mkCashbackSettings {
  CashbackEnabled : bool;
  Tier1Threshold : float;
  Tier1Percentage : float;
  Tier2Percentage : float
}.

Record FraudDetectionSettings : Type := mkFraudDetectionSettings {
  FraudDetectionEnabled : bool;
  MaxRiskScore : Z;
  VelocityCheckWindow : Duration;
  MaxTransactionsPerWindow : Z
}.

Record TaxSettings : Type := mkTaxSettings {
  TaxEnabled : bool;
  DefaultRate : float;
  Rates : gmap string float
}.

Record LoyaltyPointsSettings : Type := mkLoyaltyPointsSettings {
  LoyaltyPointsEnabled : bool;
  PointsToCurrencyRatio : float;
  MaxRedemptionPercentage : float
}.

Record T : Type := mk {
  Payment : PaymentSettings;
  Discount : DiscountSettings;
  Cashback : CashbackSettings;
  FraudDetection : FraudDetectionSettings;
  Tax : TaxSettings;
  LoyaltyPoints : LoyaltyPointsSettings
}.

End Config.

(** ** Package factory *)

Record PaymentConfig : Type := mkPaymentConfig {
  CardNumber : string;
  CardHolder : string;
  CardExpiryDate : string;            (* PaymentConfig.ExpiryDate *)
  CVV : string;
  PayPalEmail : string;
  PayPalPassword : string;
  WalletAddress : string;
  CryptoType : string
}.

Definition emptyPaymentConfig : PaymentConfig := mkPaymentConfig "" "" "" "" "" "" "" "".

Module PaymentFactory.

Definition supportedTypes : gmap string bool :=
  <["credit_card" := true]> (<["paypal" := true]> (<["crypto" := true]> ∅)).

Definition createCreditCardPayment (config : PaymentConfig) : M (result Payment) :=
  if String.eqb (CardNumber config) "" then mret (Fail (NewValidationError "card number is required"))
  else if String.eqb (CardHolder config) "" then mret (Fail (NewValidationError "card holder is required"))
  else if String.eqb (CardExpiryDate config) "" then mret (Fail (NewValidationError "expiry date is required"))
  else if String.eqb (CVV config) "" then mret (Fail (NewValidationError "CVV is required"))
  else NewCreditCardPayment (CardNumber config) (CardHolder config) (CardExpiryDate config) (CVV config).

Definition createPayPalPayment (config : PaymentConfig) : M (result Payment) :=
  if String.eqb (PayPalEmail config) "" then mret (Fail (NewValidationError "PayPal email is required"))
  else if String.eqb (PayPalPassword config) "" then
    mret (Fail (NewValidationError "PayPal password is required"))
  else NewPayPalPayment (PayPalEmail config) (PayPalPassword config).

Definition createCryptoPayment (config : PaymentConfig) : M (result Payment) :=
  if String.eqb (WalletAddress config) "" then
    mret (Fail (NewValidationError "wallet address is required"))
  else if String.eqb (CryptoType config) "" then
    mret (Fail (NewValidationError "crypto type is required"))
  else NewCryptoPayment (WalletAddress config) (CryptoType config).

Definition CreatePayment (paymentType : string) (config : PaymentConfig) : M (result Payment) :=
  if negb (default false (supportedTypes !! paymentType)) then
    mret (Fail (NewInvalidPaymentError ("unsupported payment type: " +:+ paymentType)))
  else if String.eqb paymentType "credit_card" then createCreditCardPayment config
  else if String.eqb paymentType "paypal" then createPayPalPayment config
  else if String.eqb paymentType "crypto" then createCryptoPayment config
  else mret (Fail (NewInvalidPaymentError ("unsupported payment type: " +:+ paymentType))).

End PaymentFactory.

Module DecoratorFactory.

Definition createDiscountDecorator (cfg : Config.T) (wrapped : Payment)
    (options : CheckoutOptions) : M (result Payment) :=
  if negb (Config.DiscountEnabled (Config.Discount cfg)) then mret (Ok wrapped)
  else
    now ← Now;
    DiscountDecorator.New wrapped
      {| DiscountDecorator.DiscountType := "percentage";
         DiscountDecorator.DiscountValue := 10;
         DiscountDecorator.MinAmount := 0;
         DiscountDecorator.MaxDiscount := Config.MaxFixedAmount (Config.Discount cfg);
         DiscountDecorator.ExpiryDate := now + 30 * 24 * Hour;
         DiscountDecorator.DiscountCode := DiscountCode options |}.

Definition createCashbackDecorator (cfg : Config.T) (wrapped : Payment) : M (result Payment) :=
  if negb (Config.CashbackEnabled (Config.Cashback cfg)) then mret (Ok wrapped)
  else
    p ← CashbackDecorator.New wrapped
          {| CashbackDecorator.Tier1Threshold := Config.Tier1Threshold (Config.Cashback cfg);
             CashbackDecorator.Tier1Percentage := Config.Tier1Percentage (Config.Cashback cfg);
             CashbackDecorator.Tier2Percentage := Config.Tier2Percentage (Config.Cashback cfg) |};
    mret (Ok p).

Definition createFraudDetectionDecorator (cfg : Config.T) (wrapped : Payment)
    (customer : option Customer) : M (result Payment) :=
  if negb (Config.FraudDetectionEnabled (Config.FraudDetection cfg)) then mret (Ok wrapped)
  else
    let customerID := match customer with Some c => CustomerID_ c | None => "" end in
    p ← FraudDetectionDecorator.New wrapped
          {| FraudDetectionDecorator.MaxRiskScore := Config.MaxRiskScore (Config.FraudDetection cfg);
             FraudDetectionDecorator.VelocityCheckWindow :=
               Config.VelocityCheckWindow (Config.FraudDetection cfg);
             FraudDetectionDecorator.MaxTransactionsPerWindow :=
               Config.MaxTransactionsPerWindow (Config.FraudDetection cfg);
             FraudDetectionDecorator.CustomerID := customerID |};
    mret (Ok p).

Definition createTaxDecorator (cfg : Config.T) (wrapped : Payment)
    (customer : option Customer) : M (result Payment) :=
  if negb (Config.TaxEnabled (Config.Tax cfg)) then mret (Ok wrapped)
  else
    let region :=
      match customer with
      | Some c => if negb (String.eqb (State (CustomerAddress c)) "")
                  then State (CustomerAddress c) else "DEFAULT"
      | None => "DEFAULT"
      end in
    p ← TaxDecorator.New wrapped
          {| TaxDecorator.Region := region;
             TaxDecorator.TaxRates := Config.Rates (Config.Tax cfg);
             TaxDecorator.DefaultRate := Config.DefaultRate (Config.Tax cfg) |};
    mret (Ok p).

Definition createLoyaltyPointsDecorator (cfg : Config.T) (wrapped : Payment)
    (options : CheckoutOptions) (customer : option Customer) : M (result Payment) :=
  if negb (Config.LoyaltyPointsEnabled (Config.LoyaltyPoints cfg)) then mret (Ok wrapped)
  else
    match customer with
    | None => mret (Ok wrapped)
    | Some c =>
        if UseLoyaltyPoints options =? 0 then mret (Ok wrapped)
        else
          LoyaltyPointsDecorator.New wrapped
            {| LoyaltyPointsDecorator.AvailablePoints := LoyaltyPoints c;
               LoyaltyPointsDecorator.PointsToRedeem := UseLoyaltyPoints options;
               LoyaltyPointsDecorator.PointsToCurrencyRatio :=
                 Config.PointsToCurrencyRatio (Config.LoyaltyPoints cfg);
               LoyaltyPointsDecorator.MaxRedemptionPercentage :=
                 Config.MaxRedemptionPercentage (Config.LoyaltyPoints cfg) |}
    end.

Definition createDecorator (cfg : Config.T) (feature : string) (wrapped : Payment)
    (options : CheckoutOptions) (customer : option Customer) : M (result Payment) :=
  if String.eqb feature "discount" then createDiscountDecorator cfg wrapped options
  else if String.eqb feature "cashback" then createCashbackDecorator cfg wrapped
  else if String.eqb feature "fraud_detection" then createFraudDetectionDecorator cfg wrapped customer
  else if String.eqb feature "tax" then createTaxDecorator cfg wrapped customer
  else if String.eqb feature "loyalty_points" then
    createLoyaltyPointsDecorator cfg wrapped options customer
  else mret (Fail (NewValidationError ("unsupported decorator: " +:+ feature))).

(** The loop of [CreateDecoratorChain]: each feature wraps what the
    earlier ones built, so the last feature is the outermost decorator. *)
Fixpoint CreateDecoratorChain (cfg : Config.T) (current : Payment) (features : list string)
    (options : CheckoutOptions) (customer : option Customer) : M (result Payment) :=
  match features with
  | [] => mret (Ok current)
  | feature :: rest =>
      r ← createDecorator cfg feature current options customer;
      match r with
      | Ok next => CreateDecoratorChain cfg next rest options customer
      | Fail err =>
          mret (Fail (Errorf ("failed to create decorator " +:+ feature +:+ ": " +:+ Error err)
                        (Some err)))
      | Crash => mret Crash
      end
  end.

(** [GetAvailableDecorators]: the features switched on in the
    configuration, in the order the factory lists them. *)
Definition GetAvailableDecorators (cfg : Config.T) : list string :=
  ((if Config.DiscountEnabled (Config.Discount cfg) then ["discount"] else [])
   ++ (if Config.CashbackEnabled (Config.Cashback cfg) then ["cashback"] else [])
   ++ (if Config.FraudDetectionEnabled (Config.FraudDetection cfg) then ["fraud_detection"] else [])
   ++ (if Config.TaxEnabled (Config.Tax cfg) then ["tax"] else [])
   ++ (if Config.LoyaltyPointsEnabled (Config.LoyaltyPoints cfg) then ["loyalty_points"] else []))%list.

End DecoratorFactory.

Module StrategyFactory.

Definition supportedStrategies : gmap string bool :=
  <["instant" := true]> (<["deferred" := true]> (<["split" := true]> ∅)).

(** [params[key].(float64)]. *)
Definition floatParam (params : option MetaMap) (key : string) : option float :=
  match default ∅ params !! key with
  | Some (MVFloat v) => Some v
  | _ => None
  end.

Definition createInstantStrategy (params : option MetaMap) : result PaymentStrategy :=
  let minAmount := default 1%float (floatParam params "min_amount") in
  let maxAmount := default 10000%float (floatParam params "max_amount") in
  Ok (InstantPaymentStrategy.New minAmount maxAmount).

Definition createDeferredStrategy (params : option MetaMap) : result PaymentStrategy :=
  let minAmount := default 100%float (floatParam params "min_amount") in
  let maxAmount := default 10000%float (floatParam params "max_amount") in
  let installments :=
    match default ∅ params !! "installments" with
    | Some (MVInt v) => v
    | Some (MVFloat v) => F64.to_int v
    | _ => 3
    end in
  let interestRate := default 0%float (floatParam params "interest_rate") in
  if installments <? 2 then
    Fail (NewValidationError "deferred payment requires at least 2 installments")
  else if 12 <? installments then
    Fail (NewValidationError "deferred payment cannot exceed 12 installments")
  else Ok (DeferredPaymentStrategy.New minAmount maxAmount installments interestRate).

Definition CreateStrategy (strategyType : string) (params : option MetaMap)
    : result PaymentStrategy :=
  if negb (default false (supportedStrategies !! strategyType)) then
    Fail (NewValidationError ("unsupported payment strategy: " +:+ strategyType))
  else if String.eqb strategyType "instant" then createInstantStrategy params
  else if String.eqb strategyType "deferred" then createDeferredStrategy params
  else if String.eqb strategyType "split" then
    Fail (NewValidationError "split strategy must be created with CreateSplitStrategy")
  else Fail (NewValidationError ("unsupported payment strategy: " +:+ strategyType)).

Definition CreateSplitStrategy (payments : list SplitPaymentItem) : result PaymentStrategy :=
  match SplitPaymentStrategy.New payments with
  | Ok s => Ok (SplitPaymentStrategy.asStrategy s)
  | Fail e => Fail e
  | Crash => Crash
  end.

End StrategyFactory.

(** ** Package repository: the operations of [MemoryRepository] the checkout uses

    The maps hold pointers: [GetProduct] and [GetCustomer] hand out the
    stored object itself, so a field assignment by the caller is a write to
    the entry that was looked up. *)

Module MemoryRepository.

Definition GetProduct (id : string) : M (result Product) :=
  r ← getRepo;
  mret (match products r !! id with
        | Some product => Ok product
        | None => Fail (NewNotFoundError "product")
        end).

(** The write through the pointer obtained from [GetProduct id]. *)
Definition storeProduct (id : string) (product : Product) : M unit :=
  r ← getRepo;
  putRepo (mkRepo (customers r) (<[id := product]> (products r)) (carts r) (transactions r)).

Definition UpdateProduct (product : Product) : M (result unit) :=
  r ← getRepo;
  match products r !! ProductID_ product with
  | None => mret (Fail (NewNotFoundError "product"))
  | Some _ =>
      _ ← putRepo (mkRepo (customers r) (<[ProductID_ product := product]> (products r))
                     (carts r) (transactions r));
      mret (Ok tt)
  end.

Definition GetCustomer (id : string) : M (result Customer) :=
  r ← getRepo;
  mret (match customers r !! id with
        | Some customer => Ok customer
        | None => Fail (NewNotFoundError "customer")
        end).

(** The write through the pointer obtained from [GetCustomer id]. *)
Definition storeCustomer (id : string) (customer : Customer) : M unit :=
  r ← getRepo;
  putRepo (mkRepo (<[id := customer]> (customers r)) (products r) (carts r) (transactions r)).

Definition UpdateCustomer (customer : Customer) : M (result unit) :=
  r ← getRepo;
  match customers r !! CustomerID_ customer with
  | None => mret (Fail (NewNotFoundError "customer"))
  | Some _ =>
      _ ← putRepo (mkRepo (<[CustomerID_ customer := customer]> (customers r)) (products r)
                     (carts r) (transactions r));
      mret (Ok tt)
  end.

Definition CreateTransaction (transaction : Transaction) : M (result unit) :=
  r ← getRepo;
  match transactions r !! TxID transaction with
  | Some _ => mret (Fail (NewAlreadyExistsError "transaction"))
  | None =>
      _ ← putRepo (mkRepo (customers r) (products r) (carts r)
                     (<[TxID transaction := transaction]> (transactions r)));
      mret (Ok tt)
  end.

Definition GetTransaction (id : string) : M (result Transaction) :=
  r ← getRepo;
  mret (match transactions r !! id with
        | Some transaction => Ok transaction
        | None => Fail (NewNotFoundError "transaction")
        end).

End MemoryRepository.

(** ** Package service *)

Module InventoryService.

Definition CheckAvailability (productID : string) (quantity : Z) : M (result bool) :=
  r ← MemoryRepository.GetProduct productID;
  mret (match r with
        | Ok product => Ok (quantity <=? Stock product)
        | Fail err => Fail err
        | Crash => Crash
        end).

Definition ReserveStock (productID : string) (quantity : Z) : M (result unit) :=
  r ← MemoryRepository.GetProduct productID;
  match r with
  | Ok product =>
      if Stock product <? quantity then
        mret (Fail (NewInventoryError
                      ("insufficient stock for product " +:+ ProductName product +:+ ": have "
                       +:+ F64.fmt_d (Stock product) +:+ ", need " +:+ F64.fmt_d quantity)))
      else
        let product := withStock (F64.int_sub (Stock product) quantity) product in
        _ ← MemoryRepository.storeProduct productID product;
        MemoryRepository.UpdateProduct product
  | Fail err => mret (Fail err)
  | Crash => mret Crash
  end.

Definition ReleaseStock (productID : string) (quantity : Z) : M (result unit) :=
  r ← MemoryRepository.GetProduct productID;
  match r with
  | Ok product =>
      let product := withStock (F64.int_add (Stock product) quantity) product in
      _ ← MemoryRepository.storeProduct productID product;
      MemoryRepository.UpdateProduct product
  | Fail err => mret (Fail err)
  | Crash => mret Crash
  end.

End InventoryService.

Module CustomerService.

Definition UpdateLoyaltyPoints (customerID : string) (earned redeemed : Z) : M (result unit) :=
  r ← MemoryRepository.GetCustomer customerID;
  match r with
  | Ok customer =>
      let customer :=
        mkCustomer (CustomerID_ customer) (Email customer) (Name customer) (Phone customer)
          (F64.int_sub (F64.int_add (LoyaltyPoints customer) earned) redeemed)
          (CustomerAddress customer) in
      _ ← MemoryRepository.storeCustomer customerID customer;
      MemoryRepository.UpdateCustomer customer
  | Fail err => mret (Fail err)
  | Crash => mret Crash
  end.

End CustomerService.

Module TransactionService.

Definition CreateTransaction (transaction : Transaction) : M (result unit) :=
  MemoryRepository.CreateTransaction transaction.

Definition GetTransaction (id : string) : M (result Transaction) :=
  MemoryRepository.GetTransaction id.

End TransactionService.

(** ** Package facade: the checkout orchestrator *)

Module CheckoutFacade.

Definition notifyEvent (event : Event) : M unit := emit event.

Fixpoint validateInventory (items : list CartItem) : M (result unit) :=
  match items with
  | [] => mret (Ok tt)
  | item :: rest =>
      r ← InventoryService.CheckAvailability (ItemProductID item) (Quantity item);
      match r with
      | Fail err => mret (Fail (Wrap err ErrCodeInventoryError "failed to check inventory"))
      | Ok false =>
          mret (Fail (NewInventoryError
                        ("insufficient inventory for product " +:+ ProductName (ItemProduct item))))
      | Ok true => validateInventory rest
      | Crash => mret Crash
      end
  end.

Fixpoint reserveInventory (items : list CartItem) : M (result unit) :=
  match items with
  | [] => mret (Ok tt)
  | item :: rest =>
      r ← InventoryService.ReserveStock (ItemProductID item) (Quantity item);
      match r with
      | Fail err => mret (Fail (Wrap err ErrCodeInventoryError "failed to reserve inventory"))
      | Ok _ => reserveInventory rest
      | Crash => mret Crash
      end
  end.

(** A failed release is logged and the loop goes on. *)
Fixpoint rollbackInventory (items : list CartItem) : M unit :=
  match items with
  | [] => mret tt
  | item :: rest =>
      _ ← InventoryService.ReleaseStock (ItemProductID item) (Quantity item);
      rollbackInventory rest
  end.

Definition createPayment (options : CheckoutOptions) : M (result Payment) :=
  let method := OptPaymentMethod options in
  let config :=
    if String.eqb method "credit_card" then
      mkPaymentConfig "4532015112830366" "John Doe" "12/25" "123" "" "" "" ""
    else if String.eqb method "paypal" then
      mkPaymentConfig "" "" "" "" "user@example.com" "password" "" ""
    else if String.eqb method "crypto" then
      mkPaymentConfig "" "" "" "" "" "" "1A1zP1eP5QGefi2DMPTfTL5SLmv7DivfNa" "BTC"
    else emptyPaymentConfig in
  PaymentFactory.CreatePayment method config.

Definition applyDecorators (cfg : Config.T) (paymentInstance : Payment)
    (options : CheckoutOptions) (customer : Customer) : M (result Payment) :=
  DecoratorFactory.CreateDecoratorChain cfg paymentInstance (EnabledDecorators options)
    options (Some customer).

(** The loop of [executeWithRetry] from attempt number [attempt] on, with
    [remaining] iterations left; the pair is Go's [(result, error)]. *)
Fixpoint retryLoop (cfg : Config.T) (ctx : Context) (paymentStrategy : PaymentStrategy)
    (paymentInstance : Payment) (amount : float)
    (remaining : nat) (attempt : Z) (lastErr : option error)
    : M (result (option PaymentResult * option error)%type) :=
  match remaining with
  | O => mret (Ok (None, lastErr))
  | S remaining' =>
      _ ← (if 0 <? attempt then Sleep (Config.RetryDelay (Config.Payment cfg)) else mret tt);
      r ← execute paymentStrategy ctx paymentInstance amount;
      match r with
      | Ok result => mret (Ok (Some result, None))
      | Fail err =>
          if IsErrorCode err ErrCodeFraudDetected || IsErrorCode err ErrCodeInvalidPayment then
            mret (Ok (None, Some err))
          else
            retryLoop cfg ctx paymentStrategy paymentInstance amount remaining' (attempt + 1)
              (Some err)
      | Crash => mret Crash
      end
  end.

(** [for attempt := 0; attempt <= RetryAttempts; attempt++]: at most
    [RetryAttempts + 1] rounds.  For [RetryAttempts = MaxInt64] the Go
    counter wraps around and the loop has no last round; what is proved
    about the number of rounds assumes [RetryAttempts < MaxInt64]. *)
Definition executeWithRetry (cfg : Config.T) (ctx : Context) (paymentStrategy : PaymentStrategy)
    (paymentInstance : Payment) (amount : float)
    : M (result (option PaymentResult * option error)%type) :=
  retryLoop cfg ctx paymentStrategy paymentInstance amount
    (Z.to_nat (Config.RetryAttempts (Config.Payment cfg) + 1)) 0 None.

Definition executePaymentStrategy (cfg : Config.T) (ctx : Context) (paymentInstance : Payment)
    (amount : float) (options : CheckoutOptions)
    : M (result (option PaymentResult * option error)%type) :=
  ctx ← WithTimeout ctx (Config.Timeout (Config.Payment cfg));
  let strategyType :=
    if String.eqb (OptPaymentStrategy options) "" then "instant" else OptPaymentStrategy options in
  match StrategyFactory.CreateStrategy strategyType None with
  | Ok paymentStrategy => executeWithRetry cfg ctx paymentStrategy paymentInstance amount
  | Fail err => mret (Ok (None, Some err))
  | Crash => mret Crash
  end.

(** [result.Metadata[key].(int)], zero when absent or of another type. *)
Definition intMeta (key : string) (r : PaymentResult) : Z :=
  match getMeta key r with Some (MVInt v) => v | _ => 0 end.

Definition floatMeta (key : string) (r : PaymentResult) : float :=
  match getMeta key r with Some (MVFloat v) => v | _ => 0%float end.

Definition updateLoyaltyPoints (customer : Customer) (res : PaymentResult) : M (result unit) :=
  let pointsEarned := intMeta "loyalty_points_earned" res in
  let pointsRedeemed := intMeta "loyalty_points_redeemed" res in
  if (0 <? pointsEarned) || (0 <? pointsRedeemed) then
    CustomerService.UpdateLoyaltyPoints (CustomerID_ customer) pointsEarned pointsRedeemed
  else mret (Ok tt).

Definition generateReceipt (transaction : Transaction) (cart : Cart) (customer : Customer)
    (res : PaymentResult) : M Receipt :=
  let items :=
    map (fun item =>
           {| RIProductID := ItemProductID item;
              RIProductName := ProductName (ItemProduct item);
              RISKU := SKU (ItemProduct item);
              RIQuantity := Quantity item;
              UnitPrice := ItemPrice item;
              RITotal := (ItemPrice item * F64.of_int (Quantity item))%float |})
      (Items cart) in
  id ← NewID;
  now ← Now;
  mret {| ReceiptID := id;
          RTransactionID := TxID transaction;
          RCustomerID := CustomerID_ customer;
          RCustomerName := Name customer;
          RCustomerEmail := Email customer;
          RItems := items;
          Subtotal := GetTotal cart;
          Discount := floatMeta "discount_amount" res;
          Tax := floatMeta "tax_amount" res;
          Cashback := floatMeta "cashback_amount" res;
          RLoyaltyPoints := intMeta "loyalty_points_earned" res;
          Total := Amount res;
          RPaymentMethod := PaymentMethod res;
          RPaymentDetails := Metadata res;
          RAppliedDecorators := AppliedDecorators res;
          RCreatedAt := now |}.

(** [handleError] marks the in-memory transaction failed, hands the
    failure event over and returns the wrapped error; the marked
    transaction is returned with it to make the assignment visible. *)
Definition handleError (transaction : Transaction) (err : error) (message : string)
    : M (Transaction * error) :=
  let transaction :=
    mkTransaction (TxID transaction) (TxCustomerID transaction) (TxAmount transaction)
      TransactionStatusFailed (TxPaymentMethod transaction) (PaymentDetails transaction)
      (TxMetadata transaction) (Error err) (ProcessedAt transaction) (CreatedAt transaction) in
  now ← Now;
  _ ← notifyEvent {| EvType := EventPaymentFailed;
                     EvTransactionID := TxID transaction;
                     EvCustomerID := TxCustomerID transaction;
                     EvAmount := TxAmount transaction;
                     EvPaymentMethod := TxPaymentMethod transaction;
                     EvResult := None;
                     EvError := Some err;
                     EvTimestamp := now |};
  mret (transaction, Wrap err ErrCodePaymentFailed message).

(** What [ProcessOrder] does once the strategy has produced [result]. *)
Definition completeOrder (transaction : Transaction) (cart : Cart) (customer : Customer)
    (res : PaymentResult) : M (result (Receipt * Cart)%type) :=
  processedAt ← Now;
  let transaction :=
    mkTransaction (TxID transaction) (TxCustomerID transaction) (TxAmount transaction)
      TransactionStatusCompleted (TxPaymentMethod transaction) (Metadata res)
      (TxMetadata transaction) (ErrorMessage transaction) processedAt (CreatedAt transaction) in
  _ ← updateLoyaltyPoints customer res;
  receipt ← generateReceipt transaction cart customer res;
  _ ← TransactionService.CreateTransaction transaction;
  let cart := Clear cart in
  now ← Now;
  _ ← notifyEvent {| EvType := EventPaymentSuccess;
                     EvTransactionID := TxID transaction;
                     EvCustomerID := CustomerID_ customer;
                     EvAmount := Amount res;
                     EvPaymentMethod := PaymentMethod res;
                     EvResult := Some res;
                     EvError := None;
                     EvTimestamp := now |};
  mret (Ok (receipt, cart)).

(** The stages of [ProcessOrder] that follow the allocation of the
    transaction and the [started] event: validate, reserve, build the
    payment, decorate, execute; every failure after the reservation
    releases the stock and goes through [handleError]. *)
Definition runStages (cfg : Config.T) (ctx : Context) (transaction : Transaction) (cart : Cart)
    (customer : Customer) (options : CheckoutOptions) : M (result (Receipt * Cart)%type) :=
  validated ← validateInventory (Items cart);
  match validated with
  | Crash => mret Crash
  | Fail err =>
      te ← handleError transaction err "inventory validation failed";
      mret (Fail (snd te))
  | Ok _ =>
  reserved ← reserveInventory (Items cart);
  match reserved with
  | Crash => mret Crash
  | Fail err =>
      te ← handleError transaction err "inventory reservation failed";
      mret (Fail (snd te))
  | Ok _ =>
  created ← createPayment options;
  match created with
  | Crash => mret Crash
  | Fail err =>
      _ ← rollbackInventory (Items cart);
      te ← handleError transaction err "payment creation failed";
      mret (Fail (snd te))
  | Ok paymentInstance =>
  decorated ← applyDecorators cfg paymentInstance options customer;
  match decorated with
  | Crash => mret Crash
  | Fail err =>
      _ ← rollbackInventory (Items cart);
      te ← handleError transaction err "decorator application failed";
      mret (Fail (snd te))
  | Ok decoratedPayment =>
  executed ← executePaymentStrategy cfg ctx decoratedPayment (GetTotal cart) options;
  match executed with
  | Crash => mret Crash
  | Fail err => mret (Fail err)
  | Ok (_, Some err) =>
      _ ← rollbackInventory (Items cart);
      te ← handleError transaction err "payment processing failed";
      mret (Fail (snd te))
  | Ok (None, None) => mret Crash               (* [result.Metadata] on the nil result *)
  | Ok (Some res, None) => completeOrder transaction cart customer res
  end end end end end.

(** [ProcessOrder]; on success the receipt comes with the caller's cart
    as [cart.Clear()] left it. *)
Definition ProcessOrder (cfg : Config.T) (ctx : Context) (cart : Cart) (customer : Customer)
    (options : CheckoutOptions) : M (result (Receipt * Cart)%type) :=
  id ← NewID;
  createdAt ← Now;
  let transaction :=
    {| TxID := id; TxCustomerID := CustomerID_ customer; TxAmount := GetTotal cart;
       Status := TransactionStatusPending; TxPaymentMethod := OptPaymentMethod options;
       PaymentDetails := Some ∅; TxMetadata := OptMetadata options;
       ErrorMessage := ""; ProcessedAt := 0; CreatedAt := createdAt |} in
  now ← Now;
  _ ← notifyEvent {| EvType := EventPaymentStarted;
                     EvTransactionID := TxID transaction;
                     EvCustomerID := CustomerID_ customer;
                     EvAmount := GetTotal cart;
                     EvPaymentMethod := OptPaymentMethod options;
                     EvResult := None;
                     EvError := None;
                     EvTimestamp := now |};
  runStages cfg ctx transaction cart customer options.

End CheckoutFacade.

(** ** Notions used in the statements *)

(** Every part of a split payment succeeds, one after the other: part [k]
    is processed in the world the parts before it have left, and
    [results] lists what each part returned. *)
Fixpoint partsSucceed (ctx : Context) (items : list SplitPaymentItem) (w : World)
    (results : list PaymentResult) : Prop :=
  match items, results with
  | [], [] => True
  | item :: items', r :: results' =>
      value (Process (ItemPayment item) ctx (ItemAmount item) w) = Ok r
      /\ partsSucceed ctx items'
           (world (Process (ItemPayment item) ctx (ItemAmount item) w)) results'
  | _, _ => False
  end.

(** The [Execute] calls in a trace, i.e. the attempts of the retry loop. *)
Definition isExecute (c : Call) : bool :=
  match c with CallExecute _ _ => true | CallProcess _ _ => false end.

Definition attempts (trace : list Call) : nat := length (filter isExecute trace).

(** The output of a computation that ran after the calls [c] were made. *)
Definition prepend {A : Type} (c : list Call) (o : Out A) : Out A :=
  mkOut (value o) (world o) (c ++ calls o).

(** A computation that leaves a part of the world (selected by [proj]) as
    it found it. *)
Definition keeps {X A : Type} (proj : World -> X) (m : M A) : Prop :=
  forall w, proj (world (m w)) = proj w.

(** A computation that makes no interface call. *)
Definition silent {A : Type} (m : M A) : Prop := forall w, calls (m w) = [].

(** The transaction store of the repository. *)
Definition txStore (w : World) : gmap string Transaction := transactions (repo w).

(** A payment whose [Process] never touches the repository. *)
Definition leavesRepo (p : Payment) : Prop :=
  forall ctx amount, keeps repo (Process p ctx amount).

(** A constructor call that leaves the repository alone, calls no payment
    and, when it succeeds, yields a payment that leaves the repository
    alone as well; it never panics. *)
Definition builds (m : M (result Payment)) : Prop :=
  forall w,
    repo (world (m w)) = repo w
    /\ calls (m w) = []
    /\ match value (m w) with
       | Ok p => leavesRepo p
       | Fail _ => True
       | Crash => False
       end.


(** A binary64 that is a number: not a NaN. *)
Definition isNumber (x : float) : bool := (x =? x)%float.

(** The characters of a card number that [ValidateCardNumber] looks at:
    everything but spaces and dashes. *)
Definition strip (s : string) : list ascii :=
  filter (fun d => negb (Ascii.eqb "-" d))
    (filter (fun d => negb (Ascii.eqb " " d)) (Validator.chars s)).

(** What one digit adds to the Luhn sum, in a doubled position or not. *)
Definition luhnDigit (isEven : bool) (c : ascii) : Z :=
  let digit := Validator.code c - 48 in
  if isEven then (if 9 <? digit * 2 then digit * 2 - 9 else digit * 2) else digit.

(** A payment as the payment factory builds them: it reports the type,
    and its [Process] is the common instrument body over some amount range,
    latency and result (for the crypto instrument followed by the cut of
    the transaction id), the result echoing the amount. *)
Definition instrumentProfile (p : Payment) (type : string) : Prop :=
  GetType p = type
  /\ exists (min max : float) (latency : Duration)
            (build : string -> Time -> float -> PaymentResult),
       (forall id now a,
           Success (build id now a) = true /\ TransactionID (build id now a) = id
           /\ Amount (build id now a) = a /\ OriginalAmount (build id now a) = a
           /\ ProcessedAmount (build id now a) = a /\ PaymentMethod (build id now a) = type
           /\ AppliedDecorators (build id now a) = [])
       /\ (Process p = processInstrument min max latency build
           \/ Process p = fun ctx a =>
                r ← processInstrument min max latency build ctx a;
                mret (match r with
                      | Ok res => if Validator.len (TransactionID res) <? 16 then Crash else Ok res
                      | other => other
                      end)).

(** A decorator body that hands on the failures of the payment it wraps:
    an error it returns is either its own refusal (a validation or fraud
    error, raised before the wrapped payment is called) or the very error
    the wrapped payment returned. *)
Definition relays (process : Context -> float -> M (result PaymentResult)) (wrapped : Payment)
    : Prop :=
  forall ctx amount w e,
    value (process ctx amount w) = Fail e ->
    (calls (process ctx amount w) = []
     /\ (IsErrorCode e ErrCodeValidation = true \/ IsErrorCode e ErrCodeFraudDetected = true))
    \/ exists a' w',
         value (Process wrapped ctx a' w') = Fail e
         /\ calls (process ctx amount w)
            = CallProcess (addr wrapped) a' :: calls (Process wrapped ctx a' w').

(** A decorator body that calls the payment it wraps at most once, and
    calls nothing else. *)
Definition callsOnce (process : Context -> float -> M (result PaymentResult)) (wrapped : Payment)
    : Prop :=
  forall ctx amount w,
    calls (process ctx amount w) = []
    \/ exists a' w',
         calls (process ctx amount w)
         = CallProcess (addr wrapped) a' :: calls (Process wrapped ctx a' w').

(** A decorator body that, when it succeeds, returns the result of the
    payment it wraps with its own name added at the end of
    [AppliedDecorators]. *)
Definition appends (name : string) (process : Context -> float -> M (result PaymentResult))
    (wrapped : Payment) : Prop :=
  forall ctx amount w res,
    value (process ctx amount w) = Ok res ->
    exists a' w' res0,
      value (Process wrapped ctx a' w') = Ok res0
      /\ AppliedDecorators res = (AppliedDecorators res0 ++ [name])%list.

(** [next] is one of the five decorators around [wrapped]. *)
Definition decorates (next wrapped : Payment) : Prop :=
  (exists d, Process next = DiscountDecorator.Process d wrapped)
  \/ (exists d, Process next = TaxDecorator.Process d wrapped)
  \/ (exists d, Process next = CashbackDecorator.Process d wrapped)
  \/ (exists inst d, Process next = FraudDetectionDecorator.Process inst d wrapped)
  \/ (exists d, Process next = LoyaltyPointsDecorator.Process d wrapped).

(** A requested feature that takes effect: it is among the available
    decorators, and for the loyalty points there is a customer who redeems
    some. *)
Definition effective (cfg : Config.T) (options : CheckoutOptions) (customer : option Customer)
    (feature : string) : bool :=
  existsb (String.eqb feature) (DecoratorFactory.GetAvailableDecorators cfg)
  && (negb (String.eqb feature "loyalty_points")
      || (match customer with Some _ => true | None => false end
          && negb (UseLoyaltyPoints options =? 0))).

(** A payment whose [Process] makes no [Execute] call. *)
Definition quiet (p : Payment) : Prop :=
  forall ctx amount w, attempts (calls (Process p ctx amount w)) = 0%nat.

(** The stock of a product raised or lowered by a quantity, as
    [product.Stock += quantity] and [product.Stock -= quantity] do. *)
Definition addStock (quantity : Z) (p : Product) : Product :=
  withStock (F64.int_add (Stock p) quantity) p.

Definition subStock (quantity : Z) (p : Product) : Product :=
  withStock (F64.int_sub (Stock p) quantity) p.

(** A product map as the repository keeps it: every product is filed under
    its own id ([CreateProduct] stores it under [product.ID]), and every
    stock is a Go [int]. *)
Definition filed (m : gmap string Product) : Prop :=
  forall id p, m !! id = Some p ->
    ProductID_ p = id /\ F64.min_int64 <= Stock p <= F64.max_int64.

(** The products after the stock of every line has been given back. *)
Definition releasedAll (items : list CartItem) (m : gmap string Product) : gmap string Product :=
  fold_left (fun m item => alter (addStock (Quantity item)) (ItemProductID item) m) items m.

(** The envelope messages of the stages that follow the reservation. *)
Definition laterStage (message : string) : Prop :=
  message = "payment creation failed" \/ message = "decorator application failed"
  \/ message = "payment processing failed".

(** The quantity a cart holds of a product: that of its first line. *)
Fixpoint quantityOf (items : list CartItem) (productID : string) : option Z :=
  match items with
  | [] => None
  | item :: rest =>
      if String.eqb (ItemProductID item) productID then Some (Quantity item)
      else quantityOf rest productID
  end.

Definition lineIDs (items : list CartItem) : list string := map ItemProductID items.

(** ** Sample data: the seeded repository, a configuration, test doubles *)

Module Samples.

Definition uuid0 (n : nat) : string :=
  "00000000-0000-4000-8000-00000000000" +:+ F64.fmt_d (Z.of_nat n).

Definition laptop : Product :=
  mkProduct "prod-1" "Laptop" "High-performance laptop" 999.99 "LAP-001" 10 "Electronics".

Definition mouse : Product :=
  mkProduct "prod-2" "Wireless Mouse" "Ergonomic wireless mouse" 29.99 "MOU-001" 50 "Accessories".

Definition alice : Customer :=
  mkCustomer "cust-1" "alice@example.com" "Alice" "" 500 (mkAddress "" "" "" "" "").

Definition repo0 : Repo :=
  mkRepo (<["cust-1" := alice]> ∅) (<["prod-1" := laptop]> (<["prod-2" := mouse]> ∅)) ∅ ∅.

(** A world at instant 1000 whose random source always yields 7. *)
Definition w0 : World := mkWorld 1000 uuid0 0 (fun _ => 7) 0 0 ∅ repo0 [].

Definition cfg0 : Config.T :=
  Config.mk (Config.mkPaymentSettings (30 * 1000 * Millisecond) 3 (1000 * Millisecond))
    (Config.mkDiscountSettings true 50 100)
    (Config.mkCashbackSettings true 100 1 2)
    (Config.mkFraudDetectionSettings true 70 Hour 5)
    (Config.mkTaxSettings true 10 ∅)
    (Config.mkLoyaltyPointsSettings true 100 50).

(** The same configuration with a maximal risk score of 5: with the random
    source of [w0] every fraud screening computes the score 7 and rejects. *)
Definition cfgStrict : Config.T :=
  Config.mk (Config.Payment cfg0) (Config.Discount cfg0) (Config.Cashback cfg0)
    (Config.mkFraudDetectionSettings true 5 Hour 5) (Config.Tax cfg0) (Config.LoyaltyPoints cfg0).

Definition fourMice : Cart := mkCart "cart-1" "cust-1" [mkCartItem "prod-2" mouse 4 29.99].
Definition sixtyMice : Cart := mkCart "cart-2" "cust-1" [mkCartItem "prod-2" mouse 60 29.99].

(** The credit card of the tests, as [NewCreditCardPayment] builds it at
    address 0. *)
Definition card : Payment :=
  mkPayment 0
    (processInstrument 1 10000 (100 * Millisecond) (creditCardResult "4532015112830366" "John Doe"))
    "credit_card"
    (<["type" := MVString "credit_card"]>
       (<["card_holder" := MVString "John Doe"]>
          (<["last_4_digits" := MVString "****0366"]>
             (<["expiry_date" := MVString "12/25"]> ∅)))).

(** A test double: an instrument that accepts every amount. *)
Definition mockPayment : Payment :=
  mkPayment 0
    (fun _ amount =>
       transactionID ← NewID;
       mret (Ok (mkPaymentResult true transactionID amount amount amount "USD" "mock" "" None [])))
    "mock" ∅.

Definition percent10 : DiscountDecorator.Config :=
  DiscountDecorator.mkConfig "percentage" 10 0 100 (1000 + 24 * Hour) "TEST10".

Definition fixed20 : DiscountDecorator.Config :=
  DiscountDecorator.mkConfig "fixed" 20 0 100 (1000 + 24 * Hour) "SAVE20".

Definition expired10 : DiscountDecorator.Config :=
  DiscountDecorator.mkConfig "percentage" 10 0 0 (1000 - 24 * Hour) "".

(** Loyalty settings that allow a redemption of up to 150% of the purchase:
    1500 points are worth 15.00. *)
Definition loyalty150 : LoyaltyPointsDecorator.Config :=
  LoyaltyPointsDecorator.mkConfig 2000 1500 100 150.

Definition loyalty150Payment : Payment :=
  decorate 0 mockPayment (LoyaltyPointsDecorator.Process loyalty150 mockPayment).

(** 1000 points, worth 10.00, against a cap of 50%. *)
Definition loyalty50 : LoyaltyPointsDecorator.Config :=
  LoyaltyPointsDecorator.mkConfig 2000 1000 100 50.

(** A split of 100.00 whose parts only add up to 90.00. *)
Definition split60and30 : SplitPaymentStrategy.T :=
  SplitPaymentStrategy.mk [mkSplitPaymentItem card 60; mkSplitPaymentItem card 30].

Definition split60and40 : SplitPaymentStrategy.T :=
  SplitPaymentStrategy.mk [mkSplitPaymentItem card 60; mkSplitPaymentItem card 40].

(** One part of a tenth of a cent, paid with the test card behind a tax
    decorator whose rate (100000%) lifts the charge to 1.001. *)
Definition surchargedCard : Payment :=
  decorate 1 card (TaxDecorator.Process (TaxDecorator.mkConfig "DEFAULT" ∅ 100000) card).

Definition splitTiny : SplitPaymentStrategy.T :=
  SplitPaymentStrategy.mk [mkSplitPaymentItem surchargedCard 0.001].

(** The deferred strategy the factory builds by default, and one whose
    range starts below zero. *)
Definition deferred3 : DeferredPaymentStrategy.T := DeferredPaymentStrategy.mk 100 10000 3 0.
Definition deferredBelowZero : DeferredPaymentStrategy.T :=
  DeferredPaymentStrategy.mk (-100) 100 3 0.
Definition deferredNoInstallment : DeferredPaymentStrategy.T :=
  DeferredPaymentStrategy.mk 100 10000 0 0.

(** One installment more than the slice of a schedule can hold. *)
Definition deferredTooMany : DeferredPaymentStrategy.T :=
  DeferredPaymentStrategy.mk 100 10000 5864062014806 0.

(** Checkout options: the test card, fraud screening, instant strategy;
    the same with the deferred strategy; and a split checkout. *)
Definition screenedInstant : CheckoutOptions :=
  mkCheckoutOptions "credit_card" "instant" ["fraud_detection"] "" 0 None.

Definition screenedDeferred : CheckoutOptions :=
  mkCheckoutOptions "credit_card" "deferred" ["fraud_detection"] "" 0 None.

Definition splitCheckout : CheckoutOptions :=
  mkCheckoutOptions "credit_card" "split" ["tax"; "discount"] "" 0 None.

(** A tax of 10% (the default rate) around the test card, and the same
    around a 10% discount around the card. *)
Definition tax10 : TaxDecorator.Config := TaxDecorator.mkConfig "DEFAULT" ∅ 10.

Definition taxOverCard : Payment := decorate 1 card (TaxDecorator.Process tax10 card).

Definition discountOverCard : Payment :=
  decorate 1 card (DiscountDecorator.Process percent10 card).

Definition taxOverDiscount : Payment :=
  decorate 2 discountOverCard (TaxDecorator.Process tax10 discountOverCard).

(** The configuration of the test card, a context that has been
    cancelled, and a cart that asks for the mouse in two lines of 30 (50
    are in stock). *)
Definition cardConfig : PaymentConfig :=
  mkPaymentConfig "4532015112830366" "John Doe" "12/25" "123" "" "" "" "".

Definition cancelled : Context := mkContext (Some false) None.

Definition twiceThirtyMice : Cart :=
  mkCart "cart-3" "cust-1" [mkCartItem "prod-2" mouse 30 29.99; mkCartItem "prod-2" mouse 30 29.99].

(** Checkout options: the test card, the instant strategy, no decorator;
    and options that ask for three decorators but redeem no points. *)
Definition plainInstant : CheckoutOptions :=
  mkCheckoutOptions "credit_card" "instant" [] "" 0 None.

Definition threeFeatures : CheckoutOptions :=
  mkCheckoutOptions "credit_card" "instant" ["tax"; "loyalty_points"; "discount"] "" 0 None.

(** A split of 100.00 whose second part, half a unit, is below the card's
    minimum. *)
Definition part60 : SplitPaymentItem := mkSplitPaymentItem card 60.
Definition partHalf : SplitPaymentItem := mkSplitPaymentItem card 0.5.
Definition partRest : SplitPaymentItem := mkSplitPaymentItem card 39.5.

End Samples.

(** * Properties *)

(** ** Float64 and monad facts used below *)

Lemma SFcompare_antisym (x y : spec_float) :
  SFcompare y x = match SFcompare x y with Some c => Some (CompOpp c) | None => None end.
Proof.
  destruct x as [sx|sx| |sx mx ex], y as [sy|sy| |sy my ey]; simpl; try reflexivity;
    try (destruct sx; reflexivity); try (destruct sy; reflexivity);
    try (destruct sx, sy; reflexivity).
  destruct sx, sy; simpl; try reflexivity.
  - rewrite (Z.compare_antisym ex ey). destruct (ex ?= ey) eqn:E; simpl; try reflexivity.
    rewrite Pos.compare_cont_antisym, CompOpp_involutive. simpl.
    destruct (Pos.compare_cont Eq mx my); reflexivity.
  - rewrite (Z.compare_antisym ex ey). destruct (ex ?= ey) eqn:E; simpl; try reflexivity.
    rewrite Pos.compare_cont_antisym. reflexivity.
Qed.

(** [x <= y] excludes [y < x] (both are false when a NaN is compared). *)
Lemma leb_true_ltb_false (x y : float) : (x <=? y)%float = true -> (y <? x)%float = false.
Proof.
  rewrite leb_spec, ltb_spec. unfold SFleb, SFltb.
  rewrite (SFcompare_antisym (Prim2SF x) (Prim2SF y)).
  destruct (SFcompare (Prim2SF x) (Prim2SF y)) as [[]|]; simpl; congruence.
Qed.

Lemma ltb_true_leb_false (x y : float) : (x <? y)%float = true -> (y <=? x)%float = false.
Proof.
  rewrite leb_spec, ltb_spec. unfold SFleb, SFltb.
  rewrite (SFcompare_antisym (Prim2SF x) (Prim2SF y)).
  destruct (SFcompare (Prim2SF x) (Prim2SF y)) as [[]|]; simpl; congruence.
Qed.

(** Multiplying a valid binary64 by 1.0 = 2^52 * 2^-52 is exact: the
    product mantissa is shifted back by 52 bits with nothing lost. *)
Lemma SFmul_one_finite (s : bool) (m : positive) (e : Z) :
  valid_binary (S754_finite s m e) = true ->
  SF64mul (S754_finite s m e) (S754_finite false 4503599627370496 (-52)) = S754_finite s m e.
Proof.
  intros V. simpl in V. unfold bounded in V.
  apply andb_prop in V. destruct V as [Hc Hb].
  unfold canonical_mantissa in Hc. apply Z.eqb_eq in Hc.
  assert (Hc' : fexp prec emax (Z.pos (digits2_pos m) + e) = e) by exact Hc.
  unfold SF64mul, SFmul.
  rewrite Pos.mul_comm.
  change (4503599627370496 * m)%positive with
    (m~0~0~0~0~0~0~0~0~0~0~0~0~0~0~0~0~0~0~0~0~0~0~0~0~0~0~0~0~0~0~0~0~0~0~0~0~0~0~0~0~0~0~0~0~0~0~0~0~0~0~0~0)%positive.
  unfold binary_round_aux.
  unfold shr_fexp at 1.
  assert (D : Zdigits2
            (Z.pos (m~0~0~0~0~0~0~0~0~0~0~0~0~0~0~0~0~0~0~0~0~0~0~0~0~0~0~0~0~0~0~0~0~0~0~0~0~0~0~0~0~0~0~0~0~0~0~0~0~0~0~0~0))
            = Z.pos (digits2_pos m) + 52).
  { cbn [Zdigits2 digits2_pos]. lia. }
  rewrite D.
  match goal with
  | |- context [fexp prec emax ?a] => replace a with (Z.pos (digits2_pos m) + e) by lia
  end.
  first [rewrite Hc | rewrite Hc'].
  match goal with
  | |- context [shr _ _ ?n] => replace n with 52 by lia
  end.
  cbv [shr SpecFloat.iter_pos shr_1 shr_record_of_loc orb shr_m shr_r shr_s loc_of_shr_record round_nearest_even].
  unfold shr_fexp.
  match goal with
  | |- context [shr _ ?a _] => replace a with e by lia
  end.
  cbn [Zdigits2]. first [rewrite Hc | rewrite Hc'].
  match goal with
  | |- context [shr _ _ ?n] => replace n with 0 by lia
  end.
  cbv [shr shr_record_of_loc shr_m].
  rewrite Hb. destruct s; reflexivity.
Qed.

Lemma mul_1_r (x : float) : (x * 1)%float = x.
Proof.
  apply Prim2SF_inj. rewrite mul_spec.
  change (Prim2SF 1) with (S754_finite false 4503599627370496 (-52)).
  pose proof (Prim2SF_valid x) as V.
  destruct (Prim2SF x) as [s|s| |s m e].
  - destruct s; reflexivity.
  - destruct s; reflexivity.
  - reflexivity.
  - apply SFmul_one_finite. exact V.
Qed.

Lemma float_neq (x y : float) : Prim2SF x <> Prim2SF y -> x <> y.
Proof. intros H E. apply H. rewrite E. reflexivity. Qed.

(** Unfolding one step of the state-and-trace monad. *)
Lemma bind_run {A B : Type} (m : M A) (f : A -> M B) (w : World) :
  (m ≫= f) w =
  mkOut (value (f (value (m w)) (world (m w)))) (world (f (value (m w)) (world (m w))))
    (calls (m w) ++ calls (f (value (m w)) (world (m w)))).
Proof. reflexivity. Qed.

Lemma ret_run {A : Type} (a : A) (w : World) : (mret a : M A) w = mkOut a w [].
Proof. reflexivity. Qed.

Lemma out_eta {A : Type} (o : Out A) : mkOut (value o) (world o) (calls o) = o.
Proof. destruct o. reflexivity. Qed.

Lemma invoke_run (p : Payment) (ctx : Context) (amount : float) (w : World) :
  invoke p ctx amount w =
  mkOut (value (Process p ctx amount w)) (world (Process p ctx amount w))
    (CallProcess (addr p) amount :: calls (Process p ctx amount w)).
Proof. reflexivity. Qed.

Ltac run := repeat (rewrite ?bind_run, ?ret_run, ?invoke_run; cbn [value world calls app]).

(** The sample card is the payment [NewCreditCardPayment] builds. *)
Lemma sample_card_built :
  value (NewCreditCardPayment "4532015112830366" "John Doe" "12/25" "123" Samples.w0)
  = Ok Samples.card.
Proof. reflexivity. Qed.

(** ** C5: the discount decorator *)

Lemma Discount_Process_expired (d : DiscountDecorator.Config) (wrapped : Payment)
    (ctx : Context) (amount : float) (w : World) :
  DiscountDecorator.expired d (clock w) = true ->
  DiscountDecorator.Process d wrapped ctx amount w =
  mkOut (Fail (NewValidationError "discount code has expired")) w [].
Proof.
  intros E. unfold DiscountDecorator.Process. rewrite bind_run. cbn [Now value world calls].
  rewrite E. reflexivity.
Qed.

(** What [Process] does with a discount that is neither expired nor below
    its minimum amount: one call of the wrapped payment, with the reduced
    amount, whose result gets the three amounts overwritten. *)
Lemma Discount_Process_applies (d : DiscountDecorator.Config) (wrapped : Payment)
    (ctx : Context) (amount : float) (w : World) (res : PaymentResult) :
  DiscountDecorator.expired d (clock w) = false ->
  (amount <? DiscountDecorator.MinAmount d)%float = false ->
  let discountAmount := DiscountDecorator.calculateDiscount d amount in
  let finalAmount :=
    if (amount - discountAmount <? 0)%float then 0%float else (amount - discountAmount)%float in
  value (Process wrapped ctx finalAmount w) = Ok res ->
  exists res',
    value (DiscountDecorator.Process d wrapped ctx amount w) = Ok res'
    /\ OriginalAmount res' = amount
    /\ ProcessedAmount res' = finalAmount
    /\ Amount res' = finalAmount.
Proof.
  intros E Hmin discountAmount finalAmount Hok.
  unfold DiscountDecorator.Process. rewrite bind_run. cbn [Now value world calls].
  rewrite E, Hmin. fold discountAmount. fold finalAmount.
  run. rewrite Hok. eexists. split; [reflexivity|]. cbn. auto.
Qed.

(** C5. For a discount decorator whose wrapped payment succeeds, whose
    expiry has not passed and whose minimum amount and maximal discount do
    not bind: 10 percent off 100.00 gives [ProcessedAmount = 90.00], a fixed
    20.00 off 100.00 gives [ProcessedAmount = 80.00]; and whatever the
    amount, once the configured expiry is set and has passed, [Process]
    returns an error (without calling the wrapped payment). *)
Theorem C5_discount_amounts_and_expiry
    (d : DiscountDecorator.Config) (wrapped : Payment) (ctx : Context) (w : World) :
  (DiscountDecorator.DiscountType d = "percentage" ->
   DiscountDecorator.DiscountValue d = 10%float ->
   DiscountDecorator.expired d (clock w) = false ->
   (100 <? DiscountDecorator.MinAmount d)%float = false ->
   ((0 <? DiscountDecorator.MaxDiscount d)%float
    && (DiscountDecorator.MaxDiscount d <? 10)%float) = false ->
   forall res, value (Process wrapped ctx 90 w) = Ok res ->
   exists res', value (DiscountDecorator.Process d wrapped ctx 100 w) = Ok res'
                /\ ProcessedAmount res' = 90%float)
  /\ (DiscountDecorator.DiscountType d = "fixed" ->
      DiscountDecorator.DiscountValue d = 20%float ->
      DiscountDecorator.expired d (clock w) = false ->
      (100 <? DiscountDecorator.MinAmount d)%float = false ->
      ((0 <? DiscountDecorator.MaxDiscount d)%float
       && (DiscountDecorator.MaxDiscount d <? 20)%float) = false ->
      forall res, value (Process wrapped ctx 80 w) = Ok res ->
      exists res', value (DiscountDecorator.Process d wrapped ctx 100 w) = Ok res'
                   /\ ProcessedAmount res' = 80%float)
  /\ (forall amount,
        DiscountDecorator.ExpiryDate d <> 0 ->
        DiscountDecorator.ExpiryDate d < clock w ->
        exists e, DiscountDecorator.Process d wrapped ctx amount w = mkOut (Fail e) w []).
Proof.
  split; [|split].
  - intros Ht Hv He Hmin Hcap res Hok.
    assert (Hc : DiscountDecorator.calculateDiscount d 100 = 10%float).
    { unfold DiscountDecorator.calculateDiscount. rewrite Ht, Hv. cbn [String.eqb Ascii.eqb Bool.eqb].
      change (100 * (10 / 100))%float with 10%float. rewrite Hcap. reflexivity. }
    destruct (Discount_Process_applies d wrapped ctx 100 w res He Hmin) as (res' & H1 & _ & H3 & _).
    + rewrite Hc. exact Hok.
    + exists res'. split; [exact H1|]. rewrite H3, Hc. reflexivity.
  - intros Ht Hv He Hmin Hcap res Hok.
    assert (Hc : DiscountDecorator.calculateDiscount d 100 = 20%float).
    { unfold DiscountDecorator.calculateDiscount. rewrite Ht, Hv. cbn [String.eqb Ascii.eqb Bool.eqb].
      rewrite Hcap. reflexivity. }
    destruct (Discount_Process_applies d wrapped ctx 100 w res He Hmin) as (res' & H1 & _ & H3 & _).
    + rewrite Hc. exact Hok.
    + exists res'. split; [exact H1|]. rewrite H3, Hc. reflexivity.
  - intros amount Hset Hpast. eexists. apply Discount_Process_expired.
    unfold DiscountDecorator.expired.
    apply andb_true_intro. split.
    + apply negb_true_iff. apply Z.eqb_neq. exact Hset.
    + apply Z.ltb_lt. exact Hpast.
Qed.

(** The three cases of C5 on the configurations of the decorator tests,
    around the test credit card. *)
Lemma C5_discount_witness :
  (exists res', value (DiscountDecorator.Process Samples.percent10 Samples.card Background 100
                         Samples.w0) = Ok res'
                /\ ProcessedAmount res' = 90%float)
  /\ (exists res', value (DiscountDecorator.Process Samples.fixed20 Samples.card Background 100
                            Samples.w0) = Ok res'
                   /\ ProcessedAmount res' = 80%float)
  /\ (exists e, DiscountDecorator.Process Samples.expired10 Samples.card Background 100 Samples.w0
                = mkOut (Fail e) Samples.w0 []).
Proof.
  split; [|split].
  - refine (proj1 (C5_discount_amounts_and_expiry Samples.percent10 Samples.card Background
                     Samples.w0) eq_refl eq_refl eq_refl eq_refl eq_refl _ _).
    vm_compute. reflexivity.
  - refine (proj1 (proj2 (C5_discount_amounts_and_expiry Samples.fixed20 Samples.card Background
                            Samples.w0)) eq_refl eq_refl eq_refl eq_refl eq_refl _ _).
    vm_compute. reflexivity.
  - refine (proj2 (proj2 (C5_discount_amounts_and_expiry Samples.expired10 Samples.card Background
                            Samples.w0)) 100%float _ _).
    + vm_compute. discriminate.
    + vm_compute. reflexivity.
Defined.

(** ** C6: the loyalty-points decorator *)

Lemma Loyalty_New_inv (wrapped : Payment) (config : LoyaltyPointsDecorator.Config)
    (w0 : World) (p : Payment) :
  value (LoyaltyPointsDecorator.New wrapped config w0) = Ok p ->
  0 <= LoyaltyPointsDecorator.PointsToRedeem config
       <= LoyaltyPointsDecorator.AvailablePoints config
  /\ Process p = LoyaltyPointsDecorator.Process config wrapped.
Proof.
  unfold LoyaltyPointsDecorator.New.
  destruct (_ <? _) eqn:E1; [discriminate|].
  destruct (_ <? 0) eqn:E2; [discriminate|].
  rewrite bind_run. cbn. intros H. injection H as <-.
  apply Z.ltb_ge in E1. apply Z.ltb_ge in E2. split; [lia|reflexivity].
Qed.

(** C6 (as amended). For a loyalty decorator built by
    [NewLoyaltyPointsDecorator] (so [0 <= pointsToRedeem <=
    availablePoints]) and every amount: when the points' worth
    [pointsToRedeem / ratio] exceeds [maxRedemptionPercentage] percent of
    the amount, [Process] fails and the wrapped payment is not called;
    otherwise the wrapped payment is called exactly once, with the amount
    less the points' worth floored at zero, and whenever that call
    succeeds [Process] succeeds and records the same charge in
    [ProcessedAmount] and [Amount].  The charge is the amount less the
    points' worth whenever that difference is not negative. *)
Theorem C6_loyalty_redemption
    (config : LoyaltyPointsDecorator.Config) (wrapped : Payment) (w0 : World) (p : Payment)
    (ctx : Context) (amount : float) (w : World) :
  value (LoyaltyPointsDecorator.New wrapped config w0) = Ok p ->
  let worth := LoyaltyPointsDecorator.discount config in
  let charged := if (amount - worth <? 0)%float then 0%float else (amount - worth)%float in
  0 <= LoyaltyPointsDecorator.PointsToRedeem config
       <= LoyaltyPointsDecorator.AvailablePoints config
  /\ ((LoyaltyPointsDecorator.maxRedemption config amount <? worth)%float = true ->
      exists e, Process p ctx amount w = mkOut (Fail e) w [])
  /\ ((LoyaltyPointsDecorator.maxRedemption config amount <? worth)%float = false ->
      calls (Process p ctx amount w)
      = CallProcess (addr wrapped) charged :: calls (Process wrapped ctx charged w)
      /\ forall res, value (Process wrapped ctx charged w) = Ok res ->
         exists res', value (Process p ctx amount w) = Ok res'
                      /\ ProcessedAmount res' = charged /\ Amount res' = charged)
  /\ ((amount - worth <? 0)%float = false -> charged = (amount - worth)%float).
Proof.
  intros Hnew worth charged.
  destruct (Loyalty_New_inv _ _ _ _ Hnew) as [Hrange Hp].
  split; [exact Hrange|]. rewrite Hp.
  unfold LoyaltyPointsDecorator.Process. fold worth.
  change (LoyaltyPointsDecorator.finalAmount config amount) with charged.
  split; [|split].
  - intros Hex. rewrite Hex. eexists. reflexivity.
  - intros Hin. rewrite Hin. run. split; [rewrite app_nil_r; reflexivity|].
    intros res Hok. rewrite Hok. eexists. split; [reflexivity|]. cbn. auto.
  - intros Hpos. unfold charged. rewrite Hpos. reflexivity.
Qed.

(** C6 at work: 1000 points worth 10.00 against 100.00 with a 50% cap. *)
Lemma C6_loyalty_witness :
  calls (LoyaltyPointsDecorator.Process Samples.loyalty50 Samples.card Background 100 Samples.w0)
  = CallProcess 0 90 :: calls (Process Samples.card Background 90 Samples.w0)
  /\ forall res, value (Process Samples.card Background 90 Samples.w0) = Ok res ->
     exists res',
       value (LoyaltyPointsDecorator.Process Samples.loyalty50 Samples.card Background 100
                Samples.w0) = Ok res'
       /\ ProcessedAmount res' = 90%float /\ Amount res' = 90%float.
Proof.
  refine (proj1 (proj2 (proj2 (C6_loyalty_redemption Samples.loyalty50 Samples.card Samples.w0
            (decorate 0 Samples.card
               (LoyaltyPointsDecorator.Process Samples.loyalty50 Samples.card))
            Background 100 Samples.w0 eq_refl))) _).
  vm_compute. reflexivity.
Defined.

(** C6 as stated fails where the redemption is within the cap but worth
    more than the purchase: with a cap of 150%, 1500 points (15.00) against
    a purchase of 10.00 are accepted, the wrapped payment succeeds, and the
    amount forwarded and recorded is 0, not 10.00 - 15.00. *)
Lemma C6_counterexample :
  value (LoyaltyPointsDecorator.New Samples.mockPayment Samples.loyalty150 Samples.w0)
  = Ok Samples.loyalty150Payment
  /\ (LoyaltyPointsDecorator.maxRedemption Samples.loyalty150 10
      <? LoyaltyPointsDecorator.discount Samples.loyalty150)%float = false
  /\ calls (Process Samples.loyalty150Payment Background 10 Samples.w0) = [CallProcess 0 0]
  /\ (exists res', value (Process Samples.loyalty150Payment Background 10 Samples.w0) = Ok res'
                   /\ ProcessedAmount res' = 0%float)
  /\ (10 - LoyaltyPointsDecorator.discount Samples.loyalty150)%float = (-5)%float
  /\ 0%float <> (-5)%float.
Proof.
  split; [reflexivity|]. split; [reflexivity|]. split; [reflexivity|].
  split; [eexists; split; reflexivity|]. split; [reflexivity|].
  apply float_neq. vm_compute. discriminate.
Qed.

(** ** C3 and C8: the split strategy *)

Lemma firstInvalidPart_positive (items : list SplitPaymentItem) (i : Z) :
  Forall (fun item => (0 <? ItemAmount item)%float = true) items ->
  SplitPaymentStrategy.firstInvalidPart items i = None.
Proof.
  intros H. revert i. induction H as [|item items Hpos _ IH]; intros i; cbn.
  - reflexivity.
  - rewrite (ltb_true_leb_false _ _ Hpos). apply IH.
Qed.

Lemma Split_ValidateAmount_positive (s : SplitPaymentStrategy.T) (total : float) :
  Forall (fun item => (0 <? ItemAmount item)%float = true) (SplitPaymentStrategy.payments s) ->
  (0 <? total)%float = true ->
  SplitPaymentStrategy.ValidateAmount s total = None.
Proof.
  intros Hparts Htotal. unfold SplitPaymentStrategy.ValidateAmount.
  rewrite (ltb_true_leb_false _ _ Htotal). apply firstInvalidPart_positive. exact Hparts.
Qed.

(** C3. With positive part amounts and a positive total, a sum of the parts
    that differs from the total once both are printed with two decimals
    makes [Execute] return a validation error; the world is left as it was
    and the trace of [Process] calls is empty: no part has been processed. *)
Theorem C3_split_mismatch_rejected
    (s : SplitPaymentStrategy.T) (ctx : Context) (ignored : Payment) (totalAmount : float)
    (w : World) :
  Forall (fun item => (0 <? ItemAmount item)%float = true) (SplitPaymentStrategy.payments s) ->
  (0 <? totalAmount)%float = true ->
  F64.fmt2 (SplitPaymentStrategy.splitSum (SplitPaymentStrategy.payments s))
  <> F64.fmt2 totalAmount ->
  exists message,
    SplitPaymentStrategy.Execute s ctx ignored totalAmount w
    = mkOut (Fail (NewValidationError message)) w [].
Proof.
  intros Hparts Htotal Hdiff. unfold SplitPaymentStrategy.Execute.
  rewrite (Split_ValidateAmount_positive s totalAmount Hparts Htotal).
  apply String.eqb_neq in Hdiff. rewrite Hdiff. cbn [negb].
  eexists. reflexivity.
Qed.

(** C3 on a split of 60.00 + 30.00 presented for a total of 100.00. *)
Lemma C3_split_mismatch_witness :
  exists message,
    SplitPaymentStrategy.Execute Samples.split60and30 Background Samples.card 100 Samples.w0
    = mkOut (Fail (NewValidationError message)) Samples.w0 [].
Proof.
  apply (C3_split_mismatch_rejected Samples.split60and30 Background Samples.card 100 Samples.w0).
  - repeat constructor.
  - reflexivity.
  - vm_compute. discriminate.
Defined.

Lemma processParts_succeed (ctx : Context) (items : list SplitPaymentItem) (w : World)
    (results : list PaymentResult) :
  partsSucceed ctx items w results ->
  forall (i : Z) (processed : list PaymentResult) (total : float),
    value (SplitPaymentStrategy.processParts ctx items i processed total w)
    = Ok ((processed ++ results)%list,
          fold_left (fun sum item => (sum + ItemAmount item)%float) items total).
Proof.
  revert w results. induction items as [|item items IH]; intros w results H i processed total.
  - destruct results; [|contradiction]. cbn. rewrite app_nil_r. reflexivity.
  - destruct results as [|r results]; [contradiction|]. destruct H as [Hr Hrest].
    cbn [SplitPaymentStrategy.processParts]. run. rewrite Hr.
    rewrite (IH _ _ Hrest). rewrite <- app_assoc. reflexivity.
Qed.

Lemma partsSucceed_length (ctx : Context) (items : list SplitPaymentItem) (w : World)
    (results : list PaymentResult) :
  partsSucceed ctx items w results -> length results = length items.
Proof.
  revert w results. induction items as [|item items IH]; intros w [|r results] H;
    try contradiction; cbn; [reflexivity|].
  destruct H as [_ H]. f_equal. exact (IH _ _ H).
Qed.

Lemma Split_New_inv (payments : list SplitPaymentItem) (s : SplitPaymentStrategy.T) :
  SplitPaymentStrategy.New payments = Ok s ->
  s = SplitPaymentStrategy.mk payments /\ (1 <= length payments <= 5)%nat.
Proof.
  unfold SplitPaymentStrategy.New, SplitPaymentStrategy.count. cbn.
  destruct (Z.of_nat (length payments) =? 0) eqn:E0; [discriminate|].
  destruct (5 <? Z.of_nat (length payments)) eqn:E5; [discriminate|].
  intros H. injection H as <-. apply Z.eqb_neq in E0. apply Z.ltb_ge in E5.
  split; [reflexivity|lia].
Qed.

(** C8 (as amended). For a split strategy built by
    [NewSplitPaymentStrategy] (one to five parts) with positive part
    amounts and a positive total that the parts add up to at two decimals:
    if every part's [Process] succeeds, [Execute] succeeds; the combined
    result carries the transaction id of the first part, the payment method
    [split], the sum of the part amounts as [ProcessedAmount], and under
    the metadata key [split_details] one entry per part, the entry of part
    [k] holding its number, payment method, amount and transaction id. *)
Theorem C8_split_success
    (payments : list SplitPaymentItem) (s : SplitPaymentStrategy.T)
    (ctx : Context) (ignored : Payment) (totalAmount : float) (w : World)
    (results : list PaymentResult) :
  SplitPaymentStrategy.New payments = Ok s ->
  Forall (fun item => (0 <? ItemAmount item)%float = true) payments ->
  (0 <? totalAmount)%float = true ->
  F64.fmt2 (SplitPaymentStrategy.splitSum payments) = F64.fmt2 totalAmount ->
  partsSucceed ctx payments w results ->
  (1 <= length payments <= 5)%nat
  /\ exists res first,
       value (SplitPaymentStrategy.Execute s ctx ignored totalAmount w) = Ok res
       /\ results !! 0%nat = Some first
       /\ TransactionID res = TransactionID first
       /\ PaymentMethod res = "split"
       /\ ProcessedAmount res = SplitPaymentStrategy.splitSum payments
       /\ exists details,
            getMeta "split_details" res = Some (MVMaps details)
            /\ length details = length payments
            /\ forall (k : nat) (r : PaymentResult),
                 results !! k = Some r ->
                 details !! k = Some (SplitPaymentStrategy.splitDetail k r).
Proof.
  intros Hnew Hparts Htotal Hsum Hok.
  destruct (Split_New_inv _ _ Hnew) as [-> Hlen]. split; [exact Hlen|].
  pose proof (partsSucceed_length _ _ _ _ Hok) as Hrl.
  destruct results as [|first rest]; [cbn in Hrl; lia|].
  unfold SplitPaymentStrategy.Execute. cbn [SplitPaymentStrategy.payments].
  rewrite (Split_ValidateAmount_positive (SplitPaymentStrategy.mk payments) totalAmount Hparts Htotal).
  rewrite Hsum, String.eqb_refl. cbn [negb]. run.
  rewrite (processParts_succeed _ _ _ _ Hok). cbn [app].
  eexists. exists first. split; [reflexivity|]. cbn [ProcessedAmount TransactionID PaymentMethod].
  repeat split.
  exists (SplitPaymentStrategy.getSplitDetails (first :: rest)). split; [reflexivity|].
  unfold SplitPaymentStrategy.getSplitDetails. split.
  - rewrite length_imap. exact Hrl.
  - intros k r Hk. rewrite list_lookup_imap, Hk. reflexivity.
Qed.

(** C8 on a split of 60.00 + 40.00 for a total of 100.00, both parts on
    the test credit card. *)
Lemma C8_split_success_witness :
  exists res first : PaymentResult,
    value (SplitPaymentStrategy.Execute Samples.split60and40 Background Samples.card 100
             Samples.w0) = Ok res
    /\ TransactionID res = TransactionID first
    /\ PaymentMethod res = "split"
    /\ ProcessedAmount res = 100%float.
Proof.
  destruct (C8_split_success
              [mkSplitPaymentItem Samples.card 60; mkSplitPaymentItem Samples.card 40]
              Samples.split60and40 Background Samples.card 100 Samples.w0
              [creditCardResult "4532015112830366" "John Doe" (Samples.uuid0 0) 100001000 60;
               creditCardResult "4532015112830366" "John Doe" (Samples.uuid0 1) 200001000 40])
    as [_ (res & first & H1 & _ & H3 & H4 & H5 & _)].
  - reflexivity.
  - repeat constructor.
  - reflexivity.
  - reflexivity.
  - cbn [partsSucceed]. split; [vm_compute; reflexivity|]. split; [vm_compute; reflexivity|exact I].
  - exists res, first. repeat split; assumption.
Defined.

(** C8 as stated fails at the total 0: one positive part of 0.001 adds up
    to the total at two decimals (both print as 0.00) and its payment (the
    test card behind a tax decorator) succeeds, yet [Execute] rejects the
    total as not positive. *)
Lemma C8_counterexample :
  SplitPaymentStrategy.New (SplitPaymentStrategy.payments Samples.splitTiny) = Ok Samples.splitTiny
  /\ Forall (fun item => (0 <? ItemAmount item)%float = true)
       (SplitPaymentStrategy.payments Samples.splitTiny)
  /\ F64.fmt2 (SplitPaymentStrategy.splitSum (SplitPaymentStrategy.payments Samples.splitTiny))
     = F64.fmt2 0
  /\ (exists results,
        partsSucceed Background (SplitPaymentStrategy.payments Samples.splitTiny) Samples.w0 results)
  /\ SplitPaymentStrategy.Execute Samples.splitTiny Background Samples.card 0 Samples.w0
     = mkOut (Fail (NewValidationError "amount must be positive")) Samples.w0 [].
Proof.
  split; [reflexivity|]. split; [repeat constructor|]. split; [reflexivity|].
  split; [|reflexivity].
  eexists [_]. cbn [partsSucceed SplitPaymentStrategy.payments Samples.splitTiny].
  split; [vm_compute; reflexivity|exact I].
Qed.

(** ** Reading the metadata of a result *)

Lemma getMeta_setMeta_eq (key : string) (v : MetaValue) (r : PaymentResult) :
  getMeta key (setMeta key v r) = Some v.
Proof. unfold getMeta, setMeta. cbn [Metadata default]. apply lookup_insert_eq. Qed.

Lemma getMeta_setMeta_ne (key key' : string) (v : MetaValue) (r : PaymentResult) :
  key' <> key -> getMeta key (setMeta key' v r) = getMeta key r.
Proof. intros H. unfold getMeta, setMeta. cbn [Metadata default]. apply lookup_insert_ne. exact H. Qed.

Lemma getMeta_withOriginalAmount (key : string) (x : float) (r : PaymentResult) :
  getMeta key (withOriginalAmount x r) = getMeta key r.
Proof. reflexivity. Qed.

Lemma getMeta_withAmount (key : string) (x : float) (r : PaymentResult) :
  getMeta key (withAmount x r) = getMeta key r.
Proof. reflexivity. Qed.

Lemma getMeta_withProcessedAmount (key : string) (x : float) (r : PaymentResult) :
  getMeta key (withProcessedAmount x r) = getMeta key r.
Proof. reflexivity. Qed.

Ltac meta :=
  repeat first
    [ rewrite getMeta_withOriginalAmount
    | rewrite getMeta_withAmount
    | rewrite getMeta_withProcessedAmount
    | apply getMeta_setMeta_eq
    | rewrite getMeta_setMeta_ne by discriminate ].

(** ** C4: the deferred strategy *)

Lemma AmountValidate_in_range (amount min max : float) :
  (min <=? amount)%float = true ->
  (amount <=? max)%float = true ->
  (0 <=? amount)%float = true ->
  Validator.AmountValidate amount min max = None.
Proof.
  intros Hmin Hmax Hpos. unfold Validator.AmountValidate.
  rewrite (leb_true_ltb_false _ _ Hmin), (leb_true_ltb_false _ _ Hmax),
    (leb_true_ltb_false _ _ Hpos).
  reflexivity.
Qed.

(** The schedule of [n >= 1] installments that can be allocated: its
    identifier is drawn first,
    its total is the amount, each installment is [installmentAmount]. *)
Lemma makeslicePanics_installments (n : Z) :
  makeslicePanics installmentSize n = negb ((0 <=? n) && (n <=? maxInstallments)).
Proof.
  unfold makeslicePanics, maxInstallments, installmentSize, maxAlloc.
  change (2 ^ 48 / 48) with 5864062014805. change (2 ^ 48) with 281474976710656.
  destruct (n <? 0) eqn:E1, (0 <=? n) eqn:E2, (n <=? 5864062014805) eqn:E3,
    (281474976710656 <? 48 * n) eqn:E4; try reflexivity; exfalso;
    rewrite ?Z.ltb_lt, ?Z.ltb_ge, ?Z.leb_le, ?Z.leb_gt in *; lia.
Qed.

Lemma CreateDeferredSchedule_run (amount : float) (n : Z) (rate : float) (w : World) :
  1 <= n <= maxInstallments ->
  exists rest,
    CreateDeferredSchedule amount n rate w
    = mkOut (Ok (mkSchedule (uuidSource w (uuidsDrawn w)) amount n rate
                   (mkInstallment 1 (installmentAmount amount n rate) "" "pending" :: rest)))
        (world (NewID w)) [].
Proof.
  intros Hn. unfold CreateDeferredSchedule. rewrite bind_run. cbn [NewID value world calls].
  rewrite makeslicePanics_installments.
  destruct (0 <=? n) eqn:E1; [|apply Z.leb_gt in E1; lia].
  destruct (n <=? maxInstallments) eqn:E2; [|apply Z.leb_gt in E2; lia].
  cbn [andb negb].
  destruct (Z.to_nat n) as [|k] eqn:Ek; [lia|].
  cbn [seq map]. eexists. reflexivity.
Qed.

(** C4 (as amended). For a deferred strategy with [N >= 1] installments,
    no more than the slice of the schedule can hold ([maxInstallments]),
    and interest rate [r], and every amount that is not negative and lies
    within the strategy's [min, max]: [Execute] calls the wrapped payment's
    [Process] exactly once, with the first installment
    [amount * (1 + r/100) / N]; when that call succeeds the result has
    [Amount = ProcessedAmount =] that installment, [OriginalAmount] and the
    recorded [total_amount] are the full amount of the schedule, and the
    installment count and the remaining count are recorded; for [N = 3],
    [r = 0] the first installment is [amount / 3]. *)
Theorem C4_deferred_first_installment
    (s : DeferredPaymentStrategy.T) (ctx : Context) (payment : Payment) (amount : float)
    (w : World) :
  (DeferredPaymentStrategy.minAmount s <=? amount)%float = true ->
  (amount <=? DeferredPaymentStrategy.maxAmount s)%float = true ->
  (0 <=? amount)%float = true ->
  1 <= DeferredPaymentStrategy.installments s <= maxInstallments ->
  let N := DeferredPaymentStrategy.installments s in
  let r := DeferredPaymentStrategy.interestRate s in
  let first := (amount * (1 + r / 100) / F64.of_int N)%float in
  let w1 := world (NewID w) in
  calls (DeferredPaymentStrategy.Execute s ctx payment amount w)
  = CallProcess (addr payment) first :: calls (Process payment ctx first w1)
  /\ (forall res, value (Process payment ctx first w1) = Ok res ->
      exists res',
        value (DeferredPaymentStrategy.Execute s ctx payment amount w) = Ok res'
        /\ Amount res' = first
        /\ ProcessedAmount res' = first
        /\ OriginalAmount res' = amount
        /\ getMeta "total_amount" res' = Some (MVFloat amount)
        /\ getMeta "installments" res' = Some (MVInt N)
        /\ getMeta "remaining_installments" res' = Some (MVInt (F64.int_sub N 1)))
  /\ (N = 3 -> r = 0%float -> first = (amount / 3)%float).
Proof.
  intros Hmin Hmax Hpos HN N r first w1.
  destruct (CreateDeferredSchedule_run amount N r w HN) as [rest Hsch].
  unfold DeferredPaymentStrategy.Execute, DeferredPaymentStrategy.ValidateAmount.
  rewrite (AmountValidate_in_range _ _ _ Hmin Hmax Hpos).
  fold N. fold r. rewrite bind_run, Hsch. cbn [value world calls Payments InstallmentAmount app].
  change (installmentAmount amount N r) with first. fold w1.
  split; [|split].
  - run. rewrite app_nil_r. reflexivity.
  - intros res Hok. run. rewrite Hok. eexists. split; [reflexivity|].
    cbn [Amount ProcessedAmount OriginalAmount withOriginalAmount withAmount withProcessedAmount].
    split; [reflexivity|]. split; [reflexivity|]. split; [reflexivity|].
    split; [meta|]. split; meta.
  - intros H3 H0. unfold first. rewrite H3, H0.
    change (1 + 0 / 100)%float with 1%float. change (F64.of_int 3) with 3%float.
    rewrite mul_1_r. reflexivity.
Qed.

(** C4 on the factory's default strategy (three installments, no interest)
    for 300.00 on the test credit card. *)
Lemma C4_deferred_witness :
  calls (DeferredPaymentStrategy.Execute Samples.deferred3 Background Samples.card 300 Samples.w0)
  = CallProcess 0 100 :: calls (Process Samples.card Background 100 (world (NewID Samples.w0)))
  /\ exists res',
       value (DeferredPaymentStrategy.Execute Samples.deferred3 Background Samples.card 300
                Samples.w0) = Ok res'
       /\ Amount res' = 100%float
       /\ ProcessedAmount res' = 100%float
       /\ OriginalAmount res' = 300%float.
Proof.
  destruct (C4_deferred_first_installment Samples.deferred3 Background Samples.card 300
              Samples.w0 eq_refl eq_refl eq_refl) as (Hcalls & Hres & _).
  - vm_compute. split; discriminate.
  - split; [exact Hcalls|].
    destruct (Hres (creditCardResult "4532015112830366" "John Doe" (Samples.uuid0 1) 100001000 100))
      as (res' & H1 & H2 & H3 & H4 & _).
    + vm_compute. reflexivity.
    + exists res'. repeat split; assumption.
Defined.

(** C4 as stated fails for a negative amount inside a range that starts
    below zero: -50.00 lies within [-100.00, 100.00], yet [Execute] rejects
    it ("amount cannot be negative") and [Process] is not called at all. *)
Lemma C4_counterexample :
  (DeferredPaymentStrategy.minAmount Samples.deferredBelowZero <=? -50)%float = true
  /\ (-50 <=? DeferredPaymentStrategy.maxAmount Samples.deferredBelowZero)%float = true
  /\ DeferredPaymentStrategy.Execute Samples.deferredBelowZero Background Samples.card (-50)
       Samples.w0
     = mkOut (Fail (Errorf "amount cannot be negative" None)) Samples.w0 [].
Proof. repeat split; reflexivity. Qed.

(** Without a first installment there is nothing to charge: a strategy
    built with zero installments panics on [schedule.Payments[0]]. *)
Lemma Deferred_no_installment_crashes :
  value (DeferredPaymentStrategy.Execute Samples.deferredNoInstallment Background Samples.card 300
           Samples.w0) = Crash.
Proof. reflexivity. Qed.

(** Nor is anything charged when the schedule cannot be allocated: with
    one installment more than [maxInstallments] the [make] of the payments
    panics, and [Process] is not called. *)
Lemma Deferred_too_many_installments_crash :
  maxInstallments < DeferredPaymentStrategy.installments Samples.deferredTooMany
  /\ value (DeferredPaymentStrategy.Execute Samples.deferredTooMany Background Samples.card 300
              Samples.w0) = Crash
  /\ calls (DeferredPaymentStrategy.Execute Samples.deferredTooMany Background Samples.card 300
              Samples.w0) = [].
Proof. repeat split. Qed.

(** ** Stepping through the orchestrator *)

Lemma bind_case {A B : Type} (m : M A) (f : A -> M B) (w : World) :
  (m ≫= f) w = match m w with mkOut v w' c => prepend c (f v w') end.
Proof. unfold mbind, M_bind. destruct (m w). reflexivity. Qed.

Lemma value_prepend {A : Type} (c : list Call) (o : Out A) : value (prepend c o) = value o.
Proof. reflexivity. Qed.

Lemma world_prepend {A : Type} (c : list Call) (o : Out A) : world (prepend c o) = world o.
Proof. reflexivity. Qed.

Lemma calls_prepend {A : Type} (c : list Call) (o : Out A) :
  calls (prepend c o) = (c ++ calls o)%list.
Proof. reflexivity. Qed.

Lemma keeps_ret {X A : Type} (proj : World -> X) (a : A) : keeps proj (mret a : M A).
Proof. intros w. reflexivity. Qed.

Lemma keeps_bind {X A B : Type} (proj : World -> X) (m : M A) (f : A -> M B) :
  keeps proj m -> (forall a, keeps proj (f a)) -> keeps proj (m ≫= f).
Proof.
  intros Hm Hf w. rewrite bind_run. cbn [world]. rewrite Hf. apply Hm.
Qed.

Lemma silent_ret {A : Type} (a : A) : silent (mret a : M A).
Proof. intros w. reflexivity. Qed.

Lemma silent_bind {A B : Type} (m : M A) (f : A -> M B) :
  silent m -> (forall a, silent (f a)) -> silent (m ≫= f).
Proof.
  intros Hm Hf w. rewrite bind_run. cbn [calls]. rewrite Hm, Hf. reflexivity.
Qed.

Create HintDb mon discriminated.

Lemma keeps_Now {X : Type} (proj : World -> X) : keeps proj Now.
Proof. intros w. reflexivity. Qed.

Lemma keeps_getRepo {X : Type} (proj : World -> X) : keeps proj getRepo.
Proof. intros w. reflexivity. Qed.

Lemma keeps_getVelocity {X : Type} (proj : World -> X) (inst : nat) : keeps proj (getVelocity inst).
Proof. intros w. reflexivity. Qed.

Lemma keeps_tell {X : Type} (proj : World -> X) (c : Call) : keeps proj (tell c).
Proof. intros w. reflexivity. Qed.

Lemma keeps_repo_Sleep (d : Duration) : keeps repo (Sleep d).
Proof. intros w. reflexivity. Qed.

Lemma keeps_repo_NewID : keeps repo NewID.
Proof. intros w. reflexivity. Qed.

Lemma keeps_repo_Intn (n : Z) : keeps repo (Intn n).
Proof. intros w. reflexivity. Qed.

Lemma keeps_repo_alloc : keeps repo alloc.
Proof. intros w. reflexivity. Qed.

Lemma keeps_repo_putVelocity (inst : nat) (h : gmap string (list Time)) :
  keeps repo (putVelocity inst h).
Proof. intros w. reflexivity. Qed.

Lemma keeps_repo_emit (e : Event) : keeps repo (emit e).
Proof. intros w. reflexivity. Qed.

Lemma silent_Now : silent Now.
Proof. intros w. reflexivity. Qed.

Lemma silent_Sleep (d : Duration) : silent (Sleep d).
Proof. intros w. reflexivity. Qed.

Lemma silent_NewID : silent NewID.
Proof. intros w. reflexivity. Qed.

Lemma silent_alloc : silent alloc.
Proof. intros w. reflexivity. Qed.

Lemma silent_getRepo : silent getRepo.
Proof. intros w. reflexivity. Qed.

Lemma silent_putRepo (r : Repo) : silent (putRepo r).
Proof. intros w. reflexivity. Qed.

Lemma silent_putVelocity (inst : nat) (h : gmap string (list Time)) : silent (putVelocity inst h).
Proof. intros w. reflexivity. Qed.

Lemma silent_emit (e : Event) : silent (emit e).
Proof. intros w. reflexivity. Qed.

#[global] Hint Resolve keeps_Now keeps_getRepo keeps_getVelocity keeps_tell keeps_repo_Sleep
  keeps_repo_NewID keeps_repo_Intn keeps_repo_alloc keeps_repo_putVelocity keeps_repo_emit
  silent_Now silent_Sleep silent_NewID silent_alloc silent_getRepo silent_putRepo
  silent_putVelocity silent_emit : mon.

(** Goals [keeps proj m] and [silent m] by the structure of [m]. *)
Ltac mon :=
  repeat first
    [ apply keeps_ret | apply silent_ret
    | solve [auto with mon]
    | apply keeps_bind; [|intros ?] | apply silent_bind; [|intros ?]
    | match goal with
      | |- keeps _ (match ?x with _ => _ end) => destruct x
      | |- silent (match ?x with _ => _ end) => destruct x
      | |- keeps _ (if ?b then _ else _) => destruct b
      | |- silent (if ?b then _ else _) => destruct b
      end ].

(** *** Inventory *)

Lemma keeps_GetProduct {X : Type} (proj : World -> X) (id : string) :
  keeps proj (MemoryRepository.GetProduct id).
Proof. unfold MemoryRepository.GetProduct. mon. Qed.

Lemma silent_GetProduct (id : string) : silent (MemoryRepository.GetProduct id).
Proof. unfold MemoryRepository.GetProduct. mon. Qed.

Lemma GetProduct_run (id : string) (w : World) :
  MemoryRepository.GetProduct id w
  = mkOut (match products (repo w) !! id with
           | Some product => Ok product
           | None => Fail (NewNotFoundError "product")
           end) w [].
Proof. reflexivity. Qed.

Lemma validateInventory_world (items : list CartItem) (w : World) :
  world (CheckoutFacade.validateInventory items w) = w
  /\ calls (CheckoutFacade.validateInventory items w) = []
  /\ value (CheckoutFacade.validateInventory items w) <> Crash.
Proof.
  induction items as [|item items IH]; cbn [CheckoutFacade.validateInventory].
  - repeat split. discriminate.
  - unfold InventoryService.CheckAvailability. run. rewrite GetProduct_run. cbn [value world calls app].
    destruct (products (repo w) !! ItemProductID item) as [product|].
    + destruct (Quantity item <=? Stock product).
      * exact IH.
      * repeat split. discriminate.
    + repeat split. discriminate.
Qed.

(** A line that asks for more than the stock of its product makes the
    validation fail, with an error of code [INVENTORY_ERROR]. *)
Lemma validateInventory_shortfall (items : list CartItem) (w : World) :
  (exists item product,
      In item items
      /\ products (repo w) !! ItemProductID item = Some product
      /\ Stock product < Quantity item) ->
  exists cause,
    value (CheckoutFacade.validateInventory items w) = Fail cause
    /\ asAppErrorCode cause = Some ErrCodeInventoryError.
Proof.
  induction items as [|item items IH]; intros (bad & product & Hin & Hp & Hlt).
  - destruct Hin.
  - cbn [CheckoutFacade.validateInventory]. unfold InventoryService.CheckAvailability. run.
    rewrite GetProduct_run. cbn [value world calls app].
    destruct (products (repo w) !! ItemProductID item) as [p|] eqn:Ep.
    + destruct (Quantity item <=? Stock p) eqn:Eq.
      * destruct Hin as [->|Hin].
        -- rewrite Hp in Ep. injection Ep as ->. apply Z.leb_le in Eq. lia.
        -- apply IH. exists bad, product. auto.
      * eexists. split; reflexivity.
    + eexists. split; reflexivity.
Qed.

Lemma handleError_out (transaction : Transaction) (err : error) (message : string) (w : World) :
  snd (value (CheckoutFacade.handleError transaction err message w))
  = Wrap err ErrCodePaymentFailed message
  /\ Status (fst (value (CheckoutFacade.handleError transaction err message w)))
     = TransactionStatusFailed
  /\ repo (world (CheckoutFacade.handleError transaction err message w)) = repo w
  /\ calls (CheckoutFacade.handleError transaction err message w) = [].
Proof. repeat split. Qed.

(** [ProcessOrder] is [runStages] in the world where the transaction id
    has been drawn and the [started] event handed over. *)
Lemma ProcessOrder_stages (cfg : Config.T) (ctx : Context) (cart : Cart) (customer : Customer)
    (options : CheckoutOptions) (w : World) :
  exists (transaction : Transaction) (w1 : World),
    repo w1 = repo w
    /\ CheckoutFacade.ProcessOrder cfg ctx cart customer options w
       = CheckoutFacade.runStages cfg ctx transaction cart customer options w1.
Proof.
  unfold CheckoutFacade.ProcessOrder.
  do 2 eexists. split; cycle 1.
  - rewrite bind_run. cbn [NewID value world calls]. rewrite bind_run. cbn [Now value world calls].
    rewrite bind_run. cbn [Now value world calls]. rewrite bind_run.
    cbn [CheckoutFacade.notifyEvent emit value world calls app].
    apply out_eta.
  - reflexivity.
Qed.

(** ** C7: a shortfall is detected before any stock is touched *)

(** C7. When some line of the cart asks for more units than the stock of
    its product, [ProcessOrder] returns an error: the payment-failed
    envelope "inventory validation failed" around an error of code
    [INVENTORY_ERROR]; the repository is exactly as before the call (no
    stock has changed) and no payment or strategy has been called. *)
Theorem C7_shortfall_fails_before_reservation
    (cfg : Config.T) (ctx : Context) (cart : Cart) (customer : Customer)
    (options : CheckoutOptions) (w : World) :
  (exists item product,
      In item (Items cart)
      /\ products (repo w) !! ItemProductID item = Some product
      /\ Stock product < Quantity item) ->
  (exists cause,
      value (CheckoutFacade.ProcessOrder cfg ctx cart customer options w)
      = Fail (Wrap cause ErrCodePaymentFailed "inventory validation failed")
      /\ asAppErrorCode cause = Some ErrCodeInventoryError)
  /\ repo (world (CheckoutFacade.ProcessOrder cfg ctx cart customer options w)) = repo w
  /\ (forall id,
        Stock <$> products (repo (world (CheckoutFacade.ProcessOrder cfg ctx cart customer
                                           options w))) !! id
        = Stock <$> products (repo w) !! id)
  /\ calls (CheckoutFacade.ProcessOrder cfg ctx cart customer options w) = [].
Proof.
  intros Hshort.
  assert (H : (exists cause,
      value (CheckoutFacade.ProcessOrder cfg ctx cart customer options w)
      = Fail (Wrap cause ErrCodePaymentFailed "inventory validation failed")
      /\ asAppErrorCode cause = Some ErrCodeInventoryError)
    /\ repo (world (CheckoutFacade.ProcessOrder cfg ctx cart customer options w)) = repo w
    /\ calls (CheckoutFacade.ProcessOrder cfg ctx cart customer options w) = []).
  { destruct (ProcessOrder_stages cfg ctx cart customer options w) as (tx & w1 & Hrepo & ->).
    unfold CheckoutFacade.runStages.
    destruct (validateInventory_shortfall (Items cart) w1) as (cause & Hv & Hcode).
    { rewrite Hrepo. exact Hshort. }
    destruct (validateInventory_world (Items cart) w1) as (Hw & Hc & _).
    rewrite bind_case.
    destruct (CheckoutFacade.validateInventory (Items cart) w1) as [v w2 c2].
    cbn [value world calls] in Hv, Hw, Hc. subst v w2 c2.
    rewrite bind_run. cbn.
    split; [exists cause; split; [reflexivity|exact Hcode]|]. split; [exact Hrepo|reflexivity]. }
  destruct H as (Hv & Hr & Hc). repeat split; try assumption.
  intros id. rewrite Hr. reflexivity.
Qed.

(** C7 on the seeded repository: 60 mice are asked for, 50 are in stock. *)
Lemma C7_shortfall_witness :
  (exists cause,
      value (CheckoutFacade.ProcessOrder Samples.cfg0 Background Samples.sixtyMice Samples.alice
               (mkCheckoutOptions "credit_card" "instant" [] "" 0 None) Samples.w0)
      = Fail (Wrap cause ErrCodePaymentFailed "inventory validation failed")
      /\ asAppErrorCode cause = Some ErrCodeInventoryError)
  /\ repo (world (CheckoutFacade.ProcessOrder Samples.cfg0 Background Samples.sixtyMice
                    Samples.alice (mkCheckoutOptions "credit_card" "instant" [] "" 0 None)
                    Samples.w0))
     = repo Samples.w0.
Proof.
  destruct (C7_shortfall_fails_before_reservation Samples.cfg0 Background Samples.sixtyMice
              Samples.alice (mkCheckoutOptions "credit_card" "instant" [] "" 0 None) Samples.w0)
    as (H1 & H2 & _).
  - exists (mkCartItem "prod-2" Samples.mouse 60 29.99), Samples.mouse.
    split; [left; reflexivity|]. split; [vm_compute; reflexivity|]. cbn. lia.
  - split; assumption.
Defined.

(** ** What the stages of the checkout leave untouched *)

Lemma keeps_txStore_of_repo {A : Type} (m : M A) : keeps repo m -> keeps txStore m.
Proof. intros H w. unfold txStore. rewrite H. reflexivity. Qed.

Lemma keeps_invoke (p : Payment) (ctx : Context) (amount : float) :
  leavesRepo p -> keeps repo (invoke p ctx amount).
Proof. intros H. unfold invoke. mon. Qed.

Ltac mon_repo :=
  repeat first
    [ apply keeps_invoke; assumption
    | progress mon ].

Lemma keeps_repo_ctxErr (ctx : Context) : keeps repo (ctxErr ctx).
Proof. unfold ctxErr. mon. Qed.

Lemma keeps_repo_processInstrument (min max : float) (latency : Duration)
    (build : string -> Time -> float -> PaymentResult) (ctx : Context) (amount : float) :
  keeps repo (processInstrument min max latency build ctx amount).
Proof. unfold processInstrument. pose proof keeps_repo_ctxErr. mon. Qed.

Lemma keeps_repo_cryptoProcess (walletAddress cryptoType : string) (ctx : Context)
    (amount : float) :
  keeps repo (cryptoProcess walletAddress cryptoType ctx amount).
Proof. unfold cryptoProcess. pose proof keeps_repo_processInstrument. mon. Qed.

#[global] Hint Resolve keeps_repo_ctxErr keeps_repo_processInstrument keeps_repo_cryptoProcess : mon.

Lemma leavesRepo_Discount (d : DiscountDecorator.Config) (wrapped : Payment) (a : nat) :
  leavesRepo wrapped -> leavesRepo (decorate a wrapped (DiscountDecorator.Process d wrapped)).
Proof. intros H ctx amount. cbn [Process decorate]. unfold DiscountDecorator.Process. mon_repo. Qed.

Lemma leavesRepo_Tax (d : TaxDecorator.Config) (wrapped : Payment) (a : nat) :
  leavesRepo wrapped -> leavesRepo (decorate a wrapped (TaxDecorator.Process d wrapped)).
Proof. intros H ctx amount. cbn [Process decorate]. unfold TaxDecorator.Process. mon_repo. Qed.

Lemma leavesRepo_Cashback (d : CashbackDecorator.Config) (wrapped : Payment) (a : nat) :
  leavesRepo wrapped -> leavesRepo (decorate a wrapped (CashbackDecorator.Process d wrapped)).
Proof. intros H ctx amount. cbn [Process decorate]. unfold CashbackDecorator.Process. mon_repo. Qed.

Lemma leavesRepo_Loyalty (d : LoyaltyPointsDecorator.Config) (wrapped : Payment) (a : nat) :
  leavesRepo wrapped -> leavesRepo (decorate a wrapped (LoyaltyPointsDecorator.Process d wrapped)).
Proof.
  intros H ctx amount. cbn [Process decorate]. unfold LoyaltyPointsDecorator.Process. mon_repo.
Qed.

Lemma leavesRepo_Fraud (d : FraudDetectionDecorator.Config) (wrapped : Payment) (a inst : nat) :
  leavesRepo wrapped ->
  leavesRepo (decorate a wrapped (FraudDetectionDecorator.Process inst d wrapped)).
Proof.
  intros H ctx amount. cbn [Process decorate].
  unfold FraudDetectionDecorator.Process, FraudDetectionDecorator.calculateRiskScore,
    FraudDetectionDecorator.velocityCheck, FraudDetectionDecorator.geolocationCheck,
    FraudDetectionDecorator.recordTransaction.
  mon_repo.
Qed.

Lemma builds_Fail (e : error) : builds (mret (Fail e)).
Proof. intros w. repeat split. Qed.

Lemma builds_Ok (p : Payment) : leavesRepo p -> builds (mret (Ok p)).
Proof. intros H w. repeat split. exact H. Qed.

Lemma builds_alloc (f : nat -> Payment) :
  (forall a, leavesRepo (f a)) -> builds (alloc ≫= fun a => mret (Ok (f a))).
Proof. intros H w. repeat split. apply H. Qed.

Lemma builds_bind (m : M (result Payment)) (f : result Payment -> M (result Payment)) :
  builds m ->
  (forall p, leavesRepo p -> builds (f (Ok p))) ->
  (forall e, builds (f (Fail e))) ->
  builds (m ≫= f).
Proof.
  intros Hm Hok Hfail w. destruct (Hm w) as (Hr & Hc & Hv).
  rewrite bind_run. cbn [value world calls]. rewrite Hc. cbn [app].
  destruct (value (m w)) as [p|e|]; [|
    | contradiction].
  - destruct (Hok p Hv (world (m w))) as (Hr' & Hc' & Hv'). rewrite Hr', Hr. auto.
  - destruct (Hfail e (world (m w))) as (Hr' & Hc' & Hv'). rewrite Hr', Hr. auto.
Qed.

Lemma leavesRepo_instrument (a : nat) (min max : float) (latency : Duration)
    (build : string -> Time -> float -> PaymentResult) (type : string) (details : MetaMap) :
  leavesRepo (mkPayment a (processInstrument min max latency build) type details).
Proof. intros ctx amount. cbn [Process]. auto with mon. Qed.

Lemma builds_NewCreditCardPayment (cardNumber cardHolder expiryDate cvv : string) :
  builds (NewCreditCardPayment cardNumber cardHolder expiryDate cvv).
Proof.
  unfold NewCreditCardPayment.
  repeat match goal with
         | |- builds (match ?x with _ => _ end) => destruct x
         | |- builds (if ?b then _ else _) => destruct b
         end;
    try apply builds_Fail.
  apply (builds_alloc (fun a => mkPayment a _ _ _)). intros a. apply leavesRepo_instrument.
Qed.

Lemma builds_NewPayPalPayment (email password : string) : builds (NewPayPalPayment email password).
Proof.
  unfold NewPayPalPayment.
  repeat match goal with
         | |- builds (match ?x with _ => _ end) => destruct x
         | |- builds (if ?b then _ else _) => destruct b
         end;
    try apply builds_Fail.
  apply (builds_alloc (fun a => mkPayment a _ _ _)). intros a. apply leavesRepo_instrument.
Qed.

Lemma builds_NewCryptoPayment (walletAddress cryptoType : string) :
  builds (NewCryptoPayment walletAddress cryptoType).
Proof.
  unfold NewCryptoPayment.
  repeat match goal with
         | |- builds (match ?x with _ => _ end) => destruct x
         | |- builds (if ?b then _ else _) => destruct b
         end;
    try apply builds_Fail.
  apply (builds_alloc (fun a => mkPayment a _ _ _)). intros a ctx amount. cbn [Process].
  auto with mon.
Qed.

Lemma builds_createPayment (options : CheckoutOptions) :
  builds (CheckoutFacade.createPayment options).
Proof.
  unfold CheckoutFacade.createPayment, PaymentFactory.CreatePayment,
    PaymentFactory.createCreditCardPayment, PaymentFactory.createPayPalPayment,
    PaymentFactory.createCryptoPayment.
  repeat match goal with
         | |- builds (if ?b then _ else _) => destruct b
         end;
    first [ apply builds_Fail | apply builds_NewCreditCardPayment
          | apply builds_NewPayPalPayment | apply builds_NewCryptoPayment ].
Qed.

Lemma builds_createDecorator (cfg : Config.T) (feature : string) (wrapped : Payment)
    (options : CheckoutOptions) (customer : option Customer) :
  leavesRepo wrapped ->
  builds (DecoratorFactory.createDecorator cfg feature wrapped options customer).
Proof.
  intros H.
  unfold DecoratorFactory.createDecorator, DecoratorFactory.createDiscountDecorator,
    DecoratorFactory.createCashbackDecorator, DecoratorFactory.createFraudDetectionDecorator,
    DecoratorFactory.createTaxDecorator, DecoratorFactory.createLoyaltyPointsDecorator,
    DiscountDecorator.New, CashbackDecorator.New, FraudDetectionDecorator.New, TaxDecorator.New,
    LoyaltyPointsDecorator.New.
  repeat match goal with
         | |- builds (match ?x with _ => _ end) => destruct x
         | |- builds (if ?b then _ else _) => destruct b
         end;
    try apply builds_Fail; try (apply builds_Ok; exact H);
    intros w; (split; [reflexivity|]); (split; [reflexivity|]); cbn;
    first [ apply leavesRepo_Discount | apply leavesRepo_Cashback | apply leavesRepo_Fraud
          | apply leavesRepo_Tax | apply leavesRepo_Loyalty ]; exact H.
Qed.

Lemma builds_CreateDecoratorChain (cfg : Config.T) (features : list string)
    (options : CheckoutOptions) (customer : option Customer) (current : Payment) :
  leavesRepo current ->
  builds (DecoratorFactory.CreateDecoratorChain cfg current features options customer).
Proof.
  revert current. induction features as [|feature rest IH]; intros current H.
  - apply builds_Ok. exact H.
  - cbn [DecoratorFactory.CreateDecoratorChain]. apply builds_bind.
    + apply builds_createDecorator. exact H.
    + intros p Hp. apply IH. exact Hp.
    + intros e. apply builds_Fail.
Qed.

(** *** Strategies and the retry loop *)

Lemma keeps_repo_Instant (s : InstantPaymentStrategy.T) (ctx : Context) (p : Payment)
    (amount : float) :
  leavesRepo p -> keeps repo (InstantPaymentStrategy.Execute s ctx p amount).
Proof. intros H. unfold InstantPaymentStrategy.Execute. mon_repo. Qed.

Lemma keeps_repo_CreateDeferredSchedule (amount : float) (n : Z) (rate : float) :
  keeps repo (CreateDeferredSchedule amount n rate).
Proof. unfold CreateDeferredSchedule. mon. Qed.

Lemma keeps_repo_Deferred (s : DeferredPaymentStrategy.T) (ctx : Context) (p : Payment)
    (amount : float) :
  leavesRepo p -> keeps repo (DeferredPaymentStrategy.Execute s ctx p amount).
Proof.
  intros H. unfold DeferredPaymentStrategy.Execute.
  pose proof keeps_repo_CreateDeferredSchedule. mon_repo.
Qed.

Lemma CreateStrategy_keeps_repo (strategyType : string) (params : option MetaMap)
    (s : PaymentStrategy) :
  StrategyFactory.CreateStrategy strategyType params = Ok s ->
  forall ctx p amount, leavesRepo p -> keeps repo (Execute s ctx p amount).
Proof.
  unfold StrategyFactory.CreateStrategy, StrategyFactory.createInstantStrategy,
    StrategyFactory.createDeferredStrategy.
  repeat match goal with
         | |- (if ?b then _ else _) = _ -> _ => destruct b
         end;
    try discriminate; intros E; injection E as <-; intros ctx p amount H;
    cbn [Execute InstantPaymentStrategy.New DeferredPaymentStrategy.New].
  - apply keeps_repo_Instant. exact H.
  - apply keeps_repo_Deferred. exact H.
Qed.

Lemma retryLoop_repo (cfg : Config.T) (ctx : Context) (s : PaymentStrategy) (p : Payment)
    (amount : float) (remaining : nat) :
  (forall ctx p amount, leavesRepo p -> keeps repo (Execute s ctx p amount)) ->
  leavesRepo p ->
  forall attempt lastErr w,
    repo (world (CheckoutFacade.retryLoop cfg ctx s p amount remaining attempt lastErr w)) = repo w
    /\ forall e,
         value (CheckoutFacade.retryLoop cfg ctx s p amount remaining attempt lastErr w) <> Fail e.
Proof.
  intros Hs Hp. induction remaining as [|remaining IH]; intros attempt lastErr w.
  - split; [reflexivity|discriminate].
  - remember (CheckoutFacade.retryLoop cfg ctx s p amount (S remaining) attempt lastErr w)
      as o eqn:Eo.
    cbn [CheckoutFacade.retryLoop] in Eo. rewrite bind_case in Eo.
    destruct ((if 0 <? attempt then Sleep (Config.RetryDelay (Config.Payment cfg)) else mret tt) w)
      as [u w1 c1] eqn:E1.
    assert (Hw1 : repo w1 = repo w).
    { destruct (0 <? attempt); injection E1 as _ <- _; reflexivity. }
    rewrite bind_case in Eo. unfold execute in Eo. rewrite bind_case in Eo. cbn [tell] in Eo.
    destruct (Execute s ctx p amount w1) as [r w2 c2] eqn:E2.
    assert (Hw2 : repo w2 = repo w1).
    { pose proof (Hs ctx p amount Hp w1) as H. rewrite E2 in H. exact H. }
    cbn [prepend value world calls] in Eo.
    destruct r as [res|err|].
    + subst o. cbn. split; [congruence|discriminate].
    + destruct (IsErrorCode err ErrCodeFraudDetected || IsErrorCode err ErrCodeInvalidPayment).
      * subst o. cbn. split; [congruence|discriminate].
      * destruct (IH (attempt + 1) (Some err) w2) as [IH1 IH2].
        subst o. cbn [prepend value world calls]. split; [|exact IH2].
        rewrite IH1. congruence.
    + subst o. cbn. split; [congruence|discriminate].
Qed.

Lemma executePaymentStrategy_repo (cfg : Config.T) (ctx : Context) (p : Payment)
    (amount : float) (options : CheckoutOptions) (w : World) :
  leavesRepo p ->
  repo (world (CheckoutFacade.executePaymentStrategy cfg ctx p amount options w)) = repo w
  /\ forall e, value (CheckoutFacade.executePaymentStrategy cfg ctx p amount options w) <> Fail e.
Proof.
  intros Hp. unfold CheckoutFacade.executePaymentStrategy. rewrite bind_case.
  unfold WithTimeout. rewrite bind_case. cbn [Now mret M_ret prepend value world calls].
  destruct (StrategyFactory.CreateStrategy _ None) as [s|e|] eqn:Es.
  - unfold CheckoutFacade.executeWithRetry.
    exact (retryLoop_repo cfg _ s p amount _ (CreateStrategy_keeps_repo _ _ _ Es) Hp 0 None w).
  - split; [reflexivity|discriminate].
  - split; [reflexivity|discriminate].
Qed.

(** *** Reservation and release *)

Lemma keeps_txStore_storeProduct (id : string) (product : Product) :
  keeps txStore (MemoryRepository.storeProduct id product).
Proof. intros w. reflexivity. Qed.

Lemma keeps_txStore_UpdateProduct (product : Product) :
  keeps txStore (MemoryRepository.UpdateProduct product).
Proof.
  intros w. unfold MemoryRepository.UpdateProduct. rewrite bind_run. cbn [getRepo value world].
  destruct (products (repo w) !! ProductID_ product); reflexivity.
Qed.

Lemma silent_UpdateProduct (product : Product) : silent (MemoryRepository.UpdateProduct product).
Proof.
  intros w. unfold MemoryRepository.UpdateProduct. rewrite bind_run. cbn [getRepo value world calls].
  destruct (products (repo w) !! ProductID_ product); reflexivity.
Qed.

Lemma silent_storeProduct (id : string) (product : Product) :
  silent (MemoryRepository.storeProduct id product).
Proof. intros w. reflexivity. Qed.

#[global] Hint Resolve keeps_txStore_storeProduct keeps_txStore_UpdateProduct silent_UpdateProduct
  silent_storeProduct keeps_GetProduct silent_GetProduct : mon.

Lemma keeps_txStore_ReserveStock (id : string) (quantity : Z) :
  keeps txStore (InventoryService.ReserveStock id quantity).
Proof. unfold InventoryService.ReserveStock. mon. Qed.

Lemma silent_ReserveStock (id : string) (quantity : Z) :
  silent (InventoryService.ReserveStock id quantity).
Proof. unfold InventoryService.ReserveStock. mon. Qed.

Lemma keeps_txStore_ReleaseStock (id : string) (quantity : Z) :
  keeps txStore (InventoryService.ReleaseStock id quantity).
Proof. unfold InventoryService.ReleaseStock. mon. Qed.

Lemma silent_ReleaseStock (id : string) (quantity : Z) :
  silent (InventoryService.ReleaseStock id quantity).
Proof. unfold InventoryService.ReleaseStock. mon. Qed.

#[global] Hint Resolve keeps_txStore_ReserveStock silent_ReserveStock keeps_txStore_ReleaseStock
  silent_ReleaseStock : mon.

Lemma keeps_txStore_reserveInventory (items : list CartItem) :
  keeps txStore (CheckoutFacade.reserveInventory items).
Proof. induction items; cbn [CheckoutFacade.reserveInventory]; mon. Qed.

Lemma silent_reserveInventory (items : list CartItem) :
  silent (CheckoutFacade.reserveInventory items).
Proof. induction items; cbn [CheckoutFacade.reserveInventory]; mon. Qed.

Lemma keeps_txStore_rollbackInventory (items : list CartItem) :
  keeps txStore (CheckoutFacade.rollbackInventory items).
Proof. induction items; cbn [CheckoutFacade.rollbackInventory]; mon. Qed.

Lemma silent_rollbackInventory (items : list CartItem) :
  silent (CheckoutFacade.rollbackInventory items).
Proof. induction items; cbn [CheckoutFacade.rollbackInventory]; mon. Qed.

Lemma completeOrder_succeeds (transaction : Transaction) (cart : Cart) (customer : Customer)
    (res : PaymentResult) (w : World) :
  exists receipt,
    value (CheckoutFacade.completeOrder transaction cart customer res w)
    = Ok (receipt, Clear cart).
Proof.
  unfold CheckoutFacade.completeOrder. repeat (rewrite bind_run; cbn [value]).
  eexists. reflexivity.
Qed.

(** ** C9: a failed checkout persists no transaction *)


(** C9. Whenever [ProcessOrder] returns an error, at whatever stage, the
    transaction store of the repository is what it was before the call:
    [CreateTransaction] is only reached once the strategy has succeeded,
    and the transaction that [handleError] marks failed is not stored. *)
Theorem C9_failed_checkout_persists_no_transaction
    (cfg : Config.T) (ctx : Context) (cart : Cart) (customer : Customer)
    (options : CheckoutOptions) (w : World) (e : error) :
  value (CheckoutFacade.ProcessOrder cfg ctx cart customer options w) = Fail e ->
  transactions (repo (world (CheckoutFacade.ProcessOrder cfg ctx cart customer options w)))
  = transactions (repo w).
Proof.
  destruct (ProcessOrder_stages cfg ctx cart customer options w) as (tx & w1 & Hrepo & ->).
  change (transactions (repo w)) with (txStore w).
  replace (txStore w) with (txStore w1) by (unfold txStore; rewrite Hrepo; reflexivity).
  clear Hrepo w.
  match goal with |- _ -> transactions (repo ?x) = _ => change (transactions (repo x)) with (txStore x) end.
  remember (CheckoutFacade.runStages cfg ctx tx cart customer options w1) as o eqn:Eo.
  unfold CheckoutFacade.runStages in Eo.
  (* validation *)
  rewrite bind_case in Eo.
  destruct (validateInventory_world (Items cart) w1) as (Hw2 & _ & _).
  destruct (CheckoutFacade.validateInventory (Items cart) w1) as [validated w2 c2].
  cbn [world] in Hw2. subst w2.
  destruct validated as [[]|err|]; cycle 1.
  { subst o. intros _. reflexivity. }
  { subst o. discriminate. }
  (* reservation *)
  rewrite bind_case in Eo.
  pose proof (keeps_txStore_reserveInventory (Items cart) w1) as Hw3.
  destruct (CheckoutFacade.reserveInventory (Items cart) w1) as [reserved w3 c3].
  cbn [world] in Hw3.
  destruct reserved as [[]|err|]; cycle 1.
  { subst o. intros _. exact Hw3. }
  { subst o. discriminate. }
  (* payment creation *)
  rewrite bind_case in Eo.
  destruct (builds_createPayment options w3) as (Hw4 & _ & Hp4).
  destruct (CheckoutFacade.createPayment options w3) as [created w4 c4].
  cbn [value world] in Hw4, Hp4.
  assert (Ht4 : txStore w4 = txStore w1) by (unfold txStore in *; rewrite Hw4; exact Hw3).
  clear Hw3 Hw4.
  destruct created as [paymentInstance|err|]; [| |contradiction]; cycle 1.
  { subst o. intros _. cbn [prepend world]. rewrite bind_run. cbn [world].
    rewrite bind_run. cbn [world].
    change (txStore (world (CheckoutFacade.rollbackInventory (Items cart) w4)) = txStore w1).
    rewrite keeps_txStore_rollbackInventory. exact Ht4. }
  (* decoration *)
  rewrite bind_case in Eo. unfold CheckoutFacade.applyDecorators in Eo.
  destruct (builds_CreateDecoratorChain cfg (EnabledDecorators options) options (Some customer)
              paymentInstance Hp4 w4) as (Hw5 & _ & Hp5).
  destruct (DecoratorFactory.CreateDecoratorChain cfg paymentInstance (EnabledDecorators options)
              options (Some customer) w4) as [decorated w5 c5].
  cbn [value world] in Hw5, Hp5.
  assert (Ht5 : txStore w5 = txStore w1) by (unfold txStore in *; rewrite Hw5; exact Ht4).
  clear Ht4 Hw5.
  destruct decorated as [decoratedPayment|err|]; [| |contradiction]; cycle 1.
  { subst o. intros _. cbn [prepend world]. rewrite bind_run. cbn [world].
    rewrite bind_run. cbn [world].
    change (txStore (world (CheckoutFacade.rollbackInventory (Items cart) w5)) = txStore w1).
    rewrite keeps_txStore_rollbackInventory. exact Ht5. }
  (* strategy execution *)
  rewrite bind_case in Eo.
  destruct (executePaymentStrategy_repo cfg ctx decoratedPayment (GetTotal cart) options w5 Hp5)
    as (Hw6 & Hnofail).
  destruct (CheckoutFacade.executePaymentStrategy cfg ctx decoratedPayment (GetTotal cart)
              options w5) as [executed w6 c6].
  cbn [value world] in Hw6, Hnofail.
  assert (Ht6 : txStore w6 = txStore w1) by (unfold txStore in *; rewrite Hw6; exact Ht5).
  clear Ht5 Hw6.
  destruct executed as [[[res|] [err|]]|err|].
  - subst o. intros _. cbn [prepend world]. rewrite bind_run. cbn [world].
    rewrite bind_run. cbn [world].
    change (txStore (world (CheckoutFacade.rollbackInventory (Items cart) w6)) = txStore w1).
    rewrite keeps_txStore_rollbackInventory. exact Ht6.
  - subst o. cbn [prepend value].
    destruct (completeOrder_succeeds tx cart customer res w6) as [receipt ->]. discriminate.
  - subst o. intros _. cbn [prepend world]. rewrite bind_run. cbn [world].
    rewrite bind_run. cbn [world].
    change (txStore (world (CheckoutFacade.rollbackInventory (Items cart) w6)) = txStore w1).
    rewrite keeps_txStore_rollbackInventory. exact Ht6.
  - subst o. discriminate.
  - exfalso. exact (Hnofail err eq_refl).
  - subst o. discriminate.
Qed.

(** C9 on a checkout that fails at the last stage: the fraud screening
    rejects every attempt, the stock is released again and nothing is
    stored. *)
Lemma C9_failed_checkout_witness :
  transactions (repo (world (CheckoutFacade.ProcessOrder Samples.cfgStrict Background
                               Samples.fourMice Samples.alice Samples.screenedInstant Samples.w0)))
  = transactions (repo Samples.w0).
Proof.
  eapply (C9_failed_checkout_persists_no_transaction Samples.cfgStrict Background Samples.fourMice
            Samples.alice Samples.screenedInstant Samples.w0).
  vm_compute. reflexivity.
Defined.

(** ** C10: a checkout that asks for the split strategy *)

Lemma CreateStrategy_split (params : option MetaMap) :
  StrategyFactory.CreateStrategy "split" params
  = Fail (NewValidationError "split strategy must be created with CreateSplitStrategy").
Proof. reflexivity. Qed.

Lemma executePaymentStrategy_split (cfg : Config.T) (ctx : Context) (p : Payment)
    (amount : float) (options : CheckoutOptions) (w : World) :
  OptPaymentStrategy options = "split" ->
  CheckoutFacade.executePaymentStrategy cfg ctx p amount options w
  = mkOut (Ok (None,
               Some (NewValidationError "split strategy must be created with CreateSplitStrategy")))
      w [].
Proof.
  intros Hs. unfold CheckoutFacade.executePaymentStrategy. rewrite Hs.
  cbn [String.eqb Ascii.eqb Bool.eqb]. rewrite CreateStrategy_split. reflexivity.
Qed.

Lemma reserveInventory_no_crash (items : list CartItem) (w : World) :
  value (CheckoutFacade.reserveInventory items w) <> Crash.
Proof.
  revert w. induction items as [|item items IH]; intros w; cbn [CheckoutFacade.reserveInventory].
  - discriminate.
  - rewrite bind_case. unfold InventoryService.ReserveStock at 1. rewrite bind_case, GetProduct_run.
    destruct (products (repo w) !! ItemProductID item) as [product|]; [|discriminate].
    destruct (Stock product <? Quantity item); [discriminate|].
    cbn [prepend app]. unfold MemoryRepository.storeProduct, MemoryRepository.UpdateProduct.
    repeat (rewrite bind_run; cbn [getRepo putRepo value world calls repo products]).
    destruct (_ !! _); cbn [value world]; [apply IH|discriminate].
Qed.

(** C10. A checkout whose options name the strategy [split] always fails
    with a payment-failed envelope and never calls a payment or a
    strategy: either an earlier stage fails (inventory validation or
    reservation, payment creation, decoration), or the strategy factory
    refuses to build the strategy and the envelope "payment processing
    failed" wraps its validation error "split strategy must be created with
    CreateSplitStrategy". *)
Theorem C10_split_checkout_always_fails
    (cfg : Config.T) (ctx : Context) (cart : Cart) (customer : Customer)
    (options : CheckoutOptions) (w : World) :
  OptPaymentStrategy options = "split" ->
  calls (CheckoutFacade.ProcessOrder cfg ctx cart customer options w) = []
  /\ exists cause message,
       value (CheckoutFacade.ProcessOrder cfg ctx cart customer options w)
       = Fail (AppError ErrCodePaymentFailed message (Some cause))
       /\ (message = "inventory validation failed"
           \/ message = "inventory reservation failed"
           \/ message = "payment creation failed"
           \/ message = "decorator application failed"
           \/ (message = "payment processing failed"
               /\ cause = NewValidationError
                            "split strategy must be created with CreateSplitStrategy")).
Proof.
  intros Hsplit.
  destruct (ProcessOrder_stages cfg ctx cart customer options w) as (tx & w1 & _ & ->).
  remember (CheckoutFacade.runStages cfg ctx tx cart customer options w1) as o eqn:Eo.
  unfold CheckoutFacade.runStages in Eo.
  (* validation *)
  rewrite bind_case in Eo.
  destruct (validateInventory_world (Items cart) w1) as (_ & Hc2 & Hv2).
  destruct (CheckoutFacade.validateInventory (Items cart) w1) as [validated w2 c2].
  cbn [value calls] in Hc2, Hv2. subst c2.
  destruct validated as [[]|err|]; [| |contradiction]; cycle 1.
  { subst o. split; [reflexivity|]. exists err, "inventory validation failed". auto. }
  (* reservation *)
  rewrite bind_case in Eo.
  pose proof (silent_reserveInventory (Items cart) w2) as Hc3.
  pose proof (reserveInventory_no_crash (Items cart) w2) as Hv3.
  destruct (CheckoutFacade.reserveInventory (Items cart) w2) as [reserved w3 c3].
  cbn [value calls] in Hc3, Hv3. subst c3.
  destruct reserved as [[]|err|]; [| |contradiction]; cycle 1.
  { subst o. split; [reflexivity|]. exists err, "inventory reservation failed". auto. }
  (* payment creation *)
  rewrite bind_case in Eo.
  destruct (builds_createPayment options w3) as (_ & Hc4 & Hp4).
  destruct (CheckoutFacade.createPayment options w3) as [created w4 c4].
  cbn [value calls] in Hc4, Hp4. subst c4.
  destruct created as [paymentInstance|err|]; [| |contradiction]; cycle 1.
  { subst o. split.
    - cbn [prepend calls app]. rewrite bind_run. cbn [calls].
      rewrite silent_rollbackInventory. reflexivity.
    - exists err, "payment creation failed". split; [|auto].
      cbn [prepend value]. rewrite bind_run. reflexivity. }
  (* decoration *)
  rewrite bind_case in Eo. unfold CheckoutFacade.applyDecorators in Eo.
  destruct (builds_CreateDecoratorChain cfg (EnabledDecorators options) options (Some customer)
              paymentInstance Hp4 w4) as (_ & Hc5 & Hp5).
  destruct (DecoratorFactory.CreateDecoratorChain cfg paymentInstance (EnabledDecorators options)
              options (Some customer) w4) as [decorated w5 c5].
  cbn [value calls] in Hc5, Hp5. subst c5.
  destruct decorated as [decoratedPayment|err|]; [| |contradiction]; cycle 1.
  { subst o. split.
    - cbn [prepend calls app]. rewrite bind_run. cbn [calls].
      rewrite silent_rollbackInventory. reflexivity.
    - exists err, "decorator application failed". split; [|auto].
      cbn [prepend value]. rewrite bind_run. reflexivity. }
  (* the strategy factory *)
  rewrite bind_case, (executePaymentStrategy_split _ _ _ _ _ _ Hsplit) in Eo.
  subst o. split.
  - cbn [prepend calls app]. rewrite bind_run. cbn [calls].
    rewrite silent_rollbackInventory. reflexivity.
  - eexists _, "payment processing failed". split.
    + cbn [prepend value]. rewrite bind_run. reflexivity.
    + right. right. right. right. split; reflexivity.
Qed.

(** C10 on the seeded repository: stock, payment and decorators are fine,
    and the checkout fails at the strategy factory. *)
Lemma C10_split_checkout_witness :
  calls (CheckoutFacade.ProcessOrder Samples.cfg0 Background Samples.fourMice Samples.alice
           Samples.splitCheckout Samples.w0) = []
  /\ value (CheckoutFacade.ProcessOrder Samples.cfg0 Background Samples.fourMice Samples.alice
              Samples.splitCheckout Samples.w0)
     = Fail (AppError ErrCodePaymentFailed "payment processing failed"
               (Some (NewValidationError
                        "split strategy must be created with CreateSplitStrategy"))).
Proof.
  destruct (C10_split_checkout_always_fails Samples.cfg0 Background Samples.fourMice Samples.alice
              Samples.splitCheckout Samples.w0 eq_refl) as (Hc & _).
  split; [exact Hc|]. vm_compute. reflexivity.
Defined.

(** ** C2: which amount ends up in [OriginalAmount] *)

(** An instrument echoes the amount it is charged into [OriginalAmount]. *)
Lemma processInstrument_original (min max : float) (latency : Duration)
    (build : string -> Time -> float -> PaymentResult) (ctx : Context) (amount : float)
    (w : World) (res : PaymentResult) :
  (forall id now, OriginalAmount (build id now amount) = amount) ->
  value (processInstrument min max latency build ctx amount w) = Ok res ->
  OriginalAmount res = amount.
Proof.
  intros Hb. unfold processInstrument, ctxErr. run.
  destruct (match ctxDone ctx with Some _ => _ | None => _ end); [discriminate|].
  destruct (Validator.AmountValidate amount min max); [discriminate|].
  run. intros H. injection H as <-. apply Hb.
Qed.

(** The tax decorator writes [OriginalAmount] only when the wrapped payment
    left it at zero; otherwise the value set further inside stays. *)
Lemma Tax_Process_original (d : TaxDecorator.Config) (wrapped : Payment) (ctx : Context)
    (amount : float) (w : World) (res : PaymentResult) :
  let totalAmount := (amount + amount * (TaxDecorator.taxRate d / 100))%float in
  value (Process wrapped ctx totalAmount w) = Ok res ->
  exists res',
    value (TaxDecorator.Process d wrapped ctx amount w) = Ok res'
    /\ OriginalAmount res'
       = (if (OriginalAmount res =? 0)%float then amount else OriginalAmount res)
    /\ ProcessedAmount res' = totalAmount.
Proof.
  intros totalAmount Hok. unfold TaxDecorator.Process. fold totalAmount. run. rewrite Hok.
  eexists. split; [reflexivity|]. cbn [ProcessedAmount setMeta ensureMetadata appendDecorator
    withAmount withProcessedAmount OriginalAmount].
  destruct (OriginalAmount res =? 0)%float; split; reflexivity.
Qed.

(** C2 fails on the code. A 10% tax around the test credit card, charged
    100.00: the card is charged 110.00 and echoes 110.00 into
    [OriginalAmount]; the tax decorator, which only writes [OriginalAmount]
    when it is zero, leaves it, so the caller who passed 100.00 gets
    [OriginalAmount = 110.00].  The same happens with a discount between the
    tax decorator and the card; only with the discount decorator outermost
    does the caller's amount come back. *)
Theorem C2_original_amount_is_not_the_callers :
  (exists res,
      value (Process Samples.taxOverCard Background 100 Samples.w0) = Ok res
      /\ AppliedDecorators res = ["tax"]
      /\ ProcessedAmount res = 110%float
      /\ OriginalAmount res = 110%float
      /\ OriginalAmount res <> 100%float)
  /\ (exists res,
         value (Process Samples.taxOverDiscount Background 100 Samples.w0) = Ok res
         /\ AppliedDecorators res = ["discount"; "tax"]
         /\ OriginalAmount res = 110%float
         /\ OriginalAmount res <> 100%float)
  /\ (exists res,
         value (Process Samples.discountOverCard Background 100 Samples.w0) = Ok res
         /\ OriginalAmount res = 100%float).
Proof.
  split; [|split].
  - eexists. split; [vm_compute; reflexivity|]. cbn [AppliedDecorators ProcessedAmount OriginalAmount].
    repeat split. apply float_neq. vm_compute. discriminate.
  - eexists. split; [vm_compute; reflexivity|]. cbn [AppliedDecorators ProcessedAmount OriginalAmount].
    repeat split. apply float_neq. vm_compute. discriminate.
  - eexists. split; [vm_compute; reflexivity|]. reflexivity.
Qed.

(** ** C1: which failures stop the retry loop *)

Lemma IsErrorCode_Wrap (err : error) (code message wanted : string) :
  IsErrorCode (Wrap err code message) wanted = String.eqb code wanted.
Proof. reflexivity. Qed.

(** The payment-failed envelope hides the code of what it wraps from
    [IsErrorCode], although the wrapped error stays in the chain. *)
Lemma Wrap_hides_classification (err : error) (message : string) :
  IsErrorCode (Wrap err ErrCodePaymentFailed message) ErrCodeFraudDetected = false
  /\ IsErrorCode (Wrap err ErrCodePaymentFailed message) ErrCodeInvalidPayment = false
  /\ (chainHasCode err ErrCodeFraudDetected = true ->
      chainHasCode (Wrap err ErrCodePaymentFailed message) ErrCodeFraudDetected = true).
Proof. repeat split. intros H. cbn. exact H. Qed.

(** An attempt whose error [IsErrorCode] classifies as fraud-detected or
    invalid-payment is the last one: the loop returns that error.  [w'] is
    the world in which the attempt runs, after the delay that precedes every
    attempt but the first. *)
Lemma retryLoop_stops_on_classified (cfg : Config.T) (ctx : Context) (s : PaymentStrategy)
    (p : Payment) (amount : float) (remaining : nat) (attempt : Z) (lastErr : option error)
    (w : World) (err : error) :
  let w' :=
    world ((if 0 <? attempt then Sleep (Config.RetryDelay (Config.Payment cfg)) else mret tt) w) in
  value (Execute s ctx p amount w') = Fail err ->
  IsErrorCode err ErrCodeFraudDetected || IsErrorCode err ErrCodeInvalidPayment = true ->
  value (CheckoutFacade.retryLoop cfg ctx s p amount (S remaining) attempt lastErr w)
  = Ok (None, Some err)
  /\ calls (CheckoutFacade.retryLoop cfg ctx s p amount (S remaining) attempt lastErr w)
     = CallExecute (GetName s) amount :: calls (Execute s ctx p amount w').
Proof.
  intros w' Hfail Hclass. cbn [CheckoutFacade.retryLoop]. unfold execute. run.
  cbn [tell value world calls app]. fold w'. rewrite Hfail, Hclass. cbn [value calls].
  rewrite app_nil_r.
  assert (Hsilent : calls ((if 0 <? attempt
                            then Sleep (Config.RetryDelay (Config.Payment cfg))
                            else mret tt) w) = []) by (destruct (0 <? attempt); reflexivity).
  rewrite Hsilent. split; reflexivity.
Qed.

Lemma AmountValidate_unclassified (amount min max : float) (err : error) :
  Validator.AmountValidate amount min max = Some err -> asAppErrorCode err = None.
Proof.
  unfold Validator.AmountValidate.
  repeat match goal with |- (if ?b then _ else _) = _ -> _ => destruct b end;
    intros H; try discriminate; injection H as <-; reflexivity.
Qed.

(** No error that the instant or the deferred strategy returns is
    classified: a range error carries no code at all, and whatever
    [Process] returned comes back inside a payment-failed envelope.  These
    are the only strategies the orchestrator can build. *)
Lemma Instant_failure_unclassified (s : InstantPaymentStrategy.T) (ctx : Context) (p : Payment)
    (amount : float) (w : World) (err : error) :
  value (InstantPaymentStrategy.Execute s ctx p amount w) = Fail err ->
  IsErrorCode err ErrCodeFraudDetected || IsErrorCode err ErrCodeInvalidPayment = false.
Proof.
  unfold InstantPaymentStrategy.Execute, InstantPaymentStrategy.ValidateAmount.
  destruct (Validator.AmountValidate _ _ _) as [e|] eqn:Ev.
  - intros H. injection H as <-. unfold IsErrorCode.
    rewrite (AmountValidate_unclassified _ _ _ _ Ev). reflexivity.
  - run. destruct (value (Process p ctx amount w)); intros H; try discriminate.
    injection H as <-. reflexivity.
Qed.

Lemma Deferred_failure_unclassified (s : DeferredPaymentStrategy.T) (ctx : Context) (p : Payment)
    (amount : float) (w : World) (err : error) :
  value (DeferredPaymentStrategy.Execute s ctx p amount w) = Fail err ->
  IsErrorCode err ErrCodeFraudDetected || IsErrorCode err ErrCodeInvalidPayment = false.
Proof.
  unfold DeferredPaymentStrategy.Execute, DeferredPaymentStrategy.ValidateAmount.
  destruct (Validator.AmountValidate _ _ _) as [e|] eqn:Ev.
  - intros H. injection H as <-. unfold IsErrorCode.
    rewrite (AmountValidate_unclassified _ _ _ _ Ev). reflexivity.
  - unfold CreateDeferredSchedule. run.
    destruct (makeslicePanics _ _); [discriminate|].
    destruct (map _ _) as [|first rest]; cbv beta iota delta [Payments]; [discriminate|].
    run.
    match goal with
    | |- context [value (Process p ctx ?a ?w')] => destruct (value (Process p ctx a w'))
    end; intros H; try discriminate.
    injection H as <-. reflexivity.
Qed.

(** C1 fails on the code. A checkout through the fraud-detection decorator
    with a maximal risk score of 5, where every screening computes 7: the
    decorator rejects with a [FRAUD_DETECTED] error, the instant strategy
    returns it inside its payment-failed envelope, [IsErrorCode] no longer
    recognises it, and with [RetryAttempts = 3] the loop runs all four
    attempts before [ProcessOrder] fails.  The deferred strategy behaves the
    same. *)
Theorem C1_fraud_rejection_is_retried :
  Config.RetryAttempts (Config.Payment Samples.cfgStrict) = 3
  /\ (exists err,
         value (CheckoutFacade.ProcessOrder Samples.cfgStrict Background Samples.fourMice
                  Samples.alice Samples.screenedInstant Samples.w0) = Fail err
         /\ chainHasCode err ErrCodeFraudDetected = true
         /\ IsErrorCode err ErrCodeFraudDetected = false)
  /\ attempts (calls (CheckoutFacade.ProcessOrder Samples.cfgStrict Background Samples.fourMice
                        Samples.alice Samples.screenedInstant Samples.w0)) = 4%nat
  /\ attempts (calls (CheckoutFacade.ProcessOrder Samples.cfgStrict Background Samples.fourMice
                        Samples.alice Samples.screenedDeferred Samples.w0)) = 4%nat.
Proof.
  split; [reflexivity|]. split.
  - eexists. split; [vm_compute; reflexivity|]. split; vm_compute; reflexivity.
  - split; vm_compute; reflexivity.
Qed.

(** * Further properties of the embedded code *)

(** ** Order of binary64 numbers *)

Lemma SFcompare_Lt_trans (x y z : spec_float) :
  SFcompare x y = Some Lt -> SFcompare y z = Some Lt -> SFcompare x z = Some Lt.
Proof.
  destruct x as [sx|sx| |sx mx ex], y as [sy|sy| |sy my ey], z as [sz|sz| |sz mz ez];
    simpl; try discriminate; try congruence;
    try (destruct sx; simpl; congruence); try (destruct sy; simpl; try congruence);
    try (destruct sx, sz; simpl; congruence);
    try (destruct sx; simpl; congruence); try (destruct sz; simpl; congruence).
  all: destruct sx, sz; simpl; try congruence.
  all: destruct (ex ?= ey) eqn:E1; try discriminate;
       destruct (ey ?= ez) eqn:E2; try discriminate;
       try (apply Z.compare_eq_iff in E1); try (apply Z.compare_eq_iff in E2);
       try rewrite Z.compare_lt_iff in *; try rewrite Z.compare_gt_iff in *; subst.
  all: intros H1 H2.
  all: try (rewrite Z.compare_refl).
  all: try match goal with
       | |- context [?a ?= ?b] =>
           first [ replace (a ?= b) with Lt by (symmetry; apply Z.compare_lt_iff; lia)
                 | replace (a ?= b) with Gt by (symmetry; apply Z.compare_gt_iff; lia) ]
       end; try reflexivity; try congruence.
  - change (PosDef.Pos.compare_cont Eq) with Pos.compare in *.
    destruct (mx ?= my)%positive eqn:A; try discriminate.
    destruct (my ?= mz)%positive eqn:B; try discriminate.
    rewrite Pos.compare_gt_iff in A, B.
    replace (mx ?= mz)%positive with Gt; [reflexivity|].
    symmetry. apply Pos.compare_gt_iff. lia.
  - change (PosDef.Pos.compare_cont Eq) with Pos.compare in *.
    destruct (mx ?= my)%positive eqn:A; try discriminate.
    destruct (my ?= mz)%positive eqn:B; try discriminate.
    rewrite Pos.compare_lt_iff in A, B.
    replace (mx ?= mz)%positive with Lt; [reflexivity|].
    symmetry. apply Pos.compare_lt_iff. lia.
Qed.

Lemma ltb_trans (x y z : float) :
  (x <? y)%float = true -> (y <? z)%float = true -> (x <? z)%float = true.
Proof.
  rewrite !ltb_spec. unfold SFltb.
  destruct (SFcompare (Prim2SF x) (Prim2SF y)) as [[]|] eqn:A; try discriminate.
  destruct (SFcompare (Prim2SF y) (Prim2SF z)) as [[]|] eqn:B; try discriminate.
  rewrite (SFcompare_Lt_trans _ _ _ A B). reflexivity.
Qed.

Lemma ltb_irrefl (x : float) : (x <? x)%float = false.
Proof.
  destruct (x <? x)%float eqn:E; [|reflexivity].
  pose proof (ltb_true_leb_false _ _ E) as H.
  rewrite leb_spec in H. rewrite ltb_spec in E. unfold SFleb, SFltb in *.
  destruct (SFcompare (Prim2SF x) (Prim2SF x)) as [[]|]; discriminate.
Qed.

Lemma SFcompare_number (x y : spec_float) :
  SFcompare x x <> None -> SFcompare y y <> None -> SFcompare x y <> None.
Proof.
  destruct x as [sx|sx| |sx mx ex], y as [sy|sy| |sy my ey]; simpl; try congruence;
    try (destruct sx; discriminate).
Qed.

Lemma isNumber_compare (x : float) : isNumber x = true -> SFcompare (Prim2SF x) (Prim2SF x) <> None.
Proof.
  unfold isNumber. rewrite FloatAxioms.eqb_spec. unfold SFeqb.
  destruct (SFcompare (Prim2SF x) (Prim2SF x)); [discriminate|discriminate].
Qed.

Lemma ltb_false_leb (x y : float) :
  isNumber x = true -> isNumber y = true -> (x <? y)%float = false -> (y <=? x)%float = true.
Proof.
  intros Hx Hy. rewrite ltb_spec, leb_spec. unfold SFltb, SFleb.
  pose proof (SFcompare_number _ _ (isNumber_compare _ Hx) (isNumber_compare _ Hy)) as H.
  rewrite (SFcompare_antisym (Prim2SF x) (Prim2SF y)).
  destruct (SFcompare (Prim2SF x) (Prim2SF y)) as [[]|]; simpl; congruence.
Qed.

Lemma ltb_nan_l (x y : float) : isNumber x = false -> (x <? y)%float = false.
Proof.
  unfold isNumber. rewrite FloatAxioms.eqb_spec, ltb_spec. unfold SFeqb, SFltb.
  destruct (Prim2SF x) as [sx|sx| |sx mx ex]; simpl.
  - discriminate.
  - destruct sx; discriminate.
  - reflexivity.
  - destruct sx; rewrite Z.compare_refl, Pos.compare_cont_refl; discriminate.
Qed.

Lemma ltb_nan_r (x y : float) : isNumber y = false -> (x <? y)%float = false.
Proof.
  unfold isNumber. rewrite FloatAxioms.eqb_spec, ltb_spec. unfold SFeqb, SFltb.
  destruct (Prim2SF y) as [sx|sx| |sx mx ex]; simpl.
  - discriminate.
  - destruct sx; discriminate.
  - destruct (Prim2SF x); reflexivity.
  - destruct sx; rewrite Z.compare_refl, Pos.compare_cont_refl; discriminate.
Qed.

(** ** Validators: card numbers, addresses, amounts *)

Section CardsAndAddresses.
Import Validator.

Lemma chars_string_of_list (l : list ascii) : chars (string_of_list_ascii l) = l.
Proof. apply list_ascii_of_string_of_list_ascii. Qed.

Lemma chars_app (a b : string) : chars (a +:+ b) = (chars a ++ chars b)%list.
Proof.
  unfold chars. induction a as [|c a IH]; [reflexivity|].
  change (String c a +:+ b) with (String c (a +:+ b)). cbn [list_ascii_of_string app].
  f_equal. exact IH.
Qed.

Lemma length_chars (s : string) : length (chars s) = String.length s.
Proof. unfold chars. induction s as [|c s IH]; cbn; [reflexivity|]. f_equal. exact IH. Qed.

Lemma len_chars (s : string) : len s = Z.of_nat (length (chars s)).
Proof. unfold len. rewrite length_chars. reflexivity. Qed.

Lemma string_of_chars (s : string) : string_of_list_ascii (chars s) = s.
Proof. apply string_of_list_ascii_of_string. Qed.

Lemma eqb_empty_chars (s : string) : String.eqb s "" = match chars s with [] => true | _ => false end.
Proof. destruct s; reflexivity. Qed.

Lemma chars_strip (s : string) : chars (removeChar "-" (removeChar " " s)) = strip s.
Proof. unfold removeChar, strip. rewrite !chars_string_of_list. reflexivity. Qed.

Lemma luhnSum_acc (l : list ascii) (e : bool) (s : Z) : luhnSum l e s = s + luhnSum l e 0.
Proof.
  revert e s. induction l as [|c l IH]; intros e s; cbn [luhnSum]; [lia|].
  rewrite (IH _ (s + _)), (IH _ (0 + _)). lia.
Qed.

Lemma luhnSum_app (p q : list ascii) (e : bool) (s : Z) :
  luhnSum (p ++ q) e s = luhnSum q (xorb e (Nat.odd (length p))) (luhnSum p e s).
Proof.
  revert e s. induction p as [|c p IH]; intros e s; cbn [app luhnSum length].
  - rewrite xorb_false_r. reflexivity.
  - rewrite IH. f_equal. rewrite Nat.odd_succ, <- Nat.negb_odd. destruct e, (Nat.odd (length p)); reflexivity.
Qed.

Lemma luhnSum_cons (c : ascii) (l : list ascii) (e : bool) (s : Z) :
  luhnSum (c :: l) e s = luhnSum l (negb e) (s + luhnDigit e c).
Proof. reflexivity. Qed.

Lemma isDigit_code (c : ascii) : isDigit c = true -> 48 <= code c <= 57.
Proof. unfold isDigit. intros H. apply andb_prop in H. destruct H as [H1 H2]. lia. Qed.

Lemma code_inj (c c' : ascii) : code c = code c' -> c = c'.
Proof.
  unfold code. intros H. apply Nat2Z.inj in H.
  rewrite <- (ascii_nat_embedding c), <- (ascii_nat_embedding c'), H. reflexivity.
Qed.

Lemma luhnDigit_differs (e : bool) (c c' : ascii) :
  isDigit c = true -> isDigit c' = true -> c <> c' ->
  (luhnDigit e c - luhnDigit e c') mod 10 <> 0.
Proof.
  intros Hc Hc' Hne. apply isDigit_code in Hc, Hc'.
  assert (Hcode : code c <> code c') by (intros E; apply Hne, code_inj, E).
  unfold luhnDigit. destruct e.
  - destruct (9 <? (code c - 48) * 2) eqn:A, (9 <? (code c' - 48) * 2) eqn:B;
      try apply Z.ltb_lt in A; try apply Z.ltb_ge in A;
      try apply Z.ltb_lt in B; try apply Z.ltb_ge in B;
      intros H; apply Z.mod_divide in H; try lia; destruct H as [k Hk]; lia.
  - intros H. apply Z.mod_divide in H; [|lia]. destruct H as [k Hk]. lia.
Qed.

Lemma strip_app (a b : string) : strip (a +:+ b) = (strip a ++ strip b)%list.
Proof. unfold strip. rewrite chars_app, !filter_app. reflexivity. Qed.

Lemma strip_digit (c : ascii) (b : string) :
  isDigit c = true -> strip (String c b) = c :: strip b.
Proof.
  intros H. apply isDigit_code in H. unfold strip. cbn [chars list_ascii_of_string].
  assert (Hs : Ascii.eqb " " c = false).
  { apply Ascii.eqb_neq. intros <-. change (code " ") with 32 in H. lia. }
  assert (Hd : Ascii.eqb "-" c = false).
  { apply Ascii.eqb_neq. intros <-. change (code "-") with 45 in H. lia. }
  rewrite filter_cons, decide_True by (rewrite Hs; exact I).
  rewrite filter_cons, decide_True by (rewrite Hd; exact I).
  reflexivity.
Qed.

Lemma ValidateCardNumber_strip (s : string) :
  ValidateCardNumber s =
  let l := strip s in
  if (Z.of_nat (length l) <? 13) || (19 <? Z.of_nat (length l)) then
    Some (Errorf "invalid card number length" None)
  else if negb (forallb isDigit l) then
    Some (Errorf "card number must contain only digits" None)
  else if negb (luhnSum (rev l) false 0 mod 10 =? 0) then
    Some (Errorf "invalid card number (failed Luhn check)" None)
  else None.
Proof.
  unfold ValidateCardNumber, allOf. cbv zeta.
  rewrite len_chars, eqb_empty_chars, chars_strip.
  destruct (strip s) as [|c l] eqn:E; [reflexivity|].
  reflexivity.
Qed.

(** X1. The Luhn check of [ValidateCardNumber] detects every single-digit
    error: if a card number is accepted, the number with one digit
    replaced by a different digit is rejected, with the Luhn error (its
    length and its characters are still fine). *)
Theorem Luhn_detects_single_digit_error (a b : string) (c c' : ascii) :
  isDigit c = true -> isDigit c' = true -> c <> c' ->
  ValidateCardNumber (a +:+ String c b) = None ->
  ValidateCardNumber (a +:+ String c' b)
  = Some (Errorf "invalid card number (failed Luhn check)" None).
Proof.
  intros Hc Hc' Hne. rewrite !ValidateCardNumber_strip. cbv zeta.
  rewrite !strip_app, (strip_digit c b Hc), (strip_digit c' b Hc').
  rewrite !length_app. cbn [length].
  destruct ((_ <? 13) || (19 <? _)); [discriminate|].
  rewrite !forallb_app. cbn [forallb]. rewrite Hc, Hc'.
  destruct (forallb isDigit (strip a) && (true && forallb isDigit (strip b))); [|discriminate].
  cbn [negb].
  rewrite !rev_app_distr. cbn [rev]. rewrite <- !app_assoc. cbn [app].
  rewrite !luhnSum_app, !luhnSum_cons.
  set (e := xorb false (Nat.odd (length (rev (strip b))))).
  set (s0 := luhnSum (rev (strip b)) false 0).
  rewrite (luhnSum_acc _ _ (s0 + luhnDigit e c)), (luhnSum_acc _ _ (s0 + luhnDigit e c')).
  set (t := luhnSum (rev (strip a)) (negb e) 0).
  pose proof (luhnDigit_differs e c c' Hc Hc' Hne) as Hd.
  destruct ((s0 + luhnDigit e c + t) mod 10 =? 0) eqn:E1; [|discriminate].
  intros _. apply Z.eqb_eq in E1.
  destruct ((s0 + luhnDigit e c' + t) mod 10 =? 0) eqn:E2; [|reflexivity].
  apply Z.eqb_eq in E2. exfalso. apply Hd.
  apply Z.mod_divide in E1, E2; try lia. apply Z.mod_divide; [lia|].
  destruct E1 as [k1 H1], E2 as [k2 H2]. exists (k1 - k2). lia.
Qed.

(** The test card number with its last digit changed from 6 to 7. *)
Lemma Luhn_witness :
  ValidateCardNumber "4532015112830367"
  = Some (Errorf "invalid card number (failed Luhn check)" None).
Proof.
  apply (Luhn_detects_single_digit_error "453201511283036" "" "6" "7").
  - reflexivity.
  - reflexivity.
  - discriminate.
  - vm_compute. reflexivity.
Defined.

(** X2. [ValidateCardNumber] ignores spaces and dashes: a space or a dash
    put anywhere into a card number changes neither the verdict nor the
    error. *)
Theorem CardNumber_separators_ignored (a b : string) (sep : ascii) :
  sep = " "%char \/ sep = "-"%char ->
  ValidateCardNumber (a +:+ String sep b) = ValidateCardNumber (a +:+ b).
Proof.
  intros Hsep. rewrite !ValidateCardNumber_strip.
  assert (E : strip (a +:+ String sep b) = strip (a +:+ b)).
  { rewrite !strip_app. f_equal. unfold strip. cbn [chars list_ascii_of_string].
    destruct Hsep as [-> | ->]; reflexivity. }
  rewrite E. reflexivity.
Qed.

(** A space put into the test card number, written with separators. *)
Lemma CardNumber_separators_witness :
  ValidateCardNumber "4532 0151-1283 0366" = ValidateCardNumber "4532 0151-12830366".
Proof.
  apply (CardNumber_separators_ignored "4532 0151-1283" "0366" " "). left. reflexivity.
Defined.

(** X3. [validateBitcoinAddress] accepts only addresses that start with 1
    or 3 and are 26 to 35 characters long. *)
Theorem Bitcoin_accepts_only_legacy (address : string) :
  validateBitcoinAddress address = None ->
  exists (c : ascii) (rest : string),
    address = String c rest /\ (c = "1"%char \/ c = "3"%char) /\ 25 <= len rest <= 34.
Proof.
  unfold validateBitcoinAddress, bitcoinMatches.
  destruct ((len address <? 26) || (35 <? len address)) eqn:El; [discriminate|].
  apply orb_false_elim in El. destruct El as [E1 E2].
  apply Z.ltb_ge in E1, E2.
  destruct address as [|c rest]; [change (len "") with 0 in E1; lia|].
  cbn [chars list_ascii_of_string].
  assert (Hlen : len (String c rest) = 1 + len rest) by (unfold len; cbn [String.length]; lia).
  fold (chars rest).
  match goal with
  | |- (if negb (_ || ?seg) then _ else _) = _ -> _ =>
      assert (Hseg : seg = false)
  end.
  { destruct (chars rest) as [|c2 [|c3 r]] eqn:Er; try reflexivity.
    assert (Hr : len rest = 2 + Z.of_nat (length r)).
    { rewrite len_chars, Er. cbn [length]. lia. }
    destruct (39 <=? Z.of_nat (length r)) eqn:E39.
    - apply Z.leb_le in E39. lia.
    - rewrite !andb_false_r. reflexivity. }
  rewrite Hseg, orb_false_r.
  destruct (oneOf "13" c) eqn:Ec; [|cbn; discriminate].
  intros _. exists c, rest. split; [reflexivity|]. split.
  - unfold oneOf in Ec. cbn in Ec. apply orb_prop in Ec.
    destruct Ec as [Ec|Ec]; [left|right].
    + apply Ascii.eqb_eq in Ec. exact Ec.
    + rewrite orb_false_r in Ec. apply Ascii.eqb_eq in Ec. exact Ec.
  - lia.
Qed.

(** An accepted address of 34 characters that starts with 1. *)
Lemma Bitcoin_witness :
  exists (c : ascii) (rest : string),
    "1A1zP1eP5QGefi2DMPTfTL5SLmv7DivfNa" = String c rest
    /\ (c = "1"%char \/ c = "3"%char) /\ 25 <= len rest <= 34.
Proof. apply Bitcoin_accepts_only_legacy. vm_compute. reflexivity. Defined.

End CardsAndAddresses.

(** X4. [AmountValidator.Validate] raises no error for a NaN amount,
    whatever the range (all three comparisons are false); for numbers it
    accepts an amount exactly when it is within the range and not
    negative. *)
Theorem AmountValidate_accepts (amount min max : float) :
  (isNumber amount = false -> Validator.AmountValidate amount min max = None)
  /\ (isNumber amount = true -> isNumber min = true -> isNumber max = true ->
      (Validator.AmountValidate amount min max = None
       <-> (min <=? amount)%float = true /\ (amount <=? max)%float = true
           /\ (0 <=? amount)%float = true)).
Proof.
  split.
  - intros Hnan. unfold Validator.AmountValidate.
    rewrite (ltb_nan_l amount min Hnan), (ltb_nan_r max amount Hnan), (ltb_nan_l amount 0 Hnan).
    reflexivity.
  - intros Ha Hmin Hmax. unfold Validator.AmountValidate. split.
    + destruct (amount <? min)%float eqn:E1; [discriminate|].
      destruct (max <? amount)%float eqn:E2; [discriminate|].
      destruct (amount <? 0)%float eqn:E3; [discriminate|].
      intros _. repeat split; apply ltb_false_leb; auto.
    + intros (H1 & H2 & H3).
      rewrite (leb_true_ltb_false _ _ H1), (leb_true_ltb_false _ _ H2),
        (leb_true_ltb_false _ _ H3). reflexivity.
Qed.

(** The amount 50 in the range of the credit card. *)
Lemma AmountValidate_witness :
  Validator.AmountValidate 50 1 10000 = None
  <-> (1 <=? 50)%float = true /\ (50 <=? 10000)%float = true /\ (0 <=? 50)%float = true.
Proof.
  apply (proj2 (AmountValidate_accepts 50 1 10000)); reflexivity.
Defined.

(** ** Payment instruments and their factory *)

Ltac leaf :=
  split; [split; [reflexivity | first [left; reflexivity | right; reflexivity]] | reflexivity].

Lemma CreatePayment_cases (paymentType : string) (config : PaymentConfig) (w0 : World) :
  match value (PaymentFactory.CreatePayment paymentType config w0) with
  | Ok p =>
      instrumentProfile p paymentType
      /\ addr p = allocated w0
      /\ allocated (world (PaymentFactory.CreatePayment paymentType config w0)) = S (allocated w0)
  | Fail e =>
      world (PaymentFactory.CreatePayment paymentType config w0) = w0
      /\ (asAppErrorCode e = Some ErrCodeInvalidPayment
          \/ asAppErrorCode e = Some ErrCodeValidation)
  | Crash => False
  end
  /\ calls (PaymentFactory.CreatePayment paymentType config w0) = [].
Proof.
  unfold PaymentFactory.CreatePayment.
  destruct (negb (default false (PaymentFactory.supportedTypes !! paymentType)));
    [leaf|].
  destruct (String.eqb paymentType "credit_card") eqn:E1.
  { apply String.eqb_eq in E1. subst paymentType.
    unfold PaymentFactory.createCreditCardPayment, NewCreditCardPayment.
    repeat match goal with
           | |- context [if ?b then _ else _] => destruct b; [leaf|]
           | |- context [match ?x with Some _ => _ | None => _ end] => destruct x; [leaf|]
           end.
    cbn. split; [|reflexivity]. split; [|auto]. split; [reflexivity|].
    do 4 eexists. split; [|left; reflexivity]. intros. repeat split. }
  destruct (String.eqb paymentType "paypal") eqn:E2.
  { apply String.eqb_eq in E2. subst paymentType.
    unfold PaymentFactory.createPayPalPayment, NewPayPalPayment.
    repeat match goal with
           | |- context [if ?b then _ else _] => destruct b; [leaf|]
           | |- context [match ?x with Some _ => _ | None => _ end] => destruct x; [leaf|]
           end.
    cbn. split; [|reflexivity]. split; [|auto]. split; [reflexivity|].
    do 4 eexists. split; [|left; reflexivity]. intros. repeat split. }
  destruct (String.eqb paymentType "crypto") eqn:E3.
  { apply String.eqb_eq in E3. subst paymentType.
    unfold PaymentFactory.createCryptoPayment, NewCryptoPayment.
    repeat match goal with
           | |- context [if ?b then _ else _] => destruct b; [leaf|]
           | |- context [match ?x with Some _ => _ | None => _ end] => destruct x; [leaf|]
           end.
    cbn. split; [|reflexivity]. split; [|auto]. split; [reflexivity|].
    exists 10%float, 50000%float, (200 * Millisecond).
    eexists (cryptoResult (WalletAddress config) (Validator.ToUpper (CryptoType config))).
    split; [|right; reflexivity]. intros. repeat split. }
  leaf.
Qed.

Lemma ctxErr_run (ctx : Context) (w : World) :
  ctxErr ctx w = mkOut (value (ctxErr ctx w)) w [].
Proof. reflexivity. Qed.

Lemma processInstrument_expired (min max : float) (latency : Duration)
    (build : string -> Time -> float -> PaymentResult) (ctx : Context) (amount : float)
    (w : World) (e : error) :
  value (ctxErr ctx w) = Some e ->
  processInstrument min max latency build ctx amount w
  = mkOut (Fail (Wrap e ErrCodeTimeout "payment context expired")) w [].
Proof.
  intros H. unfold processInstrument. rewrite bind_run, ctxErr_run. cbn [value world calls].
  rewrite H. reflexivity.
Qed.

Lemma processInstrument_ok (min max : float) (latency : Duration)
    (build : string -> Time -> float -> PaymentResult) (ctx : Context) (amount : float)
    (w : World) (res : PaymentResult) :
  value (processInstrument min max latency build ctx amount w) = Ok res ->
  value (ctxErr ctx w) = None
  /\ Validator.AmountValidate amount min max = None
  /\ res = build (uuidSource w (uuidsDrawn w)) (clock w + Z.max 0 latency) amount
  /\ uuidsDrawn (world (processInstrument min max latency build ctx amount w)) = S (uuidsDrawn w)
  /\ clock (world (processInstrument min max latency build ctx amount w))
     = clock w + Z.max 0 latency.
Proof.
  unfold processInstrument. rewrite bind_run, ctxErr_run. cbn [value world calls].
  destruct (value (ctxErr ctx w)); [discriminate|].
  destruct (Validator.AmountValidate amount min max); [discriminate|].
  cbn. intros H. injection H as <-. repeat split.
Qed.

(** X5. [PaymentFactory.CreatePayment] never panics and calls no payment;
    when it fails, the world is untouched (no identifier has been drawn)
    and the error is an invalid-payment or a validation error; a type
    other than the three known ones always gives the invalid-payment
    error. *)
Theorem CreatePayment_failure_has_no_effect
    (paymentType : string) (config : PaymentConfig) (w0 : World) :
  value (PaymentFactory.CreatePayment paymentType config w0) <> Crash
  /\ calls (PaymentFactory.CreatePayment paymentType config w0) = []
  /\ (forall e, value (PaymentFactory.CreatePayment paymentType config w0) = Fail e ->
        world (PaymentFactory.CreatePayment paymentType config w0) = w0
        /\ (GetErrorCode e = ErrCodeInvalidPayment \/ GetErrorCode e = ErrCodeValidation))
  /\ (paymentType <> "credit_card" -> paymentType <> "paypal" -> paymentType <> "crypto" ->
      exists e, value (PaymentFactory.CreatePayment paymentType config w0) = Fail e
                /\ GetErrorCode e = ErrCodeInvalidPayment).
Proof.
  pose proof (CreatePayment_cases paymentType config w0) as [H Hc].
  split; [|split; [exact Hc|split]].
  - intros E. rewrite E in H. exact H.
  - intros e E. rewrite E in H. destruct H as [Hw Hcode]. split; [exact Hw|].
    unfold GetErrorCode. destruct Hcode as [-> | ->]; auto.
  - intros H1 H2 H3. unfold PaymentFactory.CreatePayment.
    apply String.eqb_neq in H1, H2, H3. rewrite H1, H2, H3.
    destruct (negb _); eexists; split; reflexivity.
Qed.

(** X6. A payment made by [CreatePayment] reports the requested type, and
    a successful [Process] returns a result with [Success] set, that
    type as method, the amount it was given as [Amount], [OriginalAmount]
    and [ProcessedAmount], no applied decorators and a fresh identifier
    as transaction id (the next one of the source, which is drawn
    exactly once); it calls no other payment. *)
Theorem Instrument_success_echoes_amount
    (paymentType : string) (config : PaymentConfig) (w0 : World) (p : Payment)
    (ctx : Context) (amount : float) (w : World) (res : PaymentResult) :
  value (PaymentFactory.CreatePayment paymentType config w0) = Ok p ->
  value (Process p ctx amount w) = Ok res ->
  GetType p = paymentType
  /\ Success res = true
  /\ PaymentMethod res = paymentType
  /\ Amount res = amount /\ OriginalAmount res = amount /\ ProcessedAmount res = amount
  /\ AppliedDecorators res = []
  /\ TransactionID res = uuidSource w (uuidsDrawn w)
  /\ uuidsDrawn (world (Process p ctx amount w)) = S (uuidsDrawn w)
  /\ calls (Process p ctx amount w) = [].
Proof.
  intros Hp. pose proof (CreatePayment_cases paymentType config w0) as [H _].
  rewrite Hp in H. destruct H as [[Ht (min & max & latency & build & Hb & [-> | ->])] _].
  - intros Hok. destruct (processInstrument_ok _ _ _ _ _ _ _ _ Hok) as (_ & _ & -> & Hu & _).
    destruct (Hb (uuidSource w (uuidsDrawn w)) (clock w + Z.max 0 latency) amount)
      as (? & ? & ? & ? & ? & ? & ?).
    repeat split; try assumption.
    unfold processInstrument. rewrite bind_run, ctxErr_run. cbn [value world calls app].
    destruct (value (ctxErr ctx w)); [reflexivity|].
    destruct (Validator.AmountValidate amount min max); reflexivity.
  - rewrite bind_run. cbn [value world calls].
    destruct (value (processInstrument min max latency build ctx amount w)) as [r| |] eqn:Er;
      try discriminate.
    destruct (Validator.len (TransactionID r) <? 16); [discriminate|].
    intros H. injection H as <-.
    destruct (processInstrument_ok _ _ _ _ _ _ _ _ Er) as (_ & _ & -> & Hu & _).
    destruct (Hb (uuidSource w (uuidsDrawn w)) (clock w + Z.max 0 latency) amount)
      as (? & ? & ? & ? & ? & ? & ?).
    repeat split; try assumption.
    rewrite app_nil_r.
    unfold processInstrument. rewrite bind_run, ctxErr_run. cbn [value world calls app].
    destruct (value (ctxErr ctx w)); [reflexivity|].
    destruct (Validator.AmountValidate amount min max); reflexivity.
Qed.

(** The test card, as the factory builds it, charged 100.00. *)
Lemma Instrument_success_witness :
  exists res,
    value (Process Samples.card Background 100 Samples.w0) = Ok res
    /\ Amount res = 100%float
    /\ TransactionID res = Samples.uuid0 0.
Proof.
  eexists. split; [reflexivity|].
  edestruct (Instrument_success_echoes_amount "credit_card" Samples.cardConfig Samples.w0
               Samples.card Background 100 Samples.w0)
    as (_ & _ & _ & Ha & _ & _ & _ & Hid & _); [reflexivity|reflexivity|].
  split; [exact Ha|exact Hid].
Defined.

(** X7. A payment made by [CreatePayment] does nothing on a context that
    is already cancelled or past its deadline: [Process] returns the
    timeout error around the context's error, whatever the amount, with
    the world as it was. *)
Theorem Instrument_refuses_finished_context
    (paymentType : string) (config : PaymentConfig) (w0 : World) (p : Payment)
    (ctx : Context) (amount : float) (w : World) (e : error) :
  value (PaymentFactory.CreatePayment paymentType config w0) = Ok p ->
  value (ctxErr ctx w) = Some e ->
  Process p ctx amount w
  = mkOut (Fail (Wrap e ErrCodeTimeout "payment context expired")) w [].
Proof.
  intros Hp He. pose proof (CreatePayment_cases paymentType config w0) as [H _].
  rewrite Hp in H. destruct H as [[_ (min & max & latency & build & _ & [-> | ->])] _].
  - apply processInstrument_expired. exact He.
  - rewrite bind_run, (processInstrument_expired _ _ _ _ _ _ _ _ He). reflexivity.
Qed.

(** The test card on a cancelled context. *)
Lemma Instrument_refuses_witness :
  Process Samples.card Samples.cancelled 100 Samples.w0
  = mkOut (Fail (Wrap (ContextError false) ErrCodeTimeout "payment context expired"))
      Samples.w0 [].
Proof.
  apply (Instrument_refuses_finished_context "credit_card" Samples.cardConfig Samples.w0
           Samples.card Samples.cancelled 100 Samples.w0); reflexivity.
Defined.

(** ** Decorators and their factory *)

Ltac relay_wrapped :=
  right; do 2 eexists; split; [eassumption | rewrite ?app_nil_r; reflexivity].

(** X8. The five decorators do not invent or mask failures: an error that
    a decorator's [Process] returns is either its own refusal, a
    validation or fraud-detected error raised before the wrapped payment
    has been called, or exactly the error the wrapped payment returned,
    unwrapped. *)
Theorem Decorators_relay_failures (wrapped : Payment) :
  (forall d, relays (DiscountDecorator.Process d wrapped) wrapped)
  /\ (forall d, relays (TaxDecorator.Process d wrapped) wrapped)
  /\ (forall d, relays (CashbackDecorator.Process d wrapped) wrapped)
  /\ (forall inst d, relays (FraudDetectionDecorator.Process inst d wrapped) wrapped)
  /\ (forall d, relays (LoyaltyPointsDecorator.Process d wrapped) wrapped).
Proof.
  repeat split; intros; intros ctx amount w e.
  - unfold DiscountDecorator.Process. rewrite bind_run. cbn [Now value world calls app].
    destruct (DiscountDecorator.expired d (clock w)).
    { intros H. injection H as <-. left. split; [reflexivity|left; reflexivity]. }
    destruct (amount <? DiscountDecorator.MinAmount d)%float.
    { intros H. injection H as <-. left. split; [reflexivity|left; reflexivity]. }
    run.
    match goal with
    | |- context [value (Process wrapped ctx ?a ?w')] =>
        destruct (value (Process wrapped ctx a w')) eqn:E
    end; intros H; try discriminate. injection H as <-. relay_wrapped.
  - unfold TaxDecorator.Process. run.
    match goal with
    | |- context [value (Process wrapped ctx ?a ?w')] =>
        destruct (value (Process wrapped ctx a w')) eqn:E
    end; intros H; try discriminate. injection H as <-. relay_wrapped.
  - unfold CashbackDecorator.Process. run.
    match goal with
    | |- context [value (Process wrapped ctx ?a ?w')] =>
        destruct (value (Process wrapped ctx a w')) eqn:E
    end; intros H; try discriminate. injection H as <-. relay_wrapped.
  - unfold FraudDetectionDecorator.Process, FraudDetectionDecorator.calculateRiskScore.
    rewrite !bind_run. cbn [Intn mret M_ret value world calls app].
    match goal with |- context [if ?b then _ else _] => destruct b end.
    { intros H. injection H as <-. left. split; [reflexivity|right; reflexivity]. }
    rewrite bind_case.
    match goal with |- context [FraudDetectionDecorator.velocityCheck inst d ?w1] =>
      assert (Hv : calls (FraudDetectionDecorator.velocityCheck inst d w1) = []
                   /\ match value (FraudDetectionDecorator.velocityCheck inst d w1) with
                      | Some e => IsErrorCode e ErrCodeFraudDetected = true
                      | None => True
                      end);
      [|destruct (FraudDetectionDecorator.velocityCheck inst d w1) as [verr w2 c2]]
    end.
    { unfold FraudDetectionDecorator.velocityCheck. rewrite bind_run.
      cbn [getVelocity value world calls app].
      match goal with |- context [match ?x with Some _ => _ | None => _ end] => destruct x end;
        [|split; [reflexivity|exact I]].
      rewrite bind_run. cbn [Now value world calls app].
      match goal with |- context [if ?b then _ else _] => destruct b end;
        split; try reflexivity; exact I. }
    cbn [value calls] in Hv. destruct Hv as [-> Hv]. cbn [prepend value calls app].
    destruct verr as [ve|].
    { intros H. injection H as <-. left. split; [reflexivity|right; exact Hv]. }
    unfold FraudDetectionDecorator.geolocationCheck.
    rewrite !bind_run. cbn [Intn mret M_ret value world calls app].
    match goal with |- context [if ?b then _ else _] => destruct b end.
    { intros H. injection H as <-. left. split; [reflexivity|right; reflexivity]. }
    run.
    match goal with
    | |- context [value (Process wrapped ctx ?a ?w')] =>
        destruct (value (Process wrapped ctx a w')) eqn:E
    end; cbn [value calls]; intros H; try discriminate. injection H as <-. relay_wrapped.
  - unfold LoyaltyPointsDecorator.Process.
    match goal with |- context [if ?b then _ else _] => destruct b end.
    { intros H. injection H as <-. left. split; [reflexivity|left; reflexivity]. }
    run.
    match goal with
    | |- context [value (Process wrapped ctx ?a ?w')] =>
        destruct (value (Process wrapped ctx a w')) eqn:E
    end; intros H; try discriminate. injection H as <-. relay_wrapped.
Qed.

Ltac called_once := right; do 2 eexists; rewrite ?app_nil_r; reflexivity.

Lemma decorators_callsOnce (wrapped : Payment) :
  (forall d, callsOnce (DiscountDecorator.Process d wrapped) wrapped)
  /\ (forall d, callsOnce (TaxDecorator.Process d wrapped) wrapped)
  /\ (forall d, callsOnce (CashbackDecorator.Process d wrapped) wrapped)
  /\ (forall inst d, callsOnce (FraudDetectionDecorator.Process inst d wrapped) wrapped)
  /\ (forall d, callsOnce (LoyaltyPointsDecorator.Process d wrapped) wrapped).
Proof.
  repeat split; intros; intros ctx amount w.
  - unfold DiscountDecorator.Process. rewrite bind_run. cbn [Now value world calls app].
    destruct (DiscountDecorator.expired d (clock w)); [left; reflexivity|].
    destruct (amount <? DiscountDecorator.MinAmount d)%float; [left; reflexivity|].
    run. called_once.
  - unfold TaxDecorator.Process. run. called_once.
  - unfold CashbackDecorator.Process. run. called_once.
  - unfold FraudDetectionDecorator.Process, FraudDetectionDecorator.calculateRiskScore.
    rewrite !bind_run. cbn [Intn mret M_ret value world calls app].
    match goal with |- context [if ?b then _ else _] => destruct b end; [left; reflexivity|].
    rewrite bind_case.
    match goal with |- context [FraudDetectionDecorator.velocityCheck inst d ?w1] =>
      assert (Hv : calls (FraudDetectionDecorator.velocityCheck inst d w1) = []);
      [|destruct (FraudDetectionDecorator.velocityCheck inst d w1) as [verr w2 c2]]
    end.
    { unfold FraudDetectionDecorator.velocityCheck. rewrite bind_run.
      cbn [getVelocity value world calls app].
      match goal with |- context [match ?x with Some _ => _ | None => _ end] => destruct x end;
        [|reflexivity].
      rewrite bind_run. cbn [Now value world calls app].
      match goal with |- context [if ?b then _ else _] => destruct b end; reflexivity. }
    cbn [calls] in Hv. subst c2. cbn [prepend calls app].
    destruct verr as [ve|]; [left; reflexivity|].
    unfold FraudDetectionDecorator.geolocationCheck.
    rewrite !bind_run. cbn [Intn mret M_ret value world calls app].
    match goal with |- context [if ?b then _ else _] => destruct b end; [left; reflexivity|].
    run.
    match goal with
    | |- context [value (Process wrapped ctx ?a ?w')] =>
        destruct (value (Process wrapped ctx a w')) eqn:E
    end; cbn [calls]; called_once.
  - unfold LoyaltyPointsDecorator.Process.
    match goal with |- context [if ?b then _ else _] => destruct b end; [left; reflexivity|].
    run. called_once.
Qed.

(** X9. Each of the five decorators calls the [Process] of the payment it
    wraps at most once, and makes no other call. *)
Theorem Decorators_call_wrapped_at_most_once (wrapped : Payment) :
  (forall d, callsOnce (DiscountDecorator.Process d wrapped) wrapped)
  /\ (forall d, callsOnce (TaxDecorator.Process d wrapped) wrapped)
  /\ (forall d, callsOnce (CashbackDecorator.Process d wrapped) wrapped)
  /\ (forall inst d, callsOnce (FraudDetectionDecorator.Process inst d wrapped) wrapped)
  /\ (forall d, callsOnce (LoyaltyPointsDecorator.Process d wrapped) wrapped).
Proof. exact (decorators_callsOnce wrapped). Qed.

Ltac appended :=
  do 3 eexists; split; [eassumption | reflexivity].

Lemma Decorators_append_name (wrapped : Payment) :
  (forall d, appends "discount" (DiscountDecorator.Process d wrapped) wrapped)
  /\ (forall d, appends "tax" (TaxDecorator.Process d wrapped) wrapped)
  /\ (forall d, appends "cashback" (CashbackDecorator.Process d wrapped) wrapped)
  /\ (forall inst d, appends "fraud_detection" (FraudDetectionDecorator.Process inst d wrapped)
                       wrapped)
  /\ (forall d, appends "loyalty_points" (LoyaltyPointsDecorator.Process d wrapped) wrapped).
Proof.
  repeat split; intros; intros ctx amount w res.
  - unfold DiscountDecorator.Process. rewrite bind_run. cbn [Now value world calls app].
    destruct (DiscountDecorator.expired d (clock w)); [discriminate|].
    destruct (amount <? DiscountDecorator.MinAmount d)%float; [discriminate|].
    run.
    match goal with
    | |- context [value (Process wrapped ctx ?a ?w')] =>
        destruct (value (Process wrapped ctx a w')) eqn:E
    end; intros H; try discriminate. injection H as <-. appended.
  - unfold TaxDecorator.Process. run.
    match goal with
    | |- context [value (Process wrapped ctx ?a ?w')] =>
        destruct (value (Process wrapped ctx a w')) eqn:E
    end; intros H; try discriminate. injection H as <-.
    do 3 eexists. split; [eassumption|]. cbn [AppliedDecorators setMeta ensureMetadata
      appendDecorator withAmount withProcessedAmount].
    destruct (OriginalAmount _ =? 0)%float; reflexivity.
  - unfold CashbackDecorator.Process. run.
    match goal with
    | |- context [value (Process wrapped ctx ?a ?w')] =>
        destruct (value (Process wrapped ctx a w')) eqn:E
    end; intros H; try discriminate. injection H as <-. appended.
  - unfold FraudDetectionDecorator.Process, FraudDetectionDecorator.calculateRiskScore.
    rewrite !bind_run. cbn [Intn mret M_ret value world calls app].
    match goal with |- context [if ?b then _ else _] => destruct b end; [discriminate|].
    rewrite bind_run. cbn [value].
    destruct (value (FraudDetectionDecorator.velocityCheck inst d _)); [discriminate|].
    unfold FraudDetectionDecorator.geolocationCheck.
    rewrite !bind_run. cbn [Intn mret M_ret value world calls app].
    match goal with |- context [if ?b then _ else _] => destruct b end; [discriminate|].
    run.
    match goal with
    | |- context [value (Process wrapped ctx ?a ?w')] =>
        destruct (value (Process wrapped ctx a w')) eqn:E
    end; cbn [value]; intros H; try discriminate. injection H as <-. appended.
  - unfold LoyaltyPointsDecorator.Process.
    match goal with |- context [if ?b then _ else _] => destruct b end; [discriminate|].
    run.
    match goal with
    | |- context [value (Process wrapped ctx ?a ?w')] =>
        destruct (value (Process wrapped ctx a w')) eqn:E
    end; intros H; try discriminate. injection H as <-.
    do 3 eexists. split; [eassumption|]. cbn [AppliedDecorators setMeta ensureMetadata
      appendDecorator withAmount withProcessedAmount].
    destruct (OriginalAmount _ =? 0)%float; reflexivity.
Qed.

Lemma createDecorator_cases (cfg : Config.T) (feature : string) (wrapped : Payment)
    (options : CheckoutOptions) (customer : option Customer) (w : World) :
  match value (DecoratorFactory.createDecorator cfg feature wrapped options customer w) with
  | Ok next =>
      GetType next = GetType wrapped /\ GetDetails next = GetDetails wrapped
      /\ if effective cfg options customer feature
         then appends feature (Process next) wrapped
         else next = wrapped
              /\ world (DecoratorFactory.createDecorator cfg feature wrapped options customer w) = w
  | Fail e => asAppErrorCode e = Some ErrCodeValidation
  | Crash => False
  end.
Proof.
  destruct (Decorators_append_name wrapped) as (A1 & A2 & A3 & A4 & A5).
  unfold effective, DecoratorFactory.GetAvailableDecorators.
  unfold DecoratorFactory.createDecorator, DecoratorFactory.createDiscountDecorator,
    DecoratorFactory.createCashbackDecorator, DecoratorFactory.createFraudDetectionDecorator,
    DecoratorFactory.createTaxDecorator, DecoratorFactory.createLoyaltyPointsDecorator,
    DiscountDecorator.New, CashbackDecorator.New, FraudDetectionDecorator.New, TaxDecorator.New,
    LoyaltyPointsDecorator.New.
  destruct (String.eqb feature "discount") eqn:E1.
  { apply String.eqb_eq in E1. subst feature.
    destruct (Config.DiscountEnabled (Config.Discount cfg));
      destruct (Config.CashbackEnabled (Config.Cashback cfg));
      destruct (Config.FraudDetectionEnabled (Config.FraudDetection cfg));
      destruct (Config.TaxEnabled (Config.Tax cfg));
      destruct (Config.LoyaltyPointsEnabled (Config.LoyaltyPoints cfg));
      cbn [negb app existsb String.eqb Ascii.eqb Bool.eqb orb andb];
      try (cbn; repeat split; fail);
      rewrite bind_run; cbn [Now value world];
      repeat match goal with |- context [if ?b then _ else _] => destruct b end;
      cbn [value mret M_ret]; try reflexivity;
      rewrite bind_run; cbn [value alloc mret M_ret GetType GetDetails decorate Process];
      (split; [reflexivity|]); (split; [reflexivity|]); apply A1. }
  destruct (String.eqb feature "cashback") eqn:E2.
  { apply String.eqb_eq in E2. subst feature.
    destruct (Config.DiscountEnabled (Config.Discount cfg));
      destruct (Config.CashbackEnabled (Config.Cashback cfg));
      destruct (Config.FraudDetectionEnabled (Config.FraudDetection cfg));
      destruct (Config.TaxEnabled (Config.Tax cfg));
      destruct (Config.LoyaltyPointsEnabled (Config.LoyaltyPoints cfg));
      cbn [negb app existsb String.eqb Ascii.eqb Bool.eqb orb andb];
      try (cbn; repeat split; fail);
      cbn; (split; [reflexivity|]); (split; [reflexivity|]); apply A3. }
  destruct (String.eqb feature "fraud_detection") eqn:E3.
  { apply String.eqb_eq in E3. subst feature.
    destruct (Config.DiscountEnabled (Config.Discount cfg));
      destruct (Config.CashbackEnabled (Config.Cashback cfg));
      destruct (Config.FraudDetectionEnabled (Config.FraudDetection cfg));
      destruct (Config.TaxEnabled (Config.Tax cfg));
      destruct (Config.LoyaltyPointsEnabled (Config.LoyaltyPoints cfg));
      cbn [negb app existsb String.eqb Ascii.eqb Bool.eqb orb andb];
      try (cbn; repeat split; fail);
      cbn; (split; [reflexivity|]); (split; [reflexivity|]); apply A4. }
  destruct (String.eqb feature "tax") eqn:E4.
  { apply String.eqb_eq in E4. subst feature.
    destruct (Config.DiscountEnabled (Config.Discount cfg));
      destruct (Config.CashbackEnabled (Config.Cashback cfg));
      destruct (Config.FraudDetectionEnabled (Config.FraudDetection cfg));
      destruct (Config.TaxEnabled (Config.Tax cfg));
      destruct (Config.LoyaltyPointsEnabled (Config.LoyaltyPoints cfg));
      cbn [negb app existsb String.eqb Ascii.eqb Bool.eqb orb andb];
      try (cbn; repeat split; fail);
      cbn; (split; [reflexivity|]); (split; [reflexivity|]); apply A2. }
  destruct (String.eqb feature "loyalty_points") eqn:E5.
  { apply String.eqb_eq in E5. subst feature.
    destruct (Config.DiscountEnabled (Config.Discount cfg));
      destruct (Config.CashbackEnabled (Config.Cashback cfg));
      destruct (Config.FraudDetectionEnabled (Config.FraudDetection cfg));
      destruct (Config.TaxEnabled (Config.Tax cfg));
      destruct (Config.LoyaltyPointsEnabled (Config.LoyaltyPoints cfg));
      cbn [negb app existsb String.eqb Ascii.eqb Bool.eqb orb andb];
      try (cbn; repeat split; fail);
      destruct customer as [c|]; try (cbn; repeat split; fail);
      destruct (UseLoyaltyPoints options =? 0); try (cbn; repeat split; fail);
      cbn [negb andb];
      repeat match goal with |- context [if ?b then _ else _] => destruct b end;
      cbn [value mret M_ret]; try reflexivity;
      rewrite bind_run; cbn [value alloc mret M_ret GetType GetDetails decorate Process];
      (split; [reflexivity|]); (split; [reflexivity|]); apply A5. }
  reflexivity.
Qed.

(** X10. When a payment built by [CreateDecoratorChain] succeeds, its
    [AppliedDecorators] are those of the base payment's result followed
    by the requested features that took effect, in the order they were
    requested (duplicates included): unknown or disabled features, and
    loyalty points without a customer or without points to redeem, leave
    no entry. *)
Theorem Chain_lists_effective_features (cfg : Config.T) (features : list string)
    (options : CheckoutOptions) (customer : option Customer) (base : Payment) (w0 : World)
    (p : Payment) (ctx : Context) (amount : float) (w : World) (res : PaymentResult) :
  value (DecoratorFactory.CreateDecoratorChain cfg base features options customer w0) = Ok p ->
  value (Process p ctx amount w) = Ok res ->
  exists a' w' res0,
    value (Process base ctx a' w') = Ok res0
    /\ AppliedDecorators res
       = (AppliedDecorators res0 ++ List.filter (effective cfg options customer) features)%list.
Proof.
  revert base w0 amount w res.
  induction features as [|feature rest IH]; intros base w0 amount w res.
  - cbn. intros H. injection H as <-. intros Hok.
    exists amount, w, res. split; [exact Hok|]. rewrite app_nil_r. reflexivity.
  - cbn [DecoratorFactory.CreateDecoratorChain]. rewrite bind_run. cbn [value].
    pose proof (createDecorator_cases cfg feature base options customer w0) as Hc.
    destruct (value (DecoratorFactory.createDecorator cfg feature base options customer w0))
      as [next|e|]; try discriminate.
    destruct Hc as (_ & _ & Hc).
    intros Hchain Hok.
    destruct (IH next _ amount w res Hchain Hok) as (a1 & w1 & res1 & Hok1 & Happ1).
    cbn [List.filter]. destruct (effective cfg options customer feature).
    + destruct (Hc ctx a1 w1 res1 Hok1) as (a0 & w0' & res0 & Hok0 & Happ0).
      exists a0, w0', res0. split; [exact Hok0|].
      rewrite Happ1, Happ0, <- app_assoc. reflexivity.
    + destruct Hc as [-> _]. exists a1, w1, res1. split; [exact Hok1|exact Happ1].
Qed.

(** Tax, loyalty points and discount requested without a customer: the
    loyalty points leave no entry. *)
Lemma Chain_lists_witness :
  exists p res,
    value (DecoratorFactory.CreateDecoratorChain Samples.cfg0 Samples.card
             ["tax"; "loyalty_points"; "discount"] Samples.threeFeatures None Samples.w0) = Ok p
    /\ value (Process p Background 100 Samples.w0) = Ok res
    /\ exists a' w' res0,
         value (Process Samples.card Background a' w') = Ok res0
         /\ AppliedDecorators res = (AppliedDecorators res0 ++ ["tax"; "discount"])%list.
Proof.
  eexists. eexists. split; [reflexivity|]. split; [reflexivity|].
  eapply (Chain_lists_effective_features Samples.cfg0 ["tax"; "loyalty_points"; "discount"]
            Samples.threeFeatures None Samples.card Samples.w0 _ Background 100 Samples.w0);
    reflexivity.
Defined.

(** X11. [CreateDecoratorChain] never panics; the payment it returns has
    the type and the details of the base payment; its only error is the
    validation error [failed to create decorator <feature>: <cause>]
    around the cause, for one of the requested features. *)
Theorem Chain_keeps_type_and_details (cfg : Config.T) (features : list string)
    (options : CheckoutOptions) (customer : option Customer) (base : Payment) (w0 : World) :
  match value (DecoratorFactory.CreateDecoratorChain cfg base features options customer w0) with
  | Ok p => GetType p = GetType base /\ GetDetails p = GetDetails base
  | Fail e => IsErrorCode e ErrCodeValidation = true
              /\ exists feature cause,
                   In feature features
                   /\ e = Errorf ("failed to create decorator " +:+ feature +:+ ": " +:+ Error cause)
                            (Some cause)
  | Crash => False
  end.
Proof.
  revert base w0. induction features as [|feature rest IH]; intros base w0.
  - cbn. split; reflexivity.
  - cbn [DecoratorFactory.CreateDecoratorChain]. rewrite bind_run. cbn [value].
    pose proof (createDecorator_cases cfg feature base options customer w0) as Hc.
    destruct (value (DecoratorFactory.createDecorator cfg feature base options customer w0))
      as [next|e|].
    + destruct Hc as (Ht & Hd & _).
      specialize (IH next (world (DecoratorFactory.createDecorator cfg feature base options
                                    customer w0))).
      destruct (value (DecoratorFactory.CreateDecoratorChain cfg next rest options customer _))
        as [p|e|].
      * destruct IH as [IH1 IH2]. split; congruence.
      * destruct IH as [IH1 (f & cause & Hin & ->)]. split; [exact IH1|].
        exists f, cause. split; [right; exact Hin|reflexivity].
      * exact IH.
    + cbn [value mret M_ret]. split.
      * unfold IsErrorCode. cbn [asAppErrorCode]. rewrite Hc. reflexivity.
      * exists feature, e. split; [left; reflexivity|reflexivity].
    + exact Hc.
Qed.

Lemma createDecorator_ineffective (cfg : Config.T) (feature : string) (wrapped : Payment)
    (options : CheckoutOptions) (customer : option Customer) (w : World) :
  In feature ["discount"; "cashback"; "fraud_detection"; "tax"; "loyalty_points"] ->
  effective cfg options customer feature = false ->
  DecoratorFactory.createDecorator cfg feature wrapped options customer w = mkOut (Ok wrapped) w [].
Proof.
  unfold effective, DecoratorFactory.GetAvailableDecorators.
  unfold DecoratorFactory.createDecorator, DecoratorFactory.createDiscountDecorator,
    DecoratorFactory.createCashbackDecorator, DecoratorFactory.createFraudDetectionDecorator,
    DecoratorFactory.createTaxDecorator, DecoratorFactory.createLoyaltyPointsDecorator.
  intros [<-|[<-|[<-|[<-|[<-|[]]]]]];
    destruct (Config.DiscountEnabled (Config.Discount cfg));
    destruct (Config.CashbackEnabled (Config.Cashback cfg));
    destruct (Config.FraudDetectionEnabled (Config.FraudDetection cfg));
    destruct (Config.TaxEnabled (Config.Tax cfg));
    destruct (Config.LoyaltyPointsEnabled (Config.LoyaltyPoints cfg));
    cbn [negb app existsb String.eqb Ascii.eqb Bool.eqb orb andb];
    try discriminate; try reflexivity;
    destruct customer as [c|]; try discriminate; try reflexivity;
    destruct (UseLoyaltyPoints options =? 0); try discriminate; reflexivity.
Qed.

(** X12. If none of the requested features (each one of the five known
    names) takes effect, [CreateDecoratorChain] returns the base payment
    itself and changes nothing. *)
Theorem Chain_skips_ineffective_features (cfg : Config.T) (features : list string)
    (options : CheckoutOptions) (customer : option Customer) (base : Payment) (w0 : World) :
  Forall (fun feature => In feature ["discount"; "cashback"; "fraud_detection"; "tax";
                                      "loyalty_points"]) features ->
  List.filter (effective cfg options customer) features = [] ->
  DecoratorFactory.CreateDecoratorChain cfg base features options customer w0
  = mkOut (Ok base) w0 [].
Proof.
  intros Hknown. induction Hknown as [|feature rest Hk _ IH]; intros Hnone.
  - reflexivity.
  - cbn [List.filter] in Hnone.
    destruct (effective cfg options customer feature) eqn:Ee; [discriminate|].
    cbn [DecoratorFactory.CreateDecoratorChain]. rewrite bind_case.
    rewrite (createDecorator_ineffective _ _ _ _ _ _ Hk Ee). cbn [prepend].
    rewrite (IH Hnone). reflexivity.
Qed.

(** Loyalty points requested without a customer: the card comes back
    undecorated. *)
Lemma Chain_skips_witness :
  DecoratorFactory.CreateDecoratorChain Samples.cfg0 Samples.card ["loyalty_points"]
    Samples.threeFeatures None Samples.w0
  = mkOut (Ok Samples.card) Samples.w0 [].
Proof.
  apply Chain_skips_ineffective_features.
  - constructor; [|constructor]. cbn. tauto.
  - reflexivity.
Defined.

Lemma createDecorator_decorates (cfg : Config.T) (feature : string) (wrapped : Payment)
    (options : CheckoutOptions) (customer : option Customer) (w : World) (next : Payment) :
  value (DecoratorFactory.createDecorator cfg feature wrapped options customer w) = Ok next ->
  next = wrapped \/ decorates next wrapped.
Proof.
  unfold decorates.
  unfold DecoratorFactory.createDecorator, DecoratorFactory.createDiscountDecorator,
    DecoratorFactory.createCashbackDecorator, DecoratorFactory.createFraudDetectionDecorator,
    DecoratorFactory.createTaxDecorator, DecoratorFactory.createLoyaltyPointsDecorator,
    DiscountDecorator.New, CashbackDecorator.New, FraudDetectionDecorator.New, TaxDecorator.New,
    LoyaltyPointsDecorator.New.
  destruct (String.eqb feature "discount").
  { destruct (negb _); [intros H; injection H as <-; left; reflexivity|].
    rewrite bind_run. cbn [Now value world].
    repeat match goal with |- context [if ?b then _ else _] => destruct b end;
      try discriminate.
    cbn. intros H. injection H as <-. right. left. eexists. reflexivity. }
  destruct (String.eqb feature "cashback").
  { destruct (negb _); [intros H; injection H as <-; left; reflexivity|].
    cbn. intros H. injection H as <-. right. right. right. left. eexists. reflexivity. }
  destruct (String.eqb feature "fraud_detection").
  { destruct (negb _); [intros H; injection H as <-; left; reflexivity|].
    cbn. intros H. injection H as <-. right. do 3 right. left. do 2 eexists. reflexivity. }
  destruct (String.eqb feature "tax").
  { destruct (negb _); [intros H; injection H as <-; left; reflexivity|].
    cbn. intros H. injection H as <-. right. right. left. eexists. reflexivity. }
  destruct (String.eqb feature "loyalty_points").
  { destruct (negb _); [intros H; injection H as <-; left; reflexivity|].
    destruct customer as [c|]; [|intros H; injection H as <-; left; reflexivity].
    destruct (UseLoyaltyPoints options =? 0); [intros H; injection H as <-; left; reflexivity|].
    repeat match goal with |- context [if ?b then _ else _] => destruct b end;
      try discriminate.
    cbn. intros H. injection H as <-. right. do 4 right. eexists. reflexivity. }
  discriminate.
Qed.

(** X13. The cashback decorator never changes the charge: it calls the
    wrapped payment once with the amount it was given, leaves the world
    to it, and on success returns the wrapped result's amounts and
    transaction id, adding the tier's percentage and the cashback
    computed on the amount to the metadata. *)
Theorem Cashback_leaves_the_charge (d : CashbackDecorator.Config) (wrapped : Payment)
    (ctx : Context) (amount : float) (w : World) :
  calls (CashbackDecorator.Process d wrapped ctx amount w)
  = CallProcess (addr wrapped) amount :: calls (Process wrapped ctx amount w)
  /\ world (CashbackDecorator.Process d wrapped ctx amount w)
     = world (Process wrapped ctx amount w)
  /\ forall res, value (Process wrapped ctx amount w) = Ok res ->
       exists res',
         value (CashbackDecorator.Process d wrapped ctx amount w) = Ok res'
         /\ Amount res' = Amount res
         /\ OriginalAmount res' = OriginalAmount res
         /\ ProcessedAmount res' = ProcessedAmount res
         /\ TransactionID res' = TransactionID res
         /\ getMeta "cashback_percentage" res'
            = Some (MVFloat (if (CashbackDecorator.Tier1Threshold d <=? amount)%float
                             then CashbackDecorator.Tier2Percentage d
                             else CashbackDecorator.Tier1Percentage d))
         /\ getMeta "cashback_amount" res'
            = Some (MVFloat (amount * (CashbackDecorator.getCashbackPercentage d amount / 100))).
Proof.
  unfold CashbackDecorator.Process. run. rewrite app_nil_r.
  split; [reflexivity|]. split; [reflexivity|].
  intros res Hok. rewrite Hok. eexists. split; [reflexivity|].
  cbn [Amount OriginalAmount ProcessedAmount TransactionID setMeta ensureMetadata appendDecorator].
  repeat split.
  - apply getMeta_setMeta_eq.
  - rewrite getMeta_setMeta_ne by discriminate. apply getMeta_setMeta_eq.
Qed.

(** X14. The discount computed by [calculateDiscount] never exceeds the
    amount, nor a positive [maxDiscount]; and the discount decorator
    never passes a negative amount to the wrapped payment: the charge it
    forwards is not below zero, and on success it is the result's
    [Amount] and [ProcessedAmount], with the caller's amount as
    [OriginalAmount]. *)
Theorem Discount_is_bounded (d : DiscountDecorator.Config) (wrapped : Payment)
    (ctx : Context) (amount : float) (w : World) :
  (amount <? DiscountDecorator.calculateDiscount d amount)%float = false
  /\ ((0 <? DiscountDecorator.MaxDiscount d)%float = true ->
      (DiscountDecorator.MaxDiscount d <? DiscountDecorator.calculateDiscount d amount)%float
      = false)
  /\ (calls (DiscountDecorator.Process d wrapped ctx amount w) = []
      \/ exists charged,
           calls (DiscountDecorator.Process d wrapped ctx amount w)
           = CallProcess (addr wrapped) charged :: calls (Process wrapped ctx charged w)
           /\ (charged <? 0)%float = false
           /\ (forall res, value (DiscountDecorator.Process d wrapped ctx amount w) = Ok res ->
                 Amount res = charged /\ ProcessedAmount res = charged
                 /\ OriginalAmount res = amount)).
Proof.
  split; [|split].
  - unfold DiscountDecorator.calculateDiscount.
    match goal with
    | |- (amount <? (if (amount <? ?x)%float then _ else _))%float = false =>
        destruct (amount <? x)%float eqn:E; [apply ltb_irrefl|exact E]
    end.
  - unfold DiscountDecorator.calculateDiscount.
    set (raw := if String.eqb (DiscountDecorator.DiscountType d) "percentage"
                then (amount * (DiscountDecorator.DiscountValue d / 100))%float
                else DiscountDecorator.DiscountValue d).
    set (cap := DiscountDecorator.MaxDiscount d).
    intros Hpos. rewrite Hpos. cbn [andb].
    destruct (cap <? raw)%float eqn:Ecap.
    + destruct (amount <? cap)%float eqn:E; [|apply ltb_irrefl].
      destruct (cap <? amount)%float eqn:E'; [|reflexivity].
      pose proof (ltb_trans _ _ _ E E') as H. rewrite ltb_irrefl in H. discriminate.
    + destruct (amount <? raw)%float eqn:E; [|exact Ecap].
      destruct (cap <? amount)%float eqn:E'; [|reflexivity].
      rewrite (ltb_trans _ _ _ E' E) in Ecap. discriminate.
  - unfold DiscountDecorator.Process. rewrite bind_run. cbn [Now value world calls app].
    destruct (DiscountDecorator.expired d (clock w)); [left; reflexivity|].
    destruct (amount <? DiscountDecorator.MinAmount d)%float; [left; reflexivity|].
    right. run. rewrite app_nil_r.
    eexists. split; [reflexivity|]. split.
    + destruct (amount - DiscountDecorator.calculateDiscount d amount <? 0)%float eqn:E;
        [reflexivity|exact E].
    + intros res.
      match goal with
      | |- context [value (Process wrapped ctx ?a ?w')] =>
          destruct (value (Process wrapped ctx a w'))
      end; intros H; try discriminate. injection H as <-. repeat split.
Qed.

(** X15. The risk score of [calculateRiskScore] is between 0 and 79; it
    is at most 29 for an amount that does not exceed 1000, and at least
    50 for an amount above 5000; exactly one random number is drawn. *)
Theorem RiskScore_bounds (amount : float) (w : World) :
  let score := value (FraudDetectionDecorator.calculateRiskScore amount w) in
  0 <= score <= 79
  /\ ((1000 <? amount)%float = false -> score <= 29)
  /\ ((5000 <? amount)%float = true -> 50 <= score)
  /\ randsDrawn (world (FraudDetectionDecorator.calculateRiskScore amount w)) = S (randsDrawn w).
Proof.
  unfold FraudDetectionDecorator.calculateRiskScore. rewrite bind_run.
  cbn [Intn mret M_ret value world randsDrawn].
  pose proof (Z.mod_pos_bound (randSource w (randsDrawn w)) 30 ltac:(lia)) as Hr.
  set (r := randSource w (randsDrawn w) mod 30) in *.
  assert (Hmono : (5000 <? amount)%float = true -> (1000 <? amount)%float = true).
  { assert (H15 : (1000 <? 5000)%float = true) by reflexivity.
    exact (ltb_trans 1000 5000 amount H15). }
  destruct (5000 <? amount)%float eqn:E2.
  - rewrite (Hmono eq_refl). cbv zeta. repeat split; intros; try discriminate; lia.
  - destruct (1000 <? amount)%float eqn:E1;
      cbv zeta; repeat split; intros; try discriminate; lia.
Qed.

(** ** Strategies and their factory *)

(** X16. [InstantPaymentStrategy.Execute] returns the validator's error
    without touching the world when the amount is refused; otherwise it
    calls the payment once with the very amount, wraps its error as a
    payment-failed error and on success returns the payment's result
    (the same amounts, transaction id and applied decorators) with the
    strategy name in the metadata. *)
Theorem Instant_charges_once (s : InstantPaymentStrategy.T) (ctx : Context) (payment : Payment)
    (amount : float) (w : World) :
  match Validator.AmountValidate amount (InstantPaymentStrategy.minAmount s)
          (InstantPaymentStrategy.maxAmount s) with
  | Some err =>
      InstantPaymentStrategy.Execute s ctx payment amount w = mkOut (Fail err) w []
  | None =>
      calls (InstantPaymentStrategy.Execute s ctx payment amount w)
      = CallProcess (addr payment) amount :: calls (Process payment ctx amount w)
      /\ world (InstantPaymentStrategy.Execute s ctx payment amount w)
         = world (Process payment ctx amount w)
      /\ match value (Process payment ctx amount w) with
         | Ok res =>
             exists res',
               value (InstantPaymentStrategy.Execute s ctx payment amount w) = Ok res'
               /\ getMeta "payment_strategy" res' = Some (MVString "instant")
               /\ Amount res' = Amount res /\ OriginalAmount res' = OriginalAmount res
               /\ ProcessedAmount res' = ProcessedAmount res
               /\ TransactionID res' = TransactionID res
               /\ AppliedDecorators res' = AppliedDecorators res
         | Fail err =>
             value (InstantPaymentStrategy.Execute s ctx payment amount w)
             = Fail (Wrap err ErrCodePaymentFailed "instant payment processing failed")
         | Crash => value (InstantPaymentStrategy.Execute s ctx payment amount w) = Crash
         end
  end.
Proof.
  unfold InstantPaymentStrategy.Execute, InstantPaymentStrategy.ValidateAmount.
  destruct (Validator.AmountValidate _ _ _); [reflexivity|].
  run. rewrite app_nil_r. split; [reflexivity|]. split; [reflexivity|].
  destruct (value (Process payment ctx amount w)); try reflexivity.
  eexists. split; [reflexivity|]. split; [apply getMeta_setMeta_eq|]. repeat split.
Qed.

Lemma processParts_app (ctx : Context) (done rest : list SplitPaymentItem) (w : World)
    (results : list PaymentResult) :
  partsSucceed ctx done w results ->
  forall (i : Z) (processed : list PaymentResult) (total : float),
    SplitPaymentStrategy.processParts ctx (done ++ rest) i processed total w
    = prepend (calls (SplitPaymentStrategy.processParts ctx done i processed total w))
        (SplitPaymentStrategy.processParts ctx rest (i + Z.of_nat (length done))
           (processed ++ results)
           (fold_left (fun sum item => (sum + ItemAmount item)%float) done total)
           (world (SplitPaymentStrategy.processParts ctx done i processed total w))).
Proof.
  revert w results. induction done as [|item done IH]; intros w results H i processed total.
  - destruct results; [|contradiction]. cbn [app SplitPaymentStrategy.processParts length fold_left].
    rewrite Z.add_0_r, app_nil_r. cbn. unfold prepend. cbn. symmetry. apply out_eta.
  - destruct results as [|r results]; [contradiction|]. destruct H as [Hr Hrest].
    cbn [app SplitPaymentStrategy.processParts fold_left length].
    rewrite !bind_case, !invoke_run. rewrite Hr. cbn [prepend value world calls].
    rewrite (IH _ _ Hrest). unfold prepend. cbn [value world calls].
    rewrite <- app_assoc. cbn [app].
    replace (i + 1 + Z.of_nat (length done)) with (i + Z.of_nat (S (length done))) by lia.
    rewrite <- app_assoc. reflexivity.
Qed.

(** X17. A split payment stops at the first part that fails: for a split
    that passes [ValidateAmount] and whose parts add up to the total,
    when the parts before it succeed and part number k fails, [Execute]
    returns
    the payment-failed error [split payment part k failed] around that
    part's error, the trace ends with the call of the failing part (the
    later parts are never called) and the world is the one the failing
    part left: the parts already charged are not refunded. *)
Theorem Split_stops_at_first_failure
    (done rest : list SplitPaymentItem) (bad : SplitPaymentItem)
    (ctx : Context) (ignored : Payment) (totalAmount : float) (w : World)
    (results : list PaymentResult) (err : error) :
  let s := SplitPaymentStrategy.mk (done ++ bad :: rest) in
  let before := SplitPaymentStrategy.processParts ctx done 0 [] 0%float w in
  SplitPaymentStrategy.ValidateAmount s totalAmount = None ->
  F64.fmt2 (SplitPaymentStrategy.splitSum (done ++ bad :: rest)) = F64.fmt2 totalAmount ->
  partsSucceed ctx done w results ->
  value (Process (ItemPayment bad) ctx (ItemAmount bad) (world before)) = Fail err ->
  SplitPaymentStrategy.Execute s ctx ignored totalAmount w
  = mkOut (Fail (Wrap err ErrCodePaymentFailed
                   ("split payment part " +:+ F64.fmt_d (Z.of_nat (length done) + 1) +:+ " failed")))
      (world (Process (ItemPayment bad) ctx (ItemAmount bad) (world before)))
      (calls before
       ++ CallProcess (addr (ItemPayment bad)) (ItemAmount bad)
          :: calls (Process (ItemPayment bad) ctx (ItemAmount bad) (world before))).
Proof.
  intros s before Hval Hsum Hdone Hbad.
  unfold SplitPaymentStrategy.Execute. rewrite Hval. cbn [SplitPaymentStrategy.payments s].
  rewrite Hsum, String.eqb_refl. cbn [negb].
  rewrite bind_run. rewrite (processParts_app _ _ _ _ _ Hdone).
  fold before. cbn [SplitPaymentStrategy.processParts].
  rewrite bind_run, invoke_run. cbn [prepend value world calls]. rewrite Hbad.
  cbn [value world calls mret M_ret]. rewrite !app_nil_r. reflexivity.
Qed.

(** A split of 100.00 into 60, 0.5 and 39.5 on the test card: the second
    part is below the card's minimum, the third is never called. *)
Lemma Split_stops_witness :
  exists err,
    value (SplitPaymentStrategy.Execute
             (SplitPaymentStrategy.mk [Samples.part60; Samples.partHalf; Samples.partRest])
             Background Samples.card 100 Samples.w0)
    = Fail (Wrap err ErrCodePaymentFailed "split payment part 2 failed")
    /\ calls (SplitPaymentStrategy.Execute
                (SplitPaymentStrategy.mk [Samples.part60; Samples.partHalf; Samples.partRest])
                Background Samples.card 100 Samples.w0)
       = [CallProcess 0 60; CallProcess 0 0.5].
Proof.
  eexists.
  change [Samples.part60; Samples.partHalf; Samples.partRest]
    with ([Samples.part60] ++ Samples.partHalf :: [Samples.partRest])%list.
  erewrite (Split_stops_at_first_failure [Samples.part60] [Samples.partRest] Samples.partHalf
              Background Samples.card 100 Samples.w0 [_]).
  - split; reflexivity.
  - reflexivity.
  - reflexivity.
  - split; [reflexivity|exact I].
  - reflexivity.
Defined.

(** X18. [StrategyFactory.CreateStrategy] never panics.  For [instant]
    it always returns the instant strategy over the range of the
    parameters (1 to 10000 by default); for [deferred] it returns the
    deferred strategy over the range (100 to 10000 by default) with the
    installments and the rate of the parameters (3 and 0 by default),
    exactly when the installments are 2 to 12; every failure is a
    validation error.  A strategy so built panics only when the payment
    does: its schedule can be allocated and has a first installment. *)
Theorem CreateStrategy_builds (strategyType : string) (params : option MetaMap) :
  let minAmount := fun d => default d (StrategyFactory.floatParam params "min_amount") in
  let maxAmount := default 10000%float (StrategyFactory.floatParam params "max_amount") in
  let rate := default 0%float (StrategyFactory.floatParam params "interest_rate") in
  let n := match default ∅ params !! "installments" with
           | Some (MVInt v) => v
           | Some (MVFloat v) => F64.to_int v
           | _ => 3
           end in
  match StrategyFactory.CreateStrategy strategyType params with
  | Ok s =>
      ((strategyType = "instant"
        /\ s = InstantPaymentStrategy.New (minAmount 1%float) maxAmount)
       \/ (strategyType = "deferred" /\ 2 <= n <= 12
           /\ s = DeferredPaymentStrategy.New (minAmount 100%float) maxAmount n rate))
      /\ (forall ctx p amount w,
            value (Execute s ctx p amount w) = Crash ->
            exists a w', value (Process p ctx a w') = Crash)
  | Fail e =>
      GetErrorCode e = ErrCodeValidation
      /\ strategyType <> "instant"
      /\ (strategyType = "deferred" -> n < 2 \/ 12 < n)
  | Crash => False
  end.
Proof.
  intros minAmount maxAmount rate n.
  unfold StrategyFactory.CreateStrategy.
  destruct (String.eqb strategyType "instant") eqn:E1.
  { apply String.eqb_eq in E1. subst strategyType. cbn [negb].
    change (negb (default false (StrategyFactory.supportedStrategies !! "instant"))) with false.
    cbv iota. unfold StrategyFactory.createInstantStrategy.
    split; [left; split; reflexivity|].
    intros ctx p amount w. cbn [Execute InstantPaymentStrategy.New].
    unfold InstantPaymentStrategy.Execute.
    destruct (InstantPaymentStrategy.ValidateAmount _ _); [discriminate|].
    run. intros H. exists amount, w.
    destruct (value (Process p ctx amount w)); try discriminate. reflexivity. }
  destruct (String.eqb strategyType "deferred") eqn:E2.
  { apply String.eqb_eq in E2. subst strategyType.
    change (negb (default false (StrategyFactory.supportedStrategies !! "deferred"))) with false.
    cbv iota. unfold StrategyFactory.createDeferredStrategy. fold n.
    destruct (n <? 2) eqn:A.
    { apply Z.ltb_lt in A. split; [reflexivity|]. split; [discriminate|]. intros _. left. exact A. }
    destruct (12 <? n) eqn:B.
    { apply Z.ltb_lt in B. split; [reflexivity|]. split; [discriminate|]. intros _. right. exact B. }
    apply Z.ltb_ge in A, B.
    split; [right; split; [reflexivity|]; split; [lia|reflexivity]|].
    intros ctx p amount w. cbn [Execute DeferredPaymentStrategy.New].
    unfold DeferredPaymentStrategy.Execute.
    destruct (DeferredPaymentStrategy.ValidateAmount _ _); [discriminate|].
    cbn [DeferredPaymentStrategy.installments DeferredPaymentStrategy.interestRate].
    destruct (CreateDeferredSchedule_run amount n rate w) as [rest Hsch].
    { unfold maxInstallments, maxAlloc, installmentSize.
      change (2 ^ 48 / 48) with 5864062014805. lia. }
    fold rate. rewrite bind_run. rewrite Hsch. cbn [value world calls Payments InstallmentAmount app].
    run. intros H. eexists. eexists.
    match goal with
    | H : match value (Process p ctx ?a ?w') with _ => _ end = Crash |- _ =>
        instantiate (1 := w'); instantiate (1 := a);
        destruct (value (Process p ctx a w')); try discriminate; reflexivity
    end. }
  destruct (negb _); [split; [reflexivity|]; split; [intros ->; discriminate|intros ->; discriminate]|].
  destruct (String.eqb strategyType "split") eqn:E3;
    (split; [reflexivity|]; split; [intros ->; discriminate|intros ->; discriminate]).
Qed.

(** X19. [CreateDeferredSchedule] draws its identifier and then panics
    when the number of installments is negative or more than the slice
    can hold (the [make] of the payments); otherwise the schedule has
    that many installments, numbered from 1, each pending and of the
    amount with interest divided by the number of installments, under
    that identifier. *)
Theorem DeferredSchedule_shape (amount : float) (installments : Z) (interestRate : float)
    (w : World) :
  uuidsDrawn (world (CreateDeferredSchedule amount installments interestRate w))
  = S (uuidsDrawn w)
  /\ (installments < 0 \/ maxInstallments < installments ->
      value (CreateDeferredSchedule amount installments interestRate w) = Crash)
  /\ (0 <= installments <= maxInstallments ->
      exists schedule,
        value (CreateDeferredSchedule amount installments interestRate w) = Ok schedule
        /\ ScheduleID schedule = uuidSource w (uuidsDrawn w)
        /\ TotalAmount schedule = amount
        /\ Z.of_nat (length (Payments schedule)) = installments
        /\ forall (k : nat) (payment : DeferredPaymentInstallment),
             Payments schedule !! k = Some payment ->
             InstallmentNumber payment = Z.of_nat k + 1
             /\ InstallmentAmount payment
                = (amount * (1 + interestRate / 100) / F64.of_int installments)%float
             /\ InstallmentStatus payment = "pending").
Proof.
  unfold CreateDeferredSchedule. rewrite bind_run. cbn [NewID value world calls].
  rewrite makeslicePanics_installments.
  split; [|split; intros Hn].
  - destruct (negb _); reflexivity.
  - destruct (0 <=? installments) eqn:E1; [|reflexivity].
    destruct (installments <=? maxInstallments) eqn:E2; [|reflexivity].
    apply Z.leb_le in E1, E2. lia.
  - destruct Hn as [H0 Hmax]. apply Z.leb_le in H0 as E1. apply Z.leb_le in Hmax as E2.
    rewrite E1, E2. cbn [andb negb value mret M_ret]. eexists. split; [reflexivity|].
    cbn [ScheduleID TotalAmount Payments]. split; [reflexivity|]. split; [reflexivity|].
    split.
    + rewrite length_map, length_seq. lia.
    + intros k payment Hk. rewrite list_lookup_fmap in Hk.
      destruct (seq 0 (Z.to_nat installments) !! k) as [i|] eqn:Ei; [|discriminate].
      apply lookup_seq in Ei. destruct Ei as [-> _].
      cbn in Hk. injection Hk as <-. repeat split.
Qed.

(** ** Inventory: reservation and release *)

Lemma wrap_range (n : Z) : F64.min_int64 <= F64.wrap n <= F64.max_int64.
Proof.
  unfold F64.wrap, F64.min_int64, F64.max_int64.
  pose proof (Z.mod_pos_bound (n + 2 ^ 63) (2 ^ 64) ltac:(lia)). lia.
Qed.

Lemma wrap_id (n : Z) : F64.min_int64 <= n <= F64.max_int64 -> F64.wrap n = n.
Proof.
  unfold F64.wrap, F64.min_int64, F64.max_int64. intros H.
  rewrite Z.mod_small by lia. lia.
Qed.

Lemma wrap_wrap_add (a b : Z) : F64.wrap (F64.wrap a + b) = F64.wrap (a + b).
Proof.
  unfold F64.wrap. f_equal.
  replace ((a + 2 ^ 63) mod 2 ^ 64 - 2 ^ 63 + b + 2 ^ 63) with ((a + 2 ^ 63) mod 2 ^ 64 + b) by lia.
  rewrite Zplus_mod_idemp_l. f_equal. lia.
Qed.

Lemma addStock_comm (q1 q2 : Z) (p : Product) :
  addStock q1 (addStock q2 p) = addStock q2 (addStock q1 p).
Proof.
  unfold addStock, withStock, F64.int_add. cbn. f_equal.
  rewrite !wrap_wrap_add. f_equal. lia.
Qed.

Lemma addStock_subStock (q : Z) (p : Product) :
  F64.min_int64 <= Stock p <= F64.max_int64 -> addStock q (subStock q p) = p.
Proof.
  intros H. unfold addStock, subStock, withStock, F64.int_add, F64.int_sub. cbn.
  rewrite wrap_wrap_add. replace (Stock p - q + q) with (Stock p) by lia.
  rewrite (wrap_id _ H). destruct p; reflexivity.
Qed.

Lemma filed_alter_add (q : Z) (id : string) (m : gmap string Product) :
  filed m -> filed (alter (addStock q) id m).
Proof.
  intros H i p. destruct (decide (i = id)) as [->|Hne].
  - rewrite lookup_alter_eq. destruct (m !! id) as [p0|] eqn:E; [|discriminate].
    cbn. intros Hp. injection Hp as <-. destruct (H _ _ E) as [Hid _].
    split; [exact Hid|]. apply wrap_range.
  - rewrite lookup_alter_ne by congruence. apply H.
Qed.

Lemma filed_alter_sub (q : Z) (id : string) (m : gmap string Product) :
  filed m -> filed (alter (subStock q) id m).
Proof.
  intros H i p. destruct (decide (i = id)) as [->|Hne].
  - rewrite lookup_alter_eq. destruct (m !! id) as [p0|] eqn:E; [|discriminate].
    cbn. intros Hp. injection Hp as <-. destruct (H _ _ E) as [Hid _].
    split; [exact Hid|]. apply wrap_range.
  - rewrite lookup_alter_ne by congruence. apply H.
Qed.

Lemma alter_insert_same (f : Product -> Product) (id : string) (p : Product)
    (m : gmap string Product) :
  m !! id = Some p -> alter f id m = <[id := f p]> m.
Proof.
  intros H. apply map_eq. intros i. destruct (decide (i = id)) as [->|Hne].
  - rewrite lookup_alter_eq, lookup_insert_eq, H. reflexivity.
  - rewrite lookup_alter_ne, lookup_insert_ne by congruence. reflexivity.
Qed.

Lemma alter_absent (f : Product -> Product) (id : string) (m : gmap string Product) :
  m !! id = None -> alter f id m = m.
Proof.
  intros H. apply map_eq. intros i. destruct (decide (i = id)) as [->|Hne].
  - rewrite lookup_alter_eq, H. reflexivity.
  - rewrite lookup_alter_ne by congruence. reflexivity.
Qed.

Lemma ReleaseStock_products (id : string) (quantity : Z) (w : World) :
  filed (products (repo w)) ->
  products (repo (world (InventoryService.ReleaseStock id quantity w)))
  = alter (addStock quantity) id (products (repo w))
  /\ customers (repo (world (InventoryService.ReleaseStock id quantity w))) = customers (repo w)
  /\ (value (InventoryService.ReleaseStock id quantity w) = Ok tt
      <-> is_Some (products (repo w) !! id)).
Proof.
  intros Hf. unfold InventoryService.ReleaseStock. rewrite bind_run, GetProduct_run.
  cbn [value world calls].
  destruct (products (repo w) !! id) as [p|] eqn:E.
  - destruct (Hf _ _ E) as [Hid _].
    unfold MemoryRepository.storeProduct, MemoryRepository.UpdateProduct.
    rewrite !bind_run. cbn [getRepo putRepo value world calls repo products customers withStock
      ProductID_].
    rewrite Hid, lookup_insert_eq. cbn [value world repo products customers mret M_ret putRepo].
    rewrite bind_run. cbn [getRepo putRepo value world calls repo products customers mret M_ret].
    rewrite insert_insert_eq, (alter_insert_same _ _ _ _ E).
    split; [reflexivity|]. split; [reflexivity|]. split; [eauto|reflexivity].
  - cbn [value world mret M_ret]. rewrite (alter_absent _ _ _ E).
    split; [reflexivity|]. split; [reflexivity|].
    split; [discriminate|]. intros [? ?]. discriminate.
Qed.

Lemma ReserveStock_products (id : string) (quantity : Z) (w : World) :
  filed (products (repo w)) ->
  match value (InventoryService.ReserveStock id quantity w) with
  | Ok _ =>
      (exists p, products (repo w) !! id = Some p /\ quantity <= Stock p)
      /\ products (repo (world (InventoryService.ReserveStock id quantity w)))
         = alter (subStock quantity) id (products (repo w))
  | Fail e =>
      world (InventoryService.ReserveStock id quantity w) = w
      /\ match products (repo w) !! id with
         | Some p => Stock p < quantity /\ asAppErrorCode e = Some ErrCodeInventoryError
         | None => e = NewNotFoundError "product"
         end
  | Crash => False
  end.
Proof.
  intros Hf. unfold InventoryService.ReserveStock. rewrite bind_run, GetProduct_run.
  cbn [value world calls].
  destruct (products (repo w) !! id) as [p|] eqn:E.
  - destruct (Hf _ _ E) as [Hid _].
    destruct (Stock p <? quantity) eqn:Es.
    + apply Z.ltb_lt in Es. cbn. auto.
    + apply Z.ltb_ge in Es.
      unfold MemoryRepository.storeProduct, MemoryRepository.UpdateProduct.
      rewrite !bind_run. cbn [getRepo putRepo value world calls repo products customers withStock
        ProductID_].
      rewrite Hid, lookup_insert_eq. cbn [value world repo products customers mret M_ret putRepo].
      rewrite bind_run. cbn [getRepo putRepo value world calls repo products customers mret M_ret].
      rewrite insert_insert_eq, (alter_insert_same _ _ _ _ E).
      split; [eauto|reflexivity].
  - cbn. auto.
Qed.

Lemma alter_addStock_comm (q1 q2 : Z) (i1 i2 : string) (m : gmap string Product) :
  alter (addStock q1) i1 (alter (addStock q2) i2 m)
  = alter (addStock q2) i2 (alter (addStock q1) i1 m).
Proof.
  apply map_eq. intros i.
  destruct (decide (i = i1)) as [E1|H1]; destruct (decide (i = i2)) as [E2|H2]; subst;
    rewrite ?lookup_alter_eq, ?lookup_alter_ne by congruence;
    rewrite ?lookup_alter_eq, ?lookup_alter_ne by congruence;
    try reflexivity.
  destruct (m !! i2); [|reflexivity]. cbn. f_equal. apply addStock_comm.
Qed.

Lemma releasedAll_alter (items : list CartItem) (q : Z) (id : string) (m : gmap string Product) :
  releasedAll items (alter (addStock q) id m) = alter (addStock q) id (releasedAll items m).
Proof.
  revert m. induction items as [|item items IH]; intros m; [reflexivity|].
  cbn [releasedAll fold_left]. fold (releasedAll items).
  rewrite alter_addStock_comm. apply IH.
Qed.

Lemma rollbackInventory_products (items : list CartItem) (w : World) :
  filed (products (repo w)) ->
  products (repo (world (CheckoutFacade.rollbackInventory items w)))
  = releasedAll items (products (repo w))
  /\ customers (repo (world (CheckoutFacade.rollbackInventory items w))) = customers (repo w).
Proof.
  revert w. induction items as [|item items IH]; intros w Hf; [split; reflexivity|].
  cbn [CheckoutFacade.rollbackInventory]. rewrite bind_run. cbn [world].
  destruct (ReleaseStock_products (ItemProductID item) (Quantity item) w Hf) as (Hp & Hc & _).
  destruct (IH (world (InventoryService.ReleaseStock (ItemProductID item) (Quantity item) w)))
    as [IHp IHc].
  { rewrite Hp. apply filed_alter_add. exact Hf. }
  rewrite IHp, IHc, Hp. split; [reflexivity|exact Hc].
Qed.

Lemma reserveInventory_products (items : list CartItem) (w : World) :
  filed (products (repo w)) ->
  value (CheckoutFacade.reserveInventory items w) = Ok tt ->
  filed (products (repo (world (CheckoutFacade.reserveInventory items w))))
  /\ releasedAll items (products (repo (world (CheckoutFacade.reserveInventory items w))))
     = products (repo w).
Proof.
  revert w. induction items as [|item items IH]; intros w Hf; [intros _; split; [exact Hf|reflexivity]|].
  cbn [CheckoutFacade.reserveInventory]. rewrite bind_run. cbn [value world].
  pose proof (ReserveStock_products (ItemProductID item) (Quantity item) w Hf) as Hr.
  destruct (value (InventoryService.ReserveStock (ItemProductID item) (Quantity item) w))
    as [[]|e|]; try discriminate.
  destruct Hr as [(p & Hp & Hq) Hm]. intros Hok.
  set (w1 := world (InventoryService.ReserveStock (ItemProductID item) (Quantity item) w)) in *.
  assert (Hf1 : filed (products (repo w1))) by (rewrite Hm; apply filed_alter_sub, Hf).
  destruct (IH w1 Hf1 Hok) as [IHf IHr]. split; [exact IHf|].
  cbn [releasedAll fold_left]. fold (releasedAll items).
  rewrite releasedAll_alter, IHr, Hm, alter_alter_eq.
  rewrite (alter_insert_same _ _ _ _ Hp). cbn [compose].
  rewrite (addStock_subStock _ _ (proj2 (Hf _ _ Hp))).
  apply insert_id. exact Hp.
Qed.

Lemma rollback_after_reserve (items : list CartItem) (w w' : World) :
  filed (products (repo w)) ->
  value (CheckoutFacade.reserveInventory items w) = Ok tt ->
  products (repo w') = products (repo (world (CheckoutFacade.reserveInventory items w))) ->
  products (repo (world (CheckoutFacade.rollbackInventory items w'))) = products (repo w).
Proof.
  intros Hf Hok Hw'.
  destruct (reserveInventory_products items w Hf Hok) as [Hf' Hr].
  destruct (rollbackInventory_products items w') as [Hp _].
  { rewrite Hw'. exact Hf'. }
  rewrite Hp, Hw'. exact Hr.
Qed.

(** The seeded repository files every product under its id. *)
Lemma filed_repo0 : filed (products (repo Samples.w0)).
Proof.
  intros id p H. cbn [Samples.w0 repo Samples.repo0 products] in H.
  apply lookup_insert_Some in H as [[<- <-]|[_ H]]; [split; [reflexivity|vm_compute; split; discriminate]|].
  apply lookup_insert_Some in H as [[<- <-]|[_ H]]; [split; [reflexivity|vm_compute; split; discriminate]|].
  rewrite lookup_empty in H. discriminate.
Qed.

(** X20. On a repository that files every product under its id,
    [CheckAvailability] predicts [ReserveStock]: available means that the
    reservation succeeds and lowers the stock of that product only (to a
    stock that is not negative, for a quantity that is not); not
    available means an inventory error and an untouched world; an
    unknown product gives the same not-found error from both. *)
Theorem CheckAvailability_predicts_ReserveStock (id : string) (quantity : Z) (w : World) :
  filed (products (repo w)) ->
  match value (InventoryService.CheckAvailability id quantity w) with
  | Ok true =>
      value (InventoryService.ReserveStock id quantity w) = Ok tt
      /\ exists p,
           products (repo w) !! id = Some p
           /\ products (repo (world (InventoryService.ReserveStock id quantity w)))
              = <[id := subStock quantity p]> (products (repo w))
           /\ (0 <= quantity -> Stock (subStock quantity p) = Stock p - quantity
                                /\ 0 <= Stock (subStock quantity p))
  | Ok false =>
      world (InventoryService.ReserveStock id quantity w) = w
      /\ exists e, value (InventoryService.ReserveStock id quantity w) = Fail e
                   /\ GetErrorCode e = ErrCodeInventoryError
  | Fail e =>
      InventoryService.ReserveStock id quantity w = mkOut (Fail e) w []
      /\ e = NewNotFoundError "product"
  | Crash => False
  end.
Proof.
  intros Hf. pose proof (ReserveStock_products id quantity w Hf) as Hr.
  unfold InventoryService.CheckAvailability. rewrite bind_run, GetProduct_run.
  cbn [value world calls mret M_ret].
  destruct (products (repo w) !! id) as [p|] eqn:Ep.
  - destruct (quantity <=? Stock p) eqn:Eq.
    + apply Z.leb_le in Eq.
      destruct (value (InventoryService.ReserveStock id quantity w)) as [[]|e|] eqn:Ev.
      * split; [reflexivity|]. exists p. destruct Hr as [_ Hm].
        split; [reflexivity|]. split; [rewrite Hm; apply alter_insert_same, Ep|].
        intros Hq. destruct (Hf _ _ Ep) as [_ Hrange].
        unfold subStock, withStock, F64.int_sub. cbn [Stock].
        rewrite wrap_id; [lia|]. unfold F64.min_int64, F64.max_int64 in *. lia.
      * destruct Hr as [_ [Hlt _]]. lia.
      * contradiction.
    + apply Z.leb_gt in Eq.
      destruct (value (InventoryService.ReserveStock id quantity w)) as [[]|e|] eqn:Ev.
      * destruct Hr as [(p' & Hp' & Hle) _]. injection Hp' as <-. lia.
      * destruct Hr as [Hw [_ Hcode]]. split; [exact Hw|]. exists e. split; [reflexivity|].
        unfold GetErrorCode. rewrite Hcode. reflexivity.
      * contradiction.
  - unfold InventoryService.ReserveStock. rewrite bind_run, GetProduct_run, Ep.
    split; reflexivity.
Qed.

(** Four of the fifty mice of the seeded repository. *)
Lemma CheckAvailability_witness :
  value (InventoryService.ReserveStock "prod-2" 4 Samples.w0) = Ok tt.
Proof.
  exact (proj1 (CheckAvailability_predicts_ReserveStock "prod-2" 4 Samples.w0 filed_repo0)).
Defined.

(** X21. [rollbackInventory] undoes [reserveInventory]: on a repository
    that files every product under its id, after a reservation of the
    cart's lines that succeeded, releasing the same
    lines gives back the product map from before the reservation (also
    when a product occurs in several lines), and leaves the customers
    alone. *)
Theorem Rollback_restores_reserved_stock (items : list CartItem) (w w' : World) :
  filed (products (repo w)) ->
  value (CheckoutFacade.reserveInventory items w) = Ok tt ->
  products (repo w') = products (repo (world (CheckoutFacade.reserveInventory items w))) ->
  products (repo (world (CheckoutFacade.rollbackInventory items w'))) = products (repo w)
  /\ customers (repo (world (CheckoutFacade.rollbackInventory items w'))) = customers (repo w').
Proof.
  intros Hf Hok Hw'. split; [exact (rollback_after_reserve items w w' Hf Hok Hw')|].
  destruct (reserveInventory_products items w Hf Hok) as [Hf' _].
  destruct (rollbackInventory_products items w') as [_ Hc]; [rewrite Hw'; exact Hf'|exact Hc].
Qed.

(** The cart of four mice reserved and released on the seeded repository. *)
Lemma Rollback_witness :
  products (repo (world (CheckoutFacade.rollbackInventory (Items Samples.fourMice)
                           (world (CheckoutFacade.reserveInventory (Items Samples.fourMice)
                                     Samples.w0)))))
  = products (repo Samples.w0).
Proof.
  apply (Rollback_restores_reserved_stock (Items Samples.fourMice) Samples.w0
           (world (CheckoutFacade.reserveInventory (Items Samples.fourMice) Samples.w0))
           filed_repo0); reflexivity.
Defined.

(** ** Transactions *)

(** X22. A transaction stored with [CreateTransaction] under an unused id
    is returned by [GetTransaction], the other ids answer as before and
    products and customers are untouched; under an id in use the call
    fails with the already-exists error, changes nothing, and the stored
    transaction stays. *)
Theorem Transaction_round_trip (transaction : Transaction) (w : World) :
  let created := TransactionService.CreateTransaction transaction w in
  match transactions (repo w) !! TxID transaction with
  | None =>
      value created = Ok tt
      /\ value (TransactionService.GetTransaction (TxID transaction) (world created))
         = Ok transaction
      /\ (forall id, id <> TxID transaction ->
            value (TransactionService.GetTransaction id (world created))
            = value (TransactionService.GetTransaction id w))
      /\ products (repo (world created)) = products (repo w)
      /\ customers (repo (world created)) = customers (repo w)
  | Some stored =>
      created = mkOut (Fail (NewAlreadyExistsError "transaction")) w []
      /\ value (TransactionService.GetTransaction (TxID transaction) w) = Ok stored
  end.
Proof.
  cbv zeta.
  unfold TransactionService.CreateTransaction, MemoryRepository.CreateTransaction,
    TransactionService.GetTransaction, MemoryRepository.GetTransaction.
  rewrite !bind_run. cbn [getRepo value world calls app].
  destruct (transactions (repo w) !! TxID transaction) as [stored|] eqn:E.
  - split; [reflexivity|]. reflexivity.
  - rewrite !bind_run.
    cbn [putRepo getRepo value world calls repo transactions products customers mret M_ret app].
    split; [reflexivity|]. split; [rewrite lookup_insert_eq; reflexivity|].
    split; [|split; reflexivity].
    intros id Hid. rewrite !bind_run. cbn [getRepo value world repo transactions mret M_ret].
    rewrite lookup_insert_ne by congruence. reflexivity.
Qed.

(** ** The checkout *)

Lemma ReserveStock_congr (id : string) (quantity : Z) (w w' : World) :
  repo w' = repo w ->
  value (InventoryService.ReserveStock id quantity w')
  = value (InventoryService.ReserveStock id quantity w)
  /\ repo (world (InventoryService.ReserveStock id quantity w'))
     = repo (world (InventoryService.ReserveStock id quantity w)).
Proof.
  intros H. unfold InventoryService.ReserveStock. rewrite !bind_run, !GetProduct_run.
  cbn [value world calls]. rewrite H.
  destruct (products (repo w) !! id) as [p|]; [|split; [reflexivity|exact H]].
  destruct (Stock p <? quantity); [split; [reflexivity|exact H]|].
  unfold MemoryRepository.storeProduct, MemoryRepository.UpdateProduct.
  rewrite !bind_run. cbn [getRepo putRepo value world calls repo]. rewrite H.
  destruct (_ !! _); cbn [value world repo mret M_ret];
    rewrite ?bind_run; cbn [getRepo putRepo value world calls repo mret M_ret];
    split; reflexivity.
Qed.

Lemma reserveInventory_congr (items : list CartItem) (w w' : World) :
  repo w' = repo w ->
  value (CheckoutFacade.reserveInventory items w')
  = value (CheckoutFacade.reserveInventory items w)
  /\ repo (world (CheckoutFacade.reserveInventory items w'))
     = repo (world (CheckoutFacade.reserveInventory items w)).
Proof.
  revert w w'. induction items as [|item items IH]; intros w w' H; [split; [reflexivity|exact H]|].
  cbn [CheckoutFacade.reserveInventory]. rewrite !bind_run. cbn [value world].
  destruct (ReserveStock_congr (ItemProductID item) (Quantity item) w w' H) as [Hv Hr].
  rewrite Hv.
  destruct (value (InventoryService.ReserveStock (ItemProductID item) (Quantity item) w)).
  - apply IH. exact Hr.
  - split; [reflexivity|exact Hr].
  - split; [reflexivity|exact Hr].
Qed.

Lemma validateInventory_congr (items : list CartItem) (w w' : World) :
  repo w' = repo w ->
  value (CheckoutFacade.validateInventory items w')
  = value (CheckoutFacade.validateInventory items w).
Proof.
  intros H. induction items as [|item items IH]; [reflexivity|].
  cbn [CheckoutFacade.validateInventory]. unfold InventoryService.CheckAvailability.
  rewrite !bind_run, !GetProduct_run. cbn [value world calls]. rewrite H.
  destruct (products (repo w) !! ItemProductID item) as [p|]; [|reflexivity].
  destruct (Quantity item <=? Stock p); [|reflexivity].
  exact IH.
Qed.

Lemma prepend_prepend {A : Type} (a b : list Call) (o : Out A) :
  prepend a (prepend b o) = prepend (a ++ b) o.
Proof. unfold prepend. cbn [value world calls]. rewrite app_assoc. reflexivity. Qed.

Ltac later_stage :=
  split; [reflexivity|]; split; [reflexivity|]; split; [|split; [|split]];
  [ | cbn [prepend value]; rewrite bind_run; cbn [value]; rewrite bind_run; reflexivity
    | | cbn [prepend world]; rewrite bind_run; cbn [world]; rewrite bind_run; reflexivity ].

Lemma runStages_outcome (cfg : Config.T) (ctx : Context) (tx : Transaction) (cart : Cart)
    (customer : Customer) (options : CheckoutOptions) (w1 : World) :
  let o := CheckoutFacade.runStages cfg ctx tx cart customer options w1 in
  let reserved := CheckoutFacade.reserveInventory (Items cart) w1 in
  (exists cause,
      value (CheckoutFacade.validateInventory (Items cart) w1) = Fail cause
      /\ value o = Fail (Wrap cause ErrCodePaymentFailed "inventory validation failed")
      /\ repo (world o) = repo w1)
  \/ (exists cause,
        value (CheckoutFacade.validateInventory (Items cart) w1) = Ok tt
        /\ value reserved = Fail cause
        /\ value o = Fail (Wrap cause ErrCodePaymentFailed "inventory reservation failed")
        /\ repo (world o) = repo (world reserved))
  \/ (exists cause message w5,
        value (CheckoutFacade.validateInventory (Items cart) w1) = Ok tt
        /\ value reserved = Ok tt
        /\ laterStage message
        /\ value o = Fail (Wrap cause ErrCodePaymentFailed message)
        /\ repo w5 = repo (world reserved)
        /\ repo (world o) = repo (world (CheckoutFacade.rollbackInventory (Items cart) w5)))
  \/ (exists res w6 c,
        value (CheckoutFacade.validateInventory (Items cart) w1) = Ok tt
        /\ value reserved = Ok tt
        /\ repo w6 = repo (world reserved)
        /\ o = prepend c (CheckoutFacade.completeOrder tx cart customer res w6))
  \/ value o = Crash.
Proof.
  intros o reserved. subst o reserved. unfold CheckoutFacade.runStages.
  (* validation *)
  rewrite bind_case.
  destruct (validateInventory_world (Items cart) w1) as (Hw2 & _ & _).
  destruct (CheckoutFacade.validateInventory (Items cart) w1) as [validated w2 c2].
  cbn [world] in Hw2. subst w2. cbn [value].
  destruct validated as [[]|err|]; cycle 1.
  { left. exists err. split; [reflexivity|]. split; reflexivity. }
  { do 4 right. reflexivity. }
  right.
  (* reservation *)
  rewrite bind_case.
  destruct (CheckoutFacade.reserveInventory (Items cart) w1) as [rsv w3 c3].
  cbn [value world].
  destruct rsv as [[]|err|]; cycle 1.
  { left. exists err. split; [reflexivity|]. split; [reflexivity|]. split; reflexivity. }
  { do 3 right. reflexivity. }
  right.
  (* payment creation *)
  rewrite bind_case.
  destruct (builds_createPayment options w3) as (Hw4 & _ & Hp4).
  destruct (CheckoutFacade.createPayment options w3) as [created w4 c4].
  cbn [value world] in Hw4, Hp4.
  destruct created as [paymentInstance|err|]; [| |contradiction]; cycle 1.
  { left. exists err, "payment creation failed", w4. later_stage; [left; reflexivity|exact Hw4]. }
  (* decoration *)
  rewrite bind_case. unfold CheckoutFacade.applyDecorators.
  destruct (builds_CreateDecoratorChain cfg (EnabledDecorators options) options (Some customer)
              paymentInstance Hp4 w4) as (Hw5 & _ & Hp5).
  destruct (DecoratorFactory.CreateDecoratorChain cfg paymentInstance (EnabledDecorators options)
              options (Some customer) w4) as [decorated w5 c5].
  cbn [value world] in Hw5, Hp5.
  assert (Hr5 : repo w5 = repo w3) by congruence.
  destruct decorated as [decoratedPayment|err|]; [| |contradiction]; cycle 1.
  { left. exists err, "decorator application failed", w5.
    later_stage; [right; left; reflexivity|exact Hr5]. }
  (* strategy execution *)
  rewrite bind_case.
  destruct (executePaymentStrategy_repo cfg ctx decoratedPayment (GetTotal cart) options w5 Hp5)
    as (Hw6 & Hnofail).
  destruct (CheckoutFacade.executePaymentStrategy cfg ctx decoratedPayment (GetTotal cart)
              options w5) as [executed w6 c6].
  cbn [value world] in Hw6, Hnofail.
  assert (Hr6 : repo w6 = repo w3) by congruence.
  destruct executed as [[[res|] [err|]]|err|].
  - left. exists err, "payment processing failed", w6.
    later_stage; [right; right; reflexivity|exact Hr6].
  - right. left. exists res, w6. eexists.
    split; [reflexivity|]. split; [reflexivity|]. split; [exact Hr6|].
    rewrite !prepend_prepend. reflexivity.
  - left. exists err, "payment processing failed", w6.
    later_stage; [right; right; reflexivity|exact Hr6].
  - right. right. reflexivity.
  - exfalso. exact (Hnofail err eq_refl).
  - right. right. reflexivity.
Qed.

Lemma ProcessOrder_prelude (cfg : Config.T) (ctx : Context) (cart : Cart) (customer : Customer)
    (options : CheckoutOptions) (w : World) :
  exists (transaction : Transaction) (w1 : World),
    repo w1 = repo w
    /\ TxID transaction = uuidSource w (uuidsDrawn w)
    /\ TxCustomerID transaction = CustomerID_ customer
    /\ TxAmount transaction = GetTotal cart
    /\ TxPaymentMethod transaction = OptPaymentMethod options
    /\ CheckoutFacade.ProcessOrder cfg ctx cart customer options w
       = CheckoutFacade.runStages cfg ctx transaction cart customer options w1.
Proof.
  unfold CheckoutFacade.ProcessOrder.
  do 2 eexists. split; [|split; [|split; [|split; [|split]]]]; cycle 5.
  - rewrite bind_run. cbn [NewID value world calls]. rewrite bind_run. cbn [Now value world calls].
    rewrite bind_run. cbn [Now value world calls]. rewrite bind_run.
    cbn [CheckoutFacade.notifyEvent emit value world calls app].
    apply out_eta.
  - reflexivity.
  - reflexivity.
  - reflexivity.
  - reflexivity.
  - reflexivity.
Qed.

(** X23. Every error of [ProcessOrder] is a payment-failed envelope of
    [handleError] around the cause, with one of five messages that name
    the stage that failed. *)
Theorem Checkout_failures_are_enveloped
    (cfg : Config.T) (ctx : Context) (cart : Cart) (customer : Customer)
    (options : CheckoutOptions) (w : World) (e : error) :
  value (CheckoutFacade.ProcessOrder cfg ctx cart customer options w) = Fail e ->
  GetErrorCode e = ErrCodePaymentFailed
  /\ exists cause message,
       e = Wrap cause ErrCodePaymentFailed message
       /\ (message = "inventory validation failed"
           \/ message = "inventory reservation failed"
           \/ message = "payment creation failed"
           \/ message = "decorator application failed"
           \/ message = "payment processing failed").
Proof.
  destruct (ProcessOrder_prelude cfg ctx cart customer options w)
    as (tx & w1 & _ & _ & _ & _ & _ & ->).
  destruct (runStages_outcome cfg ctx tx cart customer options w1)
    as [(cause & _ & -> & _)
       |[(cause & _ & _ & -> & _)
        |[(cause & message & w5 & _ & _ & Hm & -> & _)
         |[(res & w6 & c & _ & _ & _ & ->)| ->]]]].
  - intros H. injection H as <-. split; [reflexivity|]. exists cause. eexists. split; [reflexivity|].
    left. reflexivity.
  - intros H. injection H as <-. split; [reflexivity|]. exists cause. eexists. split; [reflexivity|].
    right. left. reflexivity.
  - intros H. injection H as <-. split; [reflexivity|]. exists cause, message.
    split; [reflexivity|]. right. right. exact Hm.
  - rewrite value_prepend.
    destruct (completeOrder_succeeds tx cart customer res w6) as [receipt ->]. discriminate.
  - discriminate.
Qed.

(** A checkout of sixty mice, which fails the inventory validation. *)
Lemma Checkout_failures_witness :
  exists e,
    value (CheckoutFacade.ProcessOrder Samples.cfg0 Background Samples.sixtyMice Samples.alice
             Samples.plainInstant Samples.w0) = Fail e
    /\ GetErrorCode e = ErrCodePaymentFailed.
Proof.
  eexists. split; [vm_compute; reflexivity|].
  apply (Checkout_failures_are_enveloped Samples.cfg0 Background Samples.sixtyMice Samples.alice
           Samples.plainInstant Samples.w0).
  vm_compute. reflexivity.
Defined.

(** X24. On a repository that files every product under its id, a
    checkout that fails at any stage other than the reservation leaves
    the stock of every product as it was: what had been reserved is
    released again. *)
Theorem Failed_checkout_restores_stock
    (cfg : Config.T) (ctx : Context) (cart : Cart) (customer : Customer)
    (options : CheckoutOptions) (w : World) (cause : error) (message : string) :
  filed (products (repo w)) ->
  value (CheckoutFacade.ProcessOrder cfg ctx cart customer options w)
  = Fail (Wrap cause ErrCodePaymentFailed message) ->
  message <> "inventory reservation failed" ->
  products (repo (world (CheckoutFacade.ProcessOrder cfg ctx cart customer options w)))
  = products (repo w).
Proof.
  intros Hf.
  destruct (ProcessOrder_prelude cfg ctx cart customer options w)
    as (tx & w1 & Hw1 & _ & _ & _ & _ & ->).
  destruct (runStages_outcome cfg ctx tx cart customer options w1)
    as [(c & _ & Hv & Hr)
       |[(c & _ & _ & Hv & _)
        |[(c & m & w5 & _ & Hres & _ & Hv & Hr5 & Hr)
         |[(res & w6 & cs & _ & _ & _ & Ho)| Hv]]]].
  - intros _ _. rewrite Hr, Hw1. reflexivity.
  - rewrite Hv. unfold Wrap. intros H Hne. congruence.
  - intros _ _. rewrite Hr.
    rewrite <- Hw1 in Hf |- *.
    apply (rollback_after_reserve (Items cart) w1 w5 Hf Hres).
    rewrite Hr5. reflexivity.
  - rewrite Ho, value_prepend.
    destruct (completeOrder_succeeds tx cart customer res w6) as [receipt ->]. discriminate.
  - rewrite Hv. discriminate.
Qed.

(** A checkout whose every attempt is rejected by the fraud screening. *)
Lemma Failed_checkout_witness :
  products (repo (world (CheckoutFacade.ProcessOrder Samples.cfgStrict Background
                           Samples.fourMice Samples.alice Samples.screenedInstant Samples.w0)))
  = products (repo Samples.w0).
Proof.
  eapply (Failed_checkout_restores_stock Samples.cfgStrict Background Samples.fourMice
            Samples.alice Samples.screenedInstant Samples.w0).
  - exact filed_repo0.
  - vm_compute. reflexivity.
  - discriminate.
Defined.

(** X25. A checkout that fails during the reservation is not rolled back:
    when the lines pass the validation and the reservation fails midway
    (the same product in several lines), [ProcessOrder] returns the
    reservation envelope and the repository is left as the failed
    reservation left it, the stock of the earlier lines still taken. *)
Theorem Failed_reservation_is_not_rolled_back
    (cfg : Config.T) (ctx : Context) (cart : Cart) (customer : Customer)
    (options : CheckoutOptions) (w : World) (cause : error) :
  value (CheckoutFacade.validateInventory (Items cart) w) = Ok tt ->
  value (CheckoutFacade.reserveInventory (Items cart) w) = Fail cause ->
  value (CheckoutFacade.ProcessOrder cfg ctx cart customer options w)
  = Fail (Wrap cause ErrCodePaymentFailed "inventory reservation failed")
  /\ repo (world (CheckoutFacade.ProcessOrder cfg ctx cart customer options w))
     = repo (world (CheckoutFacade.reserveInventory (Items cart) w)).
Proof.
  intros Hval Hres.
  destruct (ProcessOrder_prelude cfg ctx cart customer options w)
    as (tx & w1 & Hw1 & _ & _ & _ & _ & ->).
  destruct (reserveInventory_congr (Items cart) w w1 Hw1) as [Hcv Hcr].
  pose proof (validateInventory_congr (Items cart) w w1 Hw1) as Hcval.
  rewrite <- Hcv in Hres. rewrite <- Hcval in Hval. rewrite <- Hcr.
  destruct (runStages_outcome cfg ctx tx cart customer options w1)
    as [(c & Hv' & _)
       |[(c & _ & Hr' & Hv & Hr)
        |[(c & m & w5 & _ & Hr' & _)
         |[(res & w6 & cs & _ & Hr' & _)| Hv]]]].
  - congruence.
  - rewrite Hres in Hr'. injection Hr' as <-. split; [exact Hv|exact Hr].
  - congruence.
  - congruence.
  - exfalso.
    (* a crash would have to come from a stage; validation and reservation returned *)
    revert Hv. unfold CheckoutFacade.runStages. rewrite bind_case.
    destruct (validateInventory_world (Items cart) w1) as (Hw2 & _ & _).
    destruct (CheckoutFacade.validateInventory (Items cart) w1) as [validated w2 c2].
    cbn [world value] in Hw2, Hval. subst w2 validated.
    rewrite bind_case.
    destruct (CheckoutFacade.reserveInventory (Items cart) w1) as [rsv w3 c3].
    cbn [value] in Hres. subst rsv. cbn [prepend value]. rewrite bind_run. discriminate.
Qed.

(** Two lines of thirty mice against a stock of fifty. *)
Lemma Failed_reservation_witness :
  exists cause,
    value (CheckoutFacade.ProcessOrder Samples.cfg0 Background Samples.twiceThirtyMice
             Samples.alice Samples.plainInstant Samples.w0)
    = Fail (Wrap cause ErrCodePaymentFailed "inventory reservation failed")
    /\ repo (world (CheckoutFacade.ProcessOrder Samples.cfg0 Background Samples.twiceThirtyMice
                      Samples.alice Samples.plainInstant Samples.w0))
       = repo (world (CheckoutFacade.reserveInventory (Items Samples.twiceThirtyMice)
                        Samples.w0)).
Proof.
  eexists.
  eapply (Failed_reservation_is_not_rolled_back Samples.cfg0 Background Samples.twiceThirtyMice
            Samples.alice Samples.plainInstant Samples.w0).
  - vm_compute. reflexivity.
  - vm_compute. reflexivity.
Defined.

Lemma updateLoyaltyPoints_keeps (customer : Customer) (res : PaymentResult) (w : World) :
  products (repo (world (CheckoutFacade.updateLoyaltyPoints customer res w))) = products (repo w)
  /\ transactions (repo (world (CheckoutFacade.updateLoyaltyPoints customer res w)))
     = transactions (repo w).
Proof.
  unfold CheckoutFacade.updateLoyaltyPoints.
  destruct ((0 <? _) || (0 <? _)); [|split; reflexivity].
  unfold CustomerService.UpdateLoyaltyPoints, MemoryRepository.GetCustomer.
  rewrite !bind_run. cbn [getRepo value world calls mret M_ret].
  destruct (customers (repo w) !! CustomerID_ customer) as [c|]; [|split; reflexivity].
  unfold MemoryRepository.storeCustomer, MemoryRepository.UpdateCustomer.
  rewrite !bind_run. cbn [getRepo putRepo value world calls repo customers products transactions].
  destruct (_ !! _); cbn [value world repo mret M_ret];
    rewrite ?bind_run; cbn [getRepo putRepo value world calls repo products transactions mret M_ret];
    split; reflexivity.
Qed.

Lemma completeOrder_effect (tx : Transaction) (cart : Cart) (customer : Customer)
    (res : PaymentResult) (w : World) :
  exists (receipt : Receipt) (stored : Transaction),
    value (CheckoutFacade.completeOrder tx cart customer res w) = Ok (receipt, Clear cart)
    /\ (RTransactionID receipt = TxID tx /\ RCustomerID receipt = CustomerID_ customer
        /\ Subtotal receipt = GetTotal cart /\ Total receipt = Amount res
        /\ length (RItems receipt) = length (Items cart)
        /\ RAppliedDecorators receipt = AppliedDecorators res)
    /\ (TxID stored = TxID tx /\ Status stored = TransactionStatusCompleted
        /\ TxAmount stored = TxAmount tx /\ TxCustomerID stored = TxCustomerID tx
        /\ TxPaymentMethod stored = TxPaymentMethod tx /\ PaymentDetails stored = Metadata res)
    /\ products (repo (world (CheckoutFacade.completeOrder tx cart customer res w)))
       = products (repo w)
    /\ transactions (repo (world (CheckoutFacade.completeOrder tx cart customer res w)))
       = match transactions (repo w) !! TxID tx with
         | Some _ => transactions (repo w)
         | None => <[TxID tx := stored]> (transactions (repo w))
         end.
Proof.
  unfold CheckoutFacade.completeOrder.
  rewrite bind_run. cbn [Now value world calls].
  rewrite bind_run.
  destruct (updateLoyaltyPoints_keeps customer res w) as [Hp Ht].
  set (w2 := world (CheckoutFacade.updateLoyaltyPoints customer res w)) in *.
  cbn [value world calls].
  unfold CheckoutFacade.generateReceipt.
  rewrite !bind_run. cbn [NewID Now value world calls mret M_ret].
  unfold TransactionService.CreateTransaction, MemoryRepository.CreateTransaction.
  rewrite !bind_run. cbn [getRepo value world calls mret M_ret repo TxID].
  rewrite Ht.
  eexists.
  exists (mkTransaction (TxID tx) (TxCustomerID tx) (TxAmount tx) TransactionStatusCompleted
            (TxPaymentMethod tx) (Metadata res) (TxMetadata tx) (ErrorMessage tx) (clock w)
            (CreatedAt tx)).
  split; [|split; [|split; [|split]]].
  - destruct (transactions (repo w) !! TxID tx); reflexivity.
  - cbn. rewrite length_map. repeat split.
  - cbn. repeat split.
  - destruct (transactions (repo w) !! TxID tx);
      cbn [value world repo mret M_ret]; rewrite ?bind_run;
      cbn [putRepo CheckoutFacade.notifyEvent emit Now value world repo products mret M_ret];
      exact Hp.
  - destruct (transactions (repo w) !! TxID tx);
      cbn [value world repo mret M_ret]; rewrite ?bind_run;
      cbn [putRepo CheckoutFacade.notifyEvent emit Now value world repo transactions mret M_ret];
      first [exact Ht | rewrite Ht; reflexivity | reflexivity].
Qed.

(** X26. A successful checkout returns the emptied cart and a receipt
    under the first identifier drawn, for the customer, with the cart's
    total as subtotal and one line per cart line; the stock is what the
    reservation left; and the transaction store gains exactly one
    completed transaction under that identifier, of the cart's total,
    unless the identifier was in use, in which case the store is
    unchanged (the error of [CreateTransaction] is dropped). *)
Theorem Successful_checkout_is_recorded
    (cfg : Config.T) (ctx : Context) (cart : Cart) (customer : Customer)
    (options : CheckoutOptions) (w : World) (receipt : Receipt) (cart' : Cart) :
  let final := world (CheckoutFacade.ProcessOrder cfg ctx cart customer options w) in
  let id := uuidSource w (uuidsDrawn w) in
  value (CheckoutFacade.ProcessOrder cfg ctx cart customer options w) = Ok (receipt, cart') ->
  cart' = Clear cart
  /\ RTransactionID receipt = id
  /\ RCustomerID receipt = CustomerID_ customer
  /\ Subtotal receipt = GetTotal cart
  /\ length (RItems receipt) = length (Items cart)
  /\ value (CheckoutFacade.reserveInventory (Items cart) w) = Ok tt
  /\ products (repo final)
     = products (repo (world (CheckoutFacade.reserveInventory (Items cart) w)))
  /\ (transactions (repo w) !! id = None ->
      exists stored,
        transactions (repo final) = <[id := stored]> (transactions (repo w))
        /\ Status stored = TransactionStatusCompleted
        /\ TxAmount stored = GetTotal cart
        /\ TxCustomerID stored = CustomerID_ customer
        /\ TxPaymentMethod stored = OptPaymentMethod options)
  /\ (is_Some (transactions (repo w) !! id) ->
      transactions (repo final) = transactions (repo w)).
Proof.
  intros final id. subst final id.
  destruct (ProcessOrder_prelude cfg ctx cart customer options w)
    as (tx & w1 & Hw1 & Hid & Hcust & Hamt & Hpm & ->).
  destruct (reserveInventory_congr (Items cart) w w1 Hw1) as [Hcv Hcr].
  destruct (runStages_outcome cfg ctx tx cart customer options w1)
    as [(c & _ & Hv & _)
       |[(c & _ & _ & Hv & _)
        |[(c & m & w5 & _ & _ & _ & Hv & _)
         |[(res & w6 & cs & _ & Hres & Hr6 & Ho)| Hv]]]];
    try (rewrite Hv; discriminate).
  rewrite Ho, value_prepend, world_prepend.
  destruct (completeOrder_effect tx cart customer res w6)
    as (rc & stored & Hval & (R1 & R2 & R3 & R4 & R5 & R6) & (S1 & S2 & S3 & S4 & S5 & S6)
        & Hprod & Htx).
  rewrite Hval. intros H. injection H as <- <-.
  assert (Ht6 : transactions (repo w6) = transactions (repo w)).
  { rewrite Hr6.
    pose proof (keeps_txStore_reserveInventory (Items cart) w1) as Hk. unfold txStore in Hk.
    rewrite Hk, Hw1. reflexivity. }
  split; [reflexivity|]. split; [congruence|]. split; [exact R2|]. split; [exact R3|].
  split; [exact R5|]. split; [congruence|]. split; [rewrite Hprod, Hr6; congruence|].
  rewrite Htx, Ht6, Hid. split.
  - intros Hnone. rewrite Hnone. exists stored. repeat split; congruence.
  - intros [old Hsome]. rewrite Hsome. reflexivity.
Qed.

(** Four mice paid with the test card. *)
Lemma Successful_checkout_witness :
  exists receipt cart',
    value (CheckoutFacade.ProcessOrder Samples.cfg0 Background Samples.fourMice Samples.alice
             Samples.plainInstant Samples.w0) = Ok (receipt, cart')
    /\ cart' = Clear Samples.fourMice
    /\ RTransactionID receipt = Samples.uuid0 0.
Proof.
  eexists. eexists. split; [vm_compute; reflexivity|].
  edestruct (Successful_checkout_is_recorded Samples.cfg0 Background Samples.fourMice
               Samples.alice Samples.plainInstant Samples.w0) as (Hc & Hid & _);
    [vm_compute; reflexivity|].
  split; [exact Hc|exact Hid].
Defined.

(** ** The retry loop *)

Lemma processInstrument_silent (min max : float) (latency : Duration)
    (build : string -> Time -> float -> PaymentResult) (ctx : Context) (amount : float)
    (w : World) :
  calls (processInstrument min max latency build ctx amount w) = [].
Proof.
  unfold processInstrument. rewrite bind_run, ctxErr_run. cbn [value world calls app].
  destruct (value (ctxErr ctx w)); [reflexivity|].
  destruct (Validator.AmountValidate amount min max); reflexivity.
Qed.

Lemma quiet_instrument (paymentType : string) (config : PaymentConfig) (w0 : World) (p : Payment) :
  value (PaymentFactory.CreatePayment paymentType config w0) = Ok p -> quiet p.
Proof.
  intros Hp. pose proof (CreatePayment_cases paymentType config w0) as [H _].
  rewrite Hp in H. destruct H as [[_ (min & max & latency & build & _ & [Hpr | Hpr])] _];
    intros ctx amount w; rewrite Hpr.
  - rewrite processInstrument_silent. reflexivity.
  - rewrite bind_run. cbn [calls]. rewrite processInstrument_silent. reflexivity.
Qed.

Lemma quiet_decorates (next wrapped : Payment) :
  decorates next wrapped -> quiet wrapped -> quiet next.
Proof.
  intros Hd Hq ctx amount w.
  destruct (decorators_callsOnce wrapped) as (A1 & A2 & A3 & A4 & A5).
  assert (H : callsOnce (Process next) wrapped).
  { destruct Hd as [[d ->]|[[d ->]|[[d ->]|[[inst [d ->]]|[d ->]]]]]; auto. }
  destruct (H ctx amount w) as [-> | (a' & w' & ->)]; [reflexivity|].
  unfold attempts. cbn [filter isExecute]. apply Hq.
Qed.

Lemma quiet_chain (cfg : Config.T) (features : list string) (options : CheckoutOptions)
    (customer : option Customer) (base : Payment) (w0 : World) (p : Payment) :
  quiet base ->
  value (DecoratorFactory.CreateDecoratorChain cfg base features options customer w0) = Ok p ->
  quiet p.
Proof.
  revert base w0. induction features as [|feature rest IH]; intros base w0 Hq.
  - cbn. intros H. injection H as <-. exact Hq.
  - cbn [DecoratorFactory.CreateDecoratorChain]. rewrite bind_run. cbn [value].
    destruct (value (DecoratorFactory.createDecorator cfg feature base options customer w0))
      as [next|e|] eqn:En; try discriminate.
    apply IH. destruct (createDecorator_decorates _ _ _ _ _ _ _ En) as [-> | Hd]; [exact Hq|].
    exact (quiet_decorates _ _ Hd Hq).
Qed.

Lemma quiet_strategy (strategyType : string) (params : option MetaMap) (s : PaymentStrategy)
    (ctx : Context) (p : Payment) (amount : float) (w : World) :
  StrategyFactory.CreateStrategy strategyType params = Ok s ->
  quiet p ->
  attempts (calls (Execute s ctx p amount w)) = 0%nat.
Proof.
  intros Hs Hq. unfold StrategyFactory.CreateStrategy in Hs.
  destruct (negb _); [discriminate|].
  destruct (String.eqb strategyType "instant").
  { injection Hs as <-. cbn [Execute InstantPaymentStrategy.New].
    unfold InstantPaymentStrategy.Execute.
    destruct (InstantPaymentStrategy.ValidateAmount _ _); [reflexivity|].
    run. rewrite app_nil_r. unfold attempts. cbn [filter isExecute]. apply Hq. }
  destruct (String.eqb strategyType "deferred").
  { unfold StrategyFactory.createDeferredStrategy in Hs.
    repeat match type of Hs with
           | (if ?b then _ else _) = _ => destruct b; [discriminate|]
           end.
    injection Hs as <-. cbn [Execute DeferredPaymentStrategy.New].
    unfold DeferredPaymentStrategy.Execute.
    destruct (DeferredPaymentStrategy.ValidateAmount _ _); [reflexivity|].
    unfold CreateDeferredSchedule. run.
    match goal with |- context [if ?b then _ else _] => destruct b end; [reflexivity|].
    cbn [value world calls mret M_ret Payments].
    destruct (map _ _) as [|first rest]; [reflexivity|].
    run. cbn [NewID calls app]. rewrite app_nil_r. unfold attempts. cbn [filter isExecute].
    apply Hq. }
  destruct (String.eqb strategyType "split"); discriminate.
Qed.

Lemma attempts_app (a b : list Call) : attempts (a ++ b) = (attempts a + attempts b)%nat.
Proof. unfold attempts. rewrite filter_app, length_app. reflexivity. Qed.

Lemma attempts_execute (name : string) (amount : float) (l : list Call) :
  attempts (CallExecute name amount :: l) = S (attempts l).
Proof. reflexivity. Qed.

Lemma retryLoop_attempts (cfg : Config.T) (ctx : Context) (s : PaymentStrategy) (p : Payment)
    (amount : float) (remaining : nat) :
  (forall w', attempts (calls (Execute s ctx p amount w')) = 0%nat) ->
  forall attempt lastErr w,
    (attempts (calls (CheckoutFacade.retryLoop cfg ctx s p amount remaining attempt lastErr w))
     <= remaining)%nat.
Proof.
  intros Hs. induction remaining as [|remaining IH]; intros attempt lastErr w.
  - cbn. lia.
  - cbn [CheckoutFacade.retryLoop]. rewrite bind_run. cbn [calls].
    assert (H1 : calls ((if 0 <? attempt then Sleep (Config.RetryDelay (Config.Payment cfg))
                         else mret tt) w) = []) by (destruct (0 <? attempt); reflexivity).
    rewrite H1. cbn [app]. unfold execute. rewrite !bind_run. cbn [tell value world calls app].
    rewrite attempts_execute, attempts_app, Hs. cbn [Nat.add].
    match goal with
    | |- context [value (Execute s ctx p amount ?w')] =>
        destruct (value (Execute s ctx p amount w')) as [res|err|]
    end.
    + cbn. lia.
    + destruct (IsErrorCode err ErrCodeFraudDetected || IsErrorCode err ErrCodeInvalidPayment).
      * cbn. lia.
      * match goal with |- context [CheckoutFacade.retryLoop cfg ctx s p amount remaining ?a ?l ?w'] =>
          pose proof (IH a l w') as Hle end.
        lia.
    + cbn. lia.
Qed.

Lemma silent_completeOrder (tx : Transaction) (cart : Cart) (customer : Customer)
    (res : PaymentResult) : silent (CheckoutFacade.completeOrder tx cart customer res).
Proof.
  unfold CheckoutFacade.completeOrder, CheckoutFacade.updateLoyaltyPoints,
    CustomerService.UpdateLoyaltyPoints, MemoryRepository.GetCustomer,
    MemoryRepository.storeCustomer, MemoryRepository.UpdateCustomer,
    CheckoutFacade.generateReceipt, TransactionService.CreateTransaction,
    MemoryRepository.CreateTransaction, CheckoutFacade.notifyEvent.
  mon.
Qed.

Lemma quiet_createPayment (options : CheckoutOptions) (w : World) (p : Payment) :
  value (CheckoutFacade.createPayment options w) = Ok p -> quiet p.
Proof. unfold CheckoutFacade.createPayment. apply quiet_instrument. Qed.

Lemma runStages_calls (cfg : Config.T) (ctx : Context) (tx : Transaction) (cart : Cart)
    (customer : Customer) (options : CheckoutOptions) (w1 : World) :
  calls (CheckoutFacade.runStages cfg ctx tx cart customer options w1) = []
  \/ exists p w5,
       quiet p
       /\ calls (CheckoutFacade.runStages cfg ctx tx cart customer options w1)
          = calls (CheckoutFacade.executePaymentStrategy cfg ctx p (GetTotal cart) options w5).
Proof.
  unfold CheckoutFacade.runStages.
  rewrite bind_case.
  destruct (validateInventory_world (Items cart) w1) as (_ & Hc2 & _).
  destruct (CheckoutFacade.validateInventory (Items cart) w1) as [validated w2 c2].
  cbn [calls] in Hc2. subst c2.
  destruct validated as [[]|err|]; [|left; reflexivity|left; reflexivity].
  rewrite bind_case.
  pose proof (silent_reserveInventory (Items cart) w2) as Hc3.
  destruct (CheckoutFacade.reserveInventory (Items cart) w2) as [reserved w3 c3].
  cbn [calls] in Hc3. subst c3.
  destruct reserved as [[]|err|]; [|left; reflexivity|left; reflexivity].
  rewrite bind_case.
  destruct (builds_createPayment options w3) as (_ & Hc4 & Hp4).
  pose proof (quiet_createPayment options w3) as Hq4.
  destruct (CheckoutFacade.createPayment options w3) as [created w4 c4].
  cbn [value calls] in Hc4, Hq4, Hp4. subst c4.
  destruct created as [paymentInstance|err|]; cycle 1.
  { left. cbn [prepend calls app]. rewrite bind_run. cbn [calls].
    rewrite silent_rollbackInventory. reflexivity. }
  { left. reflexivity. }
  specialize (Hq4 paymentInstance eq_refl).
  rewrite bind_case. unfold CheckoutFacade.applyDecorators.
  pose proof (quiet_chain cfg (EnabledDecorators options) options (Some customer)
                paymentInstance w4) as Hq5.
  destruct (builds_CreateDecoratorChain cfg (EnabledDecorators options) options
              (Some customer) paymentInstance Hp4 w4) as (_ & Hc5 & _).
  destruct (DecoratorFactory.CreateDecoratorChain cfg paymentInstance (EnabledDecorators options)
              options (Some customer) w4) as [decorated w5 c5].
  cbn [value calls] in Hc5, Hq5. subst c5.
  destruct decorated as [decoratedPayment|err|]; cycle 1.
  { left. cbn [prepend calls app]. rewrite bind_run. cbn [calls].
    rewrite silent_rollbackInventory. reflexivity. }
  { left. reflexivity. }
  right. exists decoratedPayment, w5. split; [exact (Hq5 decoratedPayment Hq4 eq_refl)|].
  rewrite bind_case.
  destruct (CheckoutFacade.executePaymentStrategy cfg ctx decoratedPayment (GetTotal cart)
              options w5) as [executed w6 c6].
  cbn [prepend calls app].
  destruct executed as [[[res|] [err|]]|err|]; cbn [calls];
    rewrite ?bind_run; cbn [calls]; rewrite ?silent_rollbackInventory, ?silent_completeOrder;
    cbn [app calls]; rewrite ?app_nil_r; reflexivity.
Qed.

(** X27. With [RetryAttempts] below the largest [int] (at the largest
    the counter of the loop wraps around and never passes it),
    [ProcessOrder] calls the strategy's [Execute] at most
    [RetryAttempts + 1] times, whatever the cart, the options and the
    outcome; none when [RetryAttempts] is negative. *)
Theorem Retry_attempts_are_bounded
    (cfg : Config.T) (ctx : Context) (cart : Cart) (customer : Customer)
    (options : CheckoutOptions) (w : World) :
  Config.RetryAttempts (Config.Payment cfg) < F64.max_int64 ->
  (attempts (calls (CheckoutFacade.ProcessOrder cfg ctx cart customer options w))
   <= Z.to_nat (Config.RetryAttempts (Config.Payment cfg) + 1))%nat.
Proof.
  intros _.
  destruct (ProcessOrder_stages cfg ctx cart customer options w) as (tx & w1 & _ & ->).
  destruct (runStages_calls cfg ctx tx cart customer options w1) as [-> | (p & w5 & Hq & ->)].
  - apply Nat.le_0_l.
  - unfold CheckoutFacade.executePaymentStrategy. rewrite bind_run.
    unfold WithTimeout at 1. rewrite bind_run. cbn [Now value world calls app mret M_ret].
    destruct (StrategyFactory.CreateStrategy _ None) as [s|e|] eqn:Es.
    + unfold CheckoutFacade.executeWithRetry. apply retryLoop_attempts.
      intros w'. exact (quiet_strategy _ _ _ _ _ _ _ Es Hq).
    + apply Nat.le_0_l.
    + apply Nat.le_0_l.
Qed.

(** Three retries are configured and the fraud screening rejects every
    attempt: no more than four attempts are made. *)
Lemma Retry_attempts_witness :
  (attempts (calls (CheckoutFacade.ProcessOrder Samples.cfgStrict Background Samples.fourMice
                      Samples.alice Samples.screenedInstant Samples.w0)) <= 4)%nat.
Proof.
  apply (Retry_attempts_are_bounded Samples.cfgStrict Background Samples.fourMice Samples.alice
           Samples.screenedInstant Samples.w0).
  reflexivity.
Defined.

(** ** The cart *)

Lemma count_fold (items : list CartItem) (a : Z) :
  fold_left (fun count item => F64.int_add count (Quantity item)) items (F64.wrap a)
  = F64.wrap (a + fold_left (fun sum item => sum + Quantity item) items 0).
Proof.
  revert a. induction items as [|item items IH]; intros a; cbn [fold_left].
  - rewrite Z.add_0_r. reflexivity.
  - unfold F64.int_add at 2. rewrite wrap_wrap_add, IH. f_equal.
    assert (H : forall l b, fold_left (fun sum item => sum + Quantity item) l b
                            = b + fold_left (fun sum item => sum + Quantity item) l 0).
    { clear. induction l as [|x l IH]; intros b; cbn [fold_left]; [lia|].
      rewrite (IH (b + Quantity x)), (IH (0 + Quantity x)). lia. }
    rewrite (H items (0 + Quantity item)). lia.
Qed.

Lemma GetItemCount_sum (c : Cart) :
  GetItemCount c = F64.wrap (fold_left (fun sum item => sum + Quantity item) (Items c) 0).
Proof.
  unfold GetItemCount. change 0 with (F64.wrap 0) at 1. rewrite count_fold. reflexivity.
Qed.

Lemma sum_fold_acc (l : list CartItem) (b : Z) :
  fold_left (fun sum item => sum + Quantity item) l b
  = b + fold_left (fun sum item => sum + Quantity item) l 0.
Proof.
  revert b. induction l as [|x l IH]; intros b; cbn [fold_left]; [lia|].
  rewrite (IH (b + Quantity x)), (IH (0 + Quantity x)). lia.
Qed.

Lemma addToLine_spec (items : list CartItem) (productID : string) (quantity : Z) :
  match addToLine items productID quantity with
  | Some items' =>
      In productID (lineIDs items)
      /\ lineIDs items' = lineIDs items
      /\ F64.wrap (fold_left (fun sum item => sum + Quantity item) items' 0)
         = F64.wrap (fold_left (fun sum item => sum + Quantity item) items 0 + quantity)
      /\ quantityOf items' productID
         = option_map (fun n => F64.int_add n quantity) (quantityOf items productID)
      /\ forall other, other <> productID -> quantityOf items' other = quantityOf items other
  | None => ~ In productID (lineIDs items)
  end.
Proof.
  induction items as [|item items IH]; cbn [addToLine lineIDs map In quantityOf].
  - tauto.
  - destruct (String.eqb (ItemProductID item) productID) eqn:E.
    + apply String.eqb_eq in E. split; [left; exact E|]. split; [reflexivity|].
      cbn [fold_left withQuantity Quantity quantityOf ItemProductID]. split; [|split].
      * rewrite (sum_fold_acc items (0 + _)), (sum_fold_acc items (0 + Quantity item)).
        unfold F64.int_add. rewrite Z.add_0_l, wrap_wrap_add. f_equal. lia.
      * rewrite E, String.eqb_refl. reflexivity.
      * intros other Ho. subst productID.
        assert (Hne : String.eqb (ItemProductID item) other = false)
          by (apply String.eqb_neq; congruence).
        rewrite Hne. reflexivity.
    + apply String.eqb_neq in E.
      destruct (addToLine items productID quantity) as [rest'|].
      * destruct IH as (Hin & Hids & Hsum & Hq & Hother).
        split; [right; exact Hin|]. cbn [lineIDs map]. fold (lineIDs rest') (lineIDs items).
        split; [rewrite Hids; reflexivity|].
        cbn [fold_left quantityOf]. split; [|split].
        -- rewrite (sum_fold_acc rest'), (sum_fold_acc items (0 + _)).
           rewrite (Z.add_comm (0 + Quantity item)), <- wrap_wrap_add, Hsum, wrap_wrap_add.
           f_equal. lia.
        -- apply String.eqb_neq in E. rewrite E. exact Hq.
        -- intros other Ho. destruct (String.eqb (ItemProductID item) other); [reflexivity|].
           apply Hother. exact Ho.
      * intros [H|H]; [congruence|]. apply IH. exact H.
Qed.

Lemma quantityOf_None (items : list CartItem) (productID : string) :
  quantityOf items productID = None <-> ~ In productID (lineIDs items).
Proof.
  induction items as [|item items IH]; cbn [quantityOf lineIDs map In]; [tauto|].
  destruct (String.eqb (ItemProductID item) productID) eqn:E.
  - apply String.eqb_eq in E. split; [discriminate|]. intros H. exfalso. apply H. left. exact E.
  - apply String.eqb_neq in E. rewrite IH. unfold lineIDs. tauto.
Qed.

Lemma quantityOf_app (items : list CartItem) (new : CartItem) (productID : string) :
  quantityOf (items ++ [new]) productID
  = match quantityOf items productID with
    | Some n => Some n
    | None => if String.eqb (ItemProductID new) productID then Some (Quantity new) else None
    end.
Proof.
  induction items as [|item items IH]; cbn [app quantityOf]; [reflexivity|].
  destruct (String.eqb (ItemProductID item) productID); [reflexivity|exact IH].
Qed.

(** X28. [Cart.AddItem] raises the item count by the quantity (in Go's
    [int] arithmetic), makes the product's quantity the old one plus the
    quantity (the quantity itself for a new product), leaves the other
    products alone and keeps the lines free of duplicates. *)
Theorem AddItem_adds (c : Cart) (product : Product) (quantity : Z) :
  let c' := AddItem c product quantity in
  GetItemCount c' = F64.int_add (GetItemCount c) quantity
  /\ quantityOf (Items c') (ProductID_ product)
     = Some (match quantityOf (Items c) (ProductID_ product) with
             | Some n => F64.int_add n quantity
             | None => quantity
             end)
  /\ (forall other, other <> ProductID_ product ->
        quantityOf (Items c') other = quantityOf (Items c) other)
  /\ (NoDup (lineIDs (Items c)) -> NoDup (lineIDs (Items c'))).
Proof.
  intros c'. subst c'. unfold AddItem.
  pose proof (addToLine_spec (Items c) (ProductID_ product) quantity) as H.
  rewrite !GetItemCount_sum. unfold F64.int_add. rewrite wrap_wrap_add.
  destruct (addToLine (Items c) (ProductID_ product) quantity) as [items'|]; cbn [Items].
  - destruct H as (Hin & Hids & Hsum & Hq & Hother).
    split; [exact Hsum|]. split.
    + rewrite Hq. destruct (quantityOf (Items c) (ProductID_ product)) eqn:E; [reflexivity|].
      apply quantityOf_None in E. contradiction.
    + split; [exact Hother|]. rewrite Hids. auto.
  - split; [|split; [|split]].
    + rewrite fold_left_app. cbn [fold_left Quantity]. reflexivity.
    + rewrite quantityOf_app. apply quantityOf_None in H. rewrite H.
      cbn [ItemProductID Quantity]. rewrite String.eqb_refl. reflexivity.
    + intros other Ho. rewrite quantityOf_app.
      destruct (quantityOf (Items c) other); [reflexivity|].
      cbn [ItemProductID]. apply not_eq_sym in Ho. apply String.eqb_neq in Ho. rewrite Ho.
      reflexivity.
    + intros Hnd. unfold lineIDs. rewrite map_app. cbn [map ItemProductID].
      apply NoDup_app. split; [exact Hnd|]. split.
      * intros x Hx Hx'. apply list_elem_of_In in Hx.
        apply list_elem_of_singleton in Hx'. subst x. apply H. exact Hx.
      * apply NoDup_singleton.
Qed.

Lemma removeLine_spec (items : list CartItem) (productID : string) :
  NoDup (lineIDs items) ->
  quantityOf (removeLine items productID) productID = None
  /\ (forall other, other <> productID ->
        quantityOf (removeLine items productID) other = quantityOf items other)
  /\ NoDup (lineIDs (removeLine items productID))
  /\ (forall x, In x (lineIDs (removeLine items productID)) -> In x (lineIDs items)).
Proof.
  induction items as [|item items IH]; cbn [removeLine quantityOf lineIDs map]; intros Hnd.
  - repeat split; auto.
  - apply NoDup_cons in Hnd. destruct Hnd as [Hnotin Hnd].
    fold (lineIDs items) in *.
    destruct (String.eqb (ItemProductID item) productID) eqn:E.
    + apply String.eqb_eq in E. subst productID. split; [|split; [|split]].
      * apply quantityOf_None. intros H. apply Hnotin. apply list_elem_of_In. exact H.
      * intros other Ho. apply not_eq_sym in Ho. apply String.eqb_neq in Ho. rewrite Ho.
        reflexivity.
      * exact Hnd.
      * intros x Hx. right. exact Hx.
    + destruct (IH Hnd) as (H1 & H2 & H3 & H4).
      cbn [quantityOf lineIDs map]. fold (lineIDs (removeLine items productID)).
      rewrite E. split; [exact H1|]. split; [|split].
      * intros other Ho. destruct (String.eqb (ItemProductID item) other); [reflexivity|].
        apply H2. exact Ho.
      * apply NoDup_cons. split; [|exact H3].
        intros H. apply Hnotin. apply list_elem_of_In. apply H4. apply list_elem_of_In. exact H.
      * intros x [Hx|Hx]; [left; exact Hx|right; apply H4; exact Hx].
Qed.

Lemma setLine_spec (items : list CartItem) (productID : string) (quantity : Z) :
  lineIDs (setLine items productID quantity) = lineIDs items
  /\ quantityOf (setLine items productID quantity) productID
     = option_map (fun _ => quantity) (quantityOf items productID)
  /\ forall other, other <> productID ->
       quantityOf (setLine items productID quantity) other = quantityOf items other.
Proof.
  induction items as [|item items IH]; cbn [setLine quantityOf lineIDs map]; [auto|].
  destruct IH as (H1 & H2 & H3). fold (lineIDs items) in *.
  destruct (String.eqb (ItemProductID item) productID) eqn:E.
  - cbn [quantityOf lineIDs map withQuantity ItemProductID Quantity]. rewrite E.
    split; [reflexivity|]. split; [reflexivity|].
    intros other Ho. apply String.eqb_eq in E. subst productID.
    apply not_eq_sym in Ho. apply String.eqb_neq in Ho. rewrite Ho. reflexivity.
  - cbn [quantityOf lineIDs map]. fold (lineIDs (setLine items productID quantity)).
    rewrite E, H1. split; [reflexivity|]. split; [exact H2|].
    intros other Ho. destruct (String.eqb (ItemProductID item) other); [reflexivity|].
    apply H3. exact Ho.
Qed.

(** X29. On a cart without duplicate lines, [Cart.UpdateQuantity] with a
    positive quantity sets the quantity of a product the cart holds and
    does nothing for one it does not hold; with a quantity of zero or
    less it removes the product, as [RemoveItem] does; the other
    products are untouched and the lines stay free of duplicates. *)
Theorem UpdateQuantity_sets (c : Cart) (productID : string) (quantity : Z) :
  NoDup (lineIDs (Items c)) ->
  let c' := UpdateQuantity c productID quantity in
  quantityOf (Items c') productID
  = (if quantity <=? 0 then None
     else option_map (fun _ => quantity) (quantityOf (Items c) productID))
  /\ (forall other, other <> productID ->
        quantityOf (Items c') other = quantityOf (Items c) other)
  /\ NoDup (lineIDs (Items c'))
  /\ (quantity <= 0 -> c' = RemoveItem c productID).
Proof.
  intros Hnd c'. subst c'. unfold UpdateQuantity, RemoveItem.
  destruct (quantity <=? 0) eqn:E; cbn [Items].
  - destruct (removeLine_spec (Items c) productID Hnd) as (H1 & H2 & H3 & _).
    repeat split; assumption.
  - destruct (setLine_spec (Items c) productID quantity) as (H1 & H2 & H3).
    apply Z.leb_gt in E. split; [exact H2|]. split; [exact H3|]. split; [rewrite H1; exact Hnd|].
    intros. lia.
Qed.

(** The cart of four mice set to seven. *)
Lemma UpdateQuantity_witness :
  quantityOf (Items (UpdateQuantity Samples.fourMice "prod-2" 7)) "prod-2" = Some 7.
Proof.
  apply (UpdateQuantity_sets Samples.fourMice "prod-2" 7). apply NoDup_singleton.
Defined.
